(** * ChatSphere document-intelligence backend: ingestion pipeline,
      vector-store abstraction and query engine.

    The development embeds the Python sources
      - [backend/src/services/query_engine.py]
      - [backend/src/db/vector_store.py]
      - [backend/src/services/document_processor.py]
      - [backend/src/db/firebase.py] (the storage and Firestore calls used above)
      - [backend/src/utils/pdf_utils.py]
      - [backend/src/tasks/document_tasks.py]
      - [backend/src/api/documents.py] (the upload, delete and reindex endpoints)
    as Rocq functions.  Calls that leave the process (Firestore, Firebase
    storage, the vector database servers, the LLM provider, the embedding
    model, the file system) are modelled either by an explicit in-memory
    state or by an environment record that fixes what each call answers. *)

From Stdlib Require Import String Ascii List ZArith QArith Qround Lia Lqa Bool.
From stdpp Require Import base option list gmap strings pretty.
From Equations Require Import Equations.
Import ListNotations.

Local Open Scope string_scope.
Local Open Scope list_scope.

(** ** Python preliminaries *)

Module Py.

(** Outcome of a call that may raise: the exception carries [str(e)]. *)
Inductive result (A : Type) : Type :=
| Ok (a : A)
| Raise (msg : string).
Arguments Ok {A} a.
Arguments Raise {A} msg.

Definition is_ok {A} (r : result A) : bool :=
  match r with Ok _ => true | Raise _ => false end.

(** Computations over a mutable state [S]: the state survives a raise,
    as Python object mutations do. *)
Definition M (S A : Type) : Type := S -> result A * S.

Definition ret {S A} (a : A) : M S A := fun s => (Ok a, s).
Definition raise {S A} (msg : string) : M S A := fun s => (Raise msg, s).
Definition bind {S A B} (m : M S A) (k : A -> M S B) : M S B :=
  fun s => match m s with
           | (Ok a, s') => k a s'
           | (Raise e, s') => (Raise e, s')
           end.
Definition get {S} : M S S := fun s => (Ok s, s).
Definition modify {S} (f : S -> S) : M S unit := fun s => (Ok tt, f s).
Definition lift {S A} (r : result A) : M S A := fun s => (r, s).

(** [try: body  except Exception as e: handler e] *)
Definition try_except {S A} (body : M S A) (handler : string -> M S A) : M S A :=
  fun s => match body s with
           | (Ok a, s') => (Ok a, s')
           | (Raise e, s') => handler e s'
           end.

(** [try: body  finally: fin]; an exception raised by [fin] replaces the
    pending outcome of [body]. *)
Definition try_finally {S A} (body : M S A) (fin : M S unit) : M S A :=
  fun s => match body s with
           | (r, s') => match fin s' with
                        | (Ok _, s'') => (r, s'')
                        | (Raise e, s'') => (Raise e, s'')
                        end
           end.

(** The same for calls that touch no state. *)
Definition rbind {A B} (r : result A) (k : A -> result B) : result B :=
  match r with Ok a => k a | Raise e => Raise e end.
Definition rcatch {A} (r : result A) (handler : string -> result A) : result A :=
  match r with Ok a => Ok a | Raise e => handler e end.

Declare Scope py_scope.
Delimit Scope py_scope with py.
Notation "x <- c1 ;; c2" := (bind c1 (fun x => c2))
  (at level 100, c1 at next level, right associativity) : py_scope.
Notation "c1 ;;; c2" := (bind c1 (fun _ => c2))
  (at level 100, right associativity) : py_scope.

(** [x < y] on rationals *)
Definition Qltb (x y : Q) : bool := negb (Qle_bool y x).

(** *** Strings (ASCII range) *)

(** [str.isspace] on one character: TAB, LF, VT, FF, CR, FS, GS, RS, US
    and the space. *)
Definition is_space (c : ascii) : bool :=
  let n := nat_of_ascii c in
  ((9 <=? n)%nat && (n <=? 13)%nat) || ((28 <=? n)%nat && (n <=? 32)%nat).

(** [str.split()] with no argument: maximal runs of non-blank characters. *)
Fixpoint split_from (cur : string) (s : string) : list string :=
  match s with
  | EmptyString => if String.eqb cur "" then [] else [cur]
  | String c rest =>
      if is_space c
      then (if String.eqb cur "" then split_from "" rest
            else cur :: split_from "" rest)
      else split_from (cur +:+ String c "") rest
  end.

Definition split (s : string) : list string := split_from "" s.

Definition lower_char (c : ascii) : ascii :=
  let n := nat_of_ascii c in
  if ((65 <=? n)%nat && (n <=? 90)%nat) then ascii_of_nat (n + 32) else c.

(** [str.lower()] *)
Fixpoint lower (s : string) : string :=
  match s with
  | EmptyString => EmptyString
  | String c rest => String (lower_char c) (lower rest)
  end.

Fixpoint lstrip (s : string) : string :=
  match s with
  | EmptyString => EmptyString
  | String c rest => if is_space c then lstrip rest else s
  end.

Definition rstrip (s : string) : string :=
  String.rev (lstrip (String.rev s)).

(** [str.strip()] *)
Definition strip (s : string) : string := rstrip (lstrip s).

(** Truth value of a string: non-empty. *)
Definition truthy (s : string) : bool := negb (String.eqb s "").

(** Truth value of an optional string: neither [None] nor empty. *)
Definition opt_truthy (o : option string) : bool :=
  match o with Some s => truthy s | None => false end.

(** [sep.join(parts)] *)
Fixpoint join (sep : string) (parts : list string) : string :=
  match parts with
  | [] => ""
  | [p] => p
  | p :: ps => p +:+ sep +:+ join sep ps
  end.

End Py.

(** ** Query engine ([services/query_engine.py]) *)

Module QueryEngine.
Import Py.

(** [class RAGStatus] *)
Inductive RAGStatus : Type :=
| SUCCESS        (* "rag_success" *)
| FALLBACK       (* "llm_fallback" *)
| ERROR          (* "error" *)
| NO_RESULTS     (* "no_context_found" *)
| NO_DOCUMENTS.  (* "no_documents" *)

Definition RAGStatus_eqb (a b : RAGStatus) : bool :=
  match a, b with
  | SUCCESS, SUCCESS | FALLBACK, FALLBACK | ERROR, ERROR
  | NO_RESULTS, NO_RESULTS | NO_DOCUMENTS, NO_DOCUMENTS => true
  | _, _ => false
  end.

(** *** Query complexity ([_assess_query_complexity]) *)

Inductive Complexity : Type := low | medium | high.

Definition complex_indicators : list string :=
  ["why"; "how"; "explain"; "describe"; "compare"; "contrast";
   "analyze"; "relationship"; "difference"].

(** [x in xs] on a list of strings *)
Definition str_in (x : string) (xs : list string) : bool :=
  existsb (String.eqb x) xs.

Definition _assess_query_complexity (query : string) : Complexity :=
  let words := split query in
  let has_complex_indicator :=
    existsb (fun word => str_in (lower word) complex_indicators) words in
  if (15 <? length words)%nat || has_complex_indicator then high
  else if (8 <? length words)%nat then medium
  else low.

(** Lines 131-141 of [query]: [(similarity_top_k, similarity_cutoff)]. *)
Definition retrieval_parameters (complexity : Complexity) : nat * Q :=
  let similarity_top_k := 3%nat in
  let similarity_cutoff := 6 # 10 in
  match complexity with
  | high => (8%nat, 5 # 10)
  | medium => (5%nat, 55 # 100)
  | low => (similarity_top_k, similarity_cutoff)
  end.


(** *** Data *)

(** A [Groq(model=..., max_tokens=..., temperature=...)] client. *)
Record LLM : Type := Groq {
  model : string;
  max_tokens : Z;
  temperature : Q;
}.

(** The fields of [app_settings] read by the engine. *)
Record AppSettings : Type := {
  LLM_MODEL : string;
  LLM_MAX_TOKENS : Z;
  LLM_TEMPERATURE : Q;
  EMBEDDING_MODEL : string;
}.

(** [llama_index.core.Settings]: process-wide, shared by every call. *)
Record GlobalSettings : Type := {
  Settings_llm : LLM;
  Settings_embed_model : string;
}.

(** The engine object: [self.llm], [self.embeddings] are set once by
    [__init__]; [self.last_sources] is overwritten by [query]. *)
Record Self : Type := {
  self_llm : LLM;
  self_embeddings : string;
}.

Record Source : Type := {
  document_id : option string;
  chunk_id : option string;
  score : option Q;
}.

(** Mutable state a call can touch. *)
Record State : Type := {
  Settings : GlobalSettings;
  last_sources : list Source;
}.

(** [chatbot["settings"]], with the two keys the prompts read. *)
Record ChatbotSettings : Type := {
  role : option string;
  instructions : option string;
}.

(** A chatbot record as returned by [firestore.get_chatbot]; a missing key
    is [None]. *)
Record Chatbot : Type := {
  documents : option (list string);
  settings : option ChatbotSettings;
}.

Inductive MessageRole : Type := SYSTEM | USER | ASSISTANT.

Record ChatMessage : Type := {
  msg_role : MessageRole;
  content : string;
}.

(** The shapes [_query_llm_only] distinguishes in the value of
    [llm.chat(messages)]; a [None] content is a null [content]. *)
Inductive ChatResponse : Type :=
| WithMessage (message_content : option string)
| AsDict (dict_content : option string)
| AsStr (s : string)
| Unexpected.

(** [node.node.metadata] of a retrieved node. *)
Record NodeMetadata : Type := {
  md_document_id : option string;
  md_chunk_id : option string;
}.

(** An element of [response.source_nodes]; [sn_metadata = None] when the
    test [hasattr(node, 'node') and hasattr(node.node, 'metadata')] fails. *)
Record SourceNode : Type := {
  sn_metadata : option NodeMetadata;
  sn_score : option Q;
}.

(** The value of [query_engine.query(query)]: [str(response)] and
    [response.source_nodes] ([None] when the attribute is missing). *)
Record Response : Type := {
  response_str : string;
  source_nodes : option (list SourceNode);
}.

(** What the collaborators answer during one call of [query]. *)
Record Env : Type := {
  (** [self.firestore.get_chatbot(chatbot_id)] *)
  get_chatbot : string -> result (option Chatbot);
  (** [llm.chat(messages)] on the client [llm] *)
  llm_chat : LLM -> list ChatMessage -> result ChatResponse;
  (** [_create_vector_store_for_documents(document_ids)] followed by
      [VectorStoreIndex.from_vector_store] *)
  vector_store_index : list string -> result unit;
  (** [query_engine.query(query)] for a retriever of the given top-k, a
      postprocessor of the given cutoff and the given system prompt; the
      engine reads its LLM from the global settings *)
  engine_query : GlobalSettings -> nat -> Q -> option string -> string -> result Response;
}.

(** The value [query] returns. *)
Definition Answer : Type := (string * list Source * nat * RAGStatus)%type.

(** *** Prompts *)

Definition chatbot_role (chatbot : option Chatbot) : option string :=
  match chatbot with
  | Some cb => match settings cb with Some st => role st | None => None end
  | None => None
  end.

Definition chatbot_instructions (chatbot : option Chatbot) : option string :=
  match chatbot with
  | Some cb => match settings cb with Some st => instructions st | None => None end
  | None => None
  end.

(** The three optional parts shared by both prompt builders. *)
Definition prompt_parts (instructions : option string) (chatbot : option Chatbot) : list string :=
  (match chatbot_role chatbot with
   | Some r => if truthy r then ["You are a " +:+ r +:+ "."] else []
   | None => []
   end) ++
  (match chatbot_instructions chatbot with
   | Some i => if truthy i then [i] else []
   | None => []
   end) ++
  (match instructions with
   | Some i => if truthy i then [i] else []
   | None => []
   end).

Definition _build_system_prompt (instructions : option string) (chatbot : option Chatbot)
  : option string :=
  let prompt_parts := prompt_parts instructions chatbot ++
    ["Use ONLY the provided context to answer the question. If the context doesn't contain the answer, admit that you don't know rather than making up information."] in
  match prompt_parts with
  | [] => None
  | _ => Some (join " " prompt_parts)
  end.

Definition _build_llm_only_prompt (instructions : option string) (chatbot : option Chatbot)
  : string :=
  let prompt_parts := prompt_parts instructions chatbot ++
    ["Answer the user's question to the best of your ability based on your general knowledge."] in
  match prompt_parts with
  | [] => "You are a helpful assistant. Answer the user's question to the best of your ability."
  | _ => join " " prompt_parts
  end.

(** *** [create_service_context] *)

(** "Returns: None - updates global Settings". *)
Definition create_service_context (app : AppSettings) (self : Self)
    (temperature : option Q) : M State unit :=
  modify (fun st =>
    let llm :=
      match temperature with
      | Some t => Groq (LLM_MODEL app) (LLM_MAX_TOKENS app) t
      | None => self_llm self
      end in
    {| Settings := {| Settings_llm := llm;
                      Settings_embed_model := self_embeddings self |};
       last_sources := last_sources st |}).

(** *** [_query_llm_only] *)

(** The dictionary [{"response": text}]. *)
Definition response_dict (text : string) : gmap string string :=
  {[ "response" := text ]}.

(** The client [_query_llm_only] builds for itself (lines 329-337). *)
Definition llm_only_client (app : AppSettings) (temperature : option Q) : LLM :=
  let temp_value :=
    match temperature with Some t => t | None => LLM_TEMPERATURE app end in
  Groq (LLM_MODEL app) (LLM_MAX_TOKENS app) temp_value.

Definition _query_llm_only (app : AppSettings) (env : Env) (query_text : string)
    (temperature : option Q) (instructions : option string)
    (chatbot : option Chatbot) : result (gmap string string) :=
  rcatch
    (let system_prompt := _build_llm_only_prompt instructions chatbot in
     let messages :=
       (if truthy system_prompt
        then [{| msg_role := SYSTEM; content := system_prompt |}] else []) ++
       [{| msg_role := USER; content := query_text |}] in
     let llm := llm_only_client app temperature in
     rbind (llm_chat env llm messages) (fun response =>
     let response_content :=
       match response with
       | WithMessage c => c
       | AsDict c => c
       | AsStr s => Some s
       | Unexpected => Some "I'm having trouble generating a response right now."
       end in
     (* [len(response_content)] in the log line raises on a null content *)
     match response_content with
     | None => Raise "object of type 'NoneType' has no len()"
     | Some text => Ok (response_dict text)
     end))
    (fun _ =>
       Ok (response_dict
             "I'm having trouble generating a response right now. Please try again later.")).

(** [d.get("response", default)] *)
Definition get_response (d : gmap string string) (default_text : string) : string :=
  default default_text (d !! "response").

(** *** [query] *)

(** Truth value of an optional list: neither [None] nor empty. *)
Definition ids_truthy (o : option (list string)) : bool :=
  match o with Some (_ :: _) => true | _ => false end.

(** Lines 99-109: the chatbot is looked up only when an id is given and no
    explicit document list is; the local [chatbot] is the second component
    of the state. *)
Definition resolve_scope (env : Env) (chatbot_id : option string)
    (document_ids : option (list string))
  : M (State * option Chatbot) (option (list string)) :=
  (if opt_truthy chatbot_id && negb (ids_truthy document_ids)
   then
     chatbot <- lift (get_chatbot env (default "" chatbot_id)) ;;
     modify (fun '(st, _) => (st, chatbot)) ;;;
     match chatbot with
     | None => raise ("Chatbot " +:+ default "" chatbot_id +:+ " not found")
     | Some cb => ret (Some (default [] (documents cb)))
     end
   else ret document_ids)%py.

(** Runs a computation on the engine state inside the frame of [query]. *)
Definition on_state {A} (m : M State A) : M (State * option Chatbot) A :=
  fun '(st, cb) => match m st with (r, st') => (r, (st', cb)) end.

Definition source_of_node (node : SourceNode) : list Source :=
  match sn_metadata node with
  | Some md => [{| document_id := md_document_id md;
                   chunk_id := md_chunk_id md;
                   score := sn_score node |}]
  | None => []
  end.

Definition fallback_prefix : string :=
  "I couldn't find specific information about that in the knowledge base. ".

Definition empty_response_text : string :=
  "I apologize, but I'm having trouble generating a response based on the available information.".

(** [str(response)], replaced by an apology when blank (lines 194-197). *)
Definition answer_text (response : Response) : string :=
  if truthy (strip (response_str response)) then response_str response
  else empty_response_text.

(** The prompt handed to [update_prompts]: [if system_prompt: ...]. *)
Definition effective_prompt (instructions : option string) (chatbot : option Chatbot)
  : option string :=
  match _build_system_prompt instructions chatbot with
  | Some p => if truthy p then Some p else None
  | None => None
  end.

(** Lines 119-214: the body of the inner [try]. *)
Definition vector_search (app : AppSettings) (self : Self) (env : Env)
    (query : string) (document_ids : list string) (temperature : option Q)
    (instructions : option string)
  : M (State * option Chatbot) Answer :=
  (on_state (create_service_context app self temperature) ;;;
   lift (vector_store_index env document_ids) ;;;
   let complexity := _assess_query_complexity query in
   let '(similarity_top_k, similarity_cutoff) := retrieval_parameters complexity in
   frame <- get ;;
   let '(st, chatbot) := frame in
   let system_prompt := effective_prompt instructions chatbot in
   response <- lift (engine_query env (Settings st) similarity_top_k
                       similarity_cutoff system_prompt query) ;;
   let source_nodes := default [] (source_nodes response) in
   let rag_status := match source_nodes with [] => NO_RESULTS | _ => SUCCESS end in
   let sources := flat_map source_of_node source_nodes in
   on_state (modify (fun st => {| Settings := Settings st; last_sources := sources |})) ;;;
   let response_text := answer_text response in
   let rag_status :=
     match sources with
     | [] => if negb (RAGStatus_eqb rag_status NO_RESULTS) then FALLBACK else rag_status
     | _ => rag_status
     end in
   let tokens_used := (length (split query) + length (split response_text))%nat in
   let response_text :=
     if RAGStatus_eqb rag_status NO_RESULTS
     then (if String.prefix fallback_prefix response_text then response_text
           else fallback_prefix +:+ response_text)
     else response_text in
   ret (response_text, sources, tokens_used, rag_status))%py.

(** The body of the outer [try] (lines 91-224). *)
Definition query_body (app : AppSettings) (self : Self) (env : Env)
    (query : string) (document_ids : option (list string))
    (chatbot_id : option string) (temperature : option Q)
    (instructions : option string)
  : M (State * option Chatbot) Answer :=
  (document_ids <- resolve_scope env chatbot_id document_ids ;;
   frame <- get ;;
   let chatbot := snd frame in
   if negb (ids_truthy document_ids)
   then
     response <- lift (_query_llm_only app env query temperature instructions chatbot) ;;
     ret (get_response response "No response generated", [], 0%nat, NO_DOCUMENTS)
   else
     try_except
       (vector_search app self env query (default [] document_ids) temperature instructions)
       (fun vector_error =>
          let rag_status := ERROR in
          response <- lift (_query_llm_only app env query temperature instructions chatbot) ;;
          ret (get_response response "I encountered an error while accessing knowledge base.",
               [], 0%nat, rag_status)))%py.

(** [QueryEngine.query]; [max_tokens] and [model] are accepted and only
    logged. *)
Definition query (app : AppSettings) (self : Self) (env : Env)
    (query : string) (document_ids : option (list string))
    (chatbot_id : option string) (temperature : option Q)
    (instructions : option string) (max_tokens : option Z)
    (model : option string) : M State Answer :=
  fun st =>
    let run :=
      try_except
        (query_body app self env query document_ids chatbot_id temperature instructions)
        (fun e frame =>
           let chatbot := snd frame in
           try_except
             (response <- lift (_query_llm_only app env query temperature instructions chatbot) ;;
              ret (get_response response "I encountered an error while accessing knowledge base.",
                   [], 0%nat, FALLBACK))%py
             (fun fallback_error =>
                ret ("I apologize, but I encountered an unexpected error. Please try again later.",
                     [], 0%nat, ERROR))
             frame) in
    (* [chatbot = None] on entry *)
    match run (st, None) with
    | (r, (st', _)) => (r, st')
    end.

(** *** [_create_vector_store_for_documents] *)

(** The fields the class [Settings] of [core/config.py] declares. *)
Definition settings_fields : list string :=
  ["API_V1_STR"; "PROJECT_NAME"; "API_HOST"; "API_PORT"; "API_DEBUG";
   "REDIS_HOST"; "REDIS_PORT"; "BACKEND_CORS_ORIGINS";
   "FIREBASE_CREDENTIALS"; "FIREBASE_API_KEY"; "FIREBASE_AUTH_DOMAIN";
   "FIREBASE_PROJECT_ID"; "FIREBASE_STORAGE_BUCKET"; "FIREBASE_DATABASE_URL";
   "VECTOR_DB_TYPE";
   "ZILLIZ_URI"; "ZILLIZ_API_KEY"; "ZILLIZ_COLLECTION_NAME";
   "QDRANT_URL"; "QDRANT_API_KEY"; "QDRANT_COLLECTION_NAME";
   "GROQ_API_KEY"; "LLM_MODEL"; "LLM_MAX_TOKENS"; "LLM_TEMPERATURE";
   "EMBEDDING_MODEL"; "EMBEDDING_DIMENSION";
   "CHUNK_SIZE"; "CHUNK_OVERLAP";
   "FIRECRAWL_API_KEY";
   "CELERY_BROKER_URL"; "CELERY_RESULT_BACKEND"].

(** [app_settings.name], for the attributes that hold text: [values] gives
    the declared fields ([None] for one that is unset); an attribute the
    class does not declare raises [AttributeError]. *)
Definition getattr (values : string -> option string) (name : string)
  : result (option string) :=
  if str_in name settings_fields then Ok (values name)
  else Raise ("'Settings' object has no attribute '" +:+ name +:+ "'").

(** The double-quote character *)
Definition dquote : string := String (ascii_of_nat 34) EmptyString.

(** The [filter] handed to the Qdrant store:
    [{"document_id": id}] or [{"document_id": {"$in": ids}}]. *)
Inductive QdrantFilter : Type :=
| FieldIs (document_id : string)
| FieldIn (document_ids : list string).

(** The store that is built, by its class and constructor arguments. *)
Inductive VectorStoreArgs : Type :=
| QdrantVectorStore (url api_key collection_name : option string)
                    (filter : option QdrantFilter)
| MilvusVectorStore (uri token collection_name : option string)
                    (filter_expr : string).

(** The filter expression of the Milvus branch. *)
Definition milvus_filter_expr (document_ids : list string) : string :=
  match document_ids with
  | [d] => "document_id == " +:+ dquote +:+ d +:+ dquote
  | _ =>
      let doc_ids_str := join (dquote +:+ ", " +:+ dquote) document_ids in
      "document_id in [" +:+ dquote +:+ doc_ids_str +:+ dquote +:+ "]"
  end.

(** [_create_vector_store_for_documents]: the arguments with which the
    store is constructed (the handler of the [try] logs and re-raises). *)
Definition _create_vector_store_for_documents (values : string -> option string)
    (document_ids : list string) : result VectorStoreArgs :=
  rbind (getattr values "VECTOR_DB_TYPE") (fun vtype =>
  if bool_decide (vtype = Some "qdrant") then
    rbind (getattr values "QDRANT_URL") (fun url =>
    rbind (getattr values "QDRANT_API_KEY") (fun api_key =>
    let filter_expr :=
      match document_ids with
      | [] => None
      | [d] => Some (FieldIs d)
      | _ => Some (FieldIn document_ids)
      end in
    rbind (getattr values "QDRANT_COLLECTION_NAME") (fun collection_name =>
    Ok (QdrantVectorStore url api_key collection_name filter_expr))))
  else
    let filter_expr := milvus_filter_expr document_ids in
    rbind (getattr values "MILVUS_URI") (fun uri =>
    rbind (getattr values "MILVUS_TOKEN") (fun token =>
    rbind (getattr values "MILVUS_COLLECTION_NAME") (fun collection_name =>
    Ok (MilvusVectorStore uri token collection_name filter_expr))))).

(** The collaborators of [query] when the index comes from the store
    [_create_vector_store_for_documents] describes: [from_vector_store]
    is the constructor of the store followed by
    [VectorStoreIndex.from_vector_store]. *)
Definition with_store (values : string -> option string)
    (from_vector_store : VectorStoreArgs -> result unit) (env : Env) : Env :=
  {| get_chatbot := get_chatbot env;
     llm_chat := llm_chat env;
     vector_store_index := fun document_ids =>
       rbind (_create_vector_store_for_documents values document_ids)
         from_vector_store;
     engine_query := engine_query env |}.

(** *** [get_context] *)

(** A node [retriever.retrieve] returns: [node.get_content()],
    [node.score] and the two keys of [node.metadata] that are read. *)
Record RetrievedNode : Type := {
  rn_content : string;
  rn_score : option Q;
  rn_document_id : option string;
  rn_chunk_id : option string;
}.

(** What the collaborators answer during one call of [get_context]. *)
Record ContextEnv : Type := {
  (** [_create_vector_store_for_documents(document_ids)] followed by
      [VectorStoreIndex.from_vector_store] *)
  context_index : list string -> result unit;
  (** [retriever.retrieve(query)] for a retriever of top-k 3 over the
      given documents *)
  retrieve : list string -> string -> result (list RetrievedNode);
}.

(** The two characters of ["\n\n"]. *)
Definition blank_line : string :=
  String (ascii_of_nat 10) (String (ascii_of_nat 10) EmptyString).

(** The entry of [last_sources] for the [i]-th node; it is stored under
    the keys [documentId], [chunkId] and [score]. *)
Definition source_info (i : nat) (node : RetrievedNode) : Source :=
  let score := match rn_score node with
               | Some s => if Qeq_bool s 0 then 0%Q else s   (* [node.score or 0.0] *)
               | None => 0%Q
               end in
  let doc_id := default "unknown" (rn_document_id node) in
  let chunk_id := default ("chunk-" +:+ pretty i) (rn_chunk_id node) in
  {| document_id := Some doc_id; chunk_id := Some chunk_id; score := Some score |}.

Definition set_last_sources (sources : list Source) : M State unit :=
  modify (fun st => {| Settings := Settings st; last_sources := sources |}).

(** [get_context] *)
Definition get_context (app : AppSettings) (self : Self) (env : ContextEnv)
    (query : string) (document_ids : list string) : M State (option string) :=
  try_except
    (match document_ids with
     | [] => set_last_sources [] ;;; ret None
     | _ =>
         create_service_context app self None ;;;
         try_except
           (lift (context_index env document_ids) ;;;
            retrieved_nodes <- lift (retrieve env document_ids query) ;;
            match retrieved_nodes with
            | [] => set_last_sources [] ;;; ret None
            | _ =>
                let context_texts := map rn_content retrieved_nodes in
                set_last_sources (imap source_info retrieved_nodes) ;;;
                ret (Some (join blank_line context_texts))
            end)
           (fun vector_error => set_last_sources [] ;;; ret None)
     end)%py
    (fun e => (set_last_sources [] ;;; ret None)%py).

End QueryEngine.

(** ** Vector store ([db/vector_store.py]) *)

Module VectorStore.
Import Py.

(** *** Records handed to the store *)

(** A component of an embedding: a number, or the float NaN. *)
Inductive float : Type :=
| Num (q : Q)
| NaN.

(** [np.isnan] *)
Definition isnan (v : float) : bool :=
  match v with NaN => true | Num _ => false end.

(** JSON scalars that occur in chunk metadata. *)
Inductive json : Type :=
| JNull
| JStr (s : string)
| JInt (z : Z).

(** A Python dict with string keys, in insertion order. *)
Definition jdict : Type := list (string * json).

(** The [metadata] entry of a record: a JSON string or a dict. *)
Inductive Metadata : Type :=
| MetaStr (s : string)
| MetaDict (d : jdict).

(** One element of [embeddings_data]; a key that is missing is [None]. *)
Record EmbeddingData : Type := {
  id : option string;
  document_id : option string;
  chunk_id : option string;
  text : option string;
  embedding : option (list float);
  metadata : option Metadata;
}.

(** A record that passed validation, which is also a row of the Milvus
    collection: every field of the schema is present and [metadata] is a
    string. *)
Record Entity : Type := {
  e_id : string;
  e_document_id : string;
  e_chunk_id : string;
  e_text : string;
  e_metadata : string;
  e_embedding : list float;
}.

(** Longest text or metadata stored as is ("slightly under the max of
    65535 to be safe"). *)
Definition MAX_FIELD : N := 65000.

(** [len(s) > 65000] *)
Definition too_long (s : string) : bool :=
  (MAX_FIELD <? N.of_nat (String.length s))%N.

(** [s[:65000]] *)
Definition truncate (s : string) : string := substring 0 (N.to_nat MAX_FIELD) s.

(** The [json] module. *)
Record Json : Type := {
  dumps : jdict -> string;
  loads : string -> result jdict;
}.

(** *** MilvusDB *)

Module MilvusDB.

Record IndexParams : Type := {
  metric_type : string;
  index_type : string;
  param_M : nat;
  efConstruction : nat;
}.

(** A collection on the server: the dimension of its vector field, its
    index, whether it is loaded, and its rows. *)
Record Collection : Type := {
  dim : nat;
  index : option IndexParams;
  loaded : bool;
  entities : list Entity;
}.

(** The client object together with the server it talks to. *)
Record World : Type := {
  collection_name : string;
  dimension : nat;
  connection_established : bool;
  server : gmap string Collection;
  (** number of [connections.connect] calls made so far *)
  connect_calls : nat;
}.

(** [self.max_retries = 3] *)
Definition max_retries : nat := 3.

(** A search hit: [hit.score] and the output fields of [hit.entity]. *)
Record Hit : Type := {
  hit_score : Q;
  hit_document_id : option string;
  hit_chunk_id : option string;
  hit_text : option string;
  hit_metadata : option string;
}.

(** An element of the list [search_similar] returns. *)
Record Found : Type := {
  f_document_id : option string;
  f_chunk_id : option string;
  f_text : option string;
  f_metadata : option string;
  f_score : option Q;
}.

(** What the server answers. *)
Record Env : Type := {
  (** outcome of the n-th [connections.connect] *)
  connect : nat -> result unit;
  (** outcome of [collection.insert] at the given attempt of the retry loop *)
  insert : nat -> result unit;
  (** hits of [collection.search] for the query at hand, best first, given
      the limit *)
  search : nat -> result (list Hit);
  (** outcome of [collection.delete(expr)] *)
  delete_rows : string -> result unit;
}.

Definition set_connection (b : bool) (w : World) : World :=
  {| collection_name := collection_name w; dimension := dimension w;
     connection_established := b; server := server w;
     connect_calls := connect_calls w |}.

Definition count_connect (w : World) : World :=
  {| collection_name := collection_name w; dimension := dimension w;
     connection_established := connection_established w; server := server w;
     connect_calls := S (connect_calls w) |}.

Definition set_server (srv : gmap string Collection) (w : World) : World :=
  {| collection_name := collection_name w; dimension := dimension w;
     connection_established := connection_established w; server := srv;
     connect_calls := connect_calls w |}.

(** [connect_with_retry(retries)]: the [for] loop with [remaining]
    iterations left; [None] is the value of falling off the loop. *)
Fixpoint connect_with_retry (env : Env) (remaining : nat) : M World (option bool) :=
  fun w =>
    match remaining with
    | O => (Ok None, w)
    | S rest =>
        match connect env (connect_calls w) with
        | Ok _ => (Ok (Some true), set_connection true (count_connect w))
        | Raise e =>
            match rest with
            | O => (Raise e, set_connection false (count_connect w))
            | S _ => connect_with_retry env rest (count_connect w)
            end
        end
    end.

Definition new_collection (dimension : nat) : Collection :=
  {| dim := dimension;
     index := Some {| metric_type := "COSINE"; index_type := "HNSW";
                      param_M := 8; efConstruction := 64 |};
     loaded := false;
     entities := [] |}.

Definition load (c : Collection) : Collection :=
  {| dim := dim c; index := index c; loaded := true; entities := entities c |}.

(** [initialize_collection] *)
Definition initialize_collection : M World bool :=
  fun w =>
    if negb (connection_established w) then (Ok false, w)
    else
      let has_collection := bool_decide (is_Some (server w !! collection_name w)) in
      let srv :=
        if negb has_collection
        then <[collection_name w := new_collection (dimension w)]> (server w)
        else server w in
      (Ok true, set_server (alter load (collection_name w) srv) w).

(** One iteration of the loop of [validate_embeddings]: the validated
    record, or [None] when the record is skipped. *)
Definition validate_one (js : Json) (dimension : nat) (data : EmbeddingData)
  : option Entity :=
  match id data, document_id data, chunk_id data, text data, embedding data with
  | Some i, Some d, Some c, Some t, Some e =>
      if negb (length e =? dimension)%nat then None
      else if existsb isnan e then None
      else
        let t := if too_long t then truncate t else t in
        let m :=
          match metadata data with
          | None => dumps js [("document_id", JStr d); ("chunk_id", JStr c)]
          | Some (MetaDict md) => dumps js md
          | Some (MetaStr s) => s
          end in
        let m := if too_long m then truncate m else m in
        Some {| e_id := i; e_document_id := d; e_chunk_id := c; e_text := t;
                e_metadata := m; e_embedding := e |}
  | _, _, _, _, _ => None
  end.

(** [validate_embeddings] *)
Definition validate_embeddings (js : Json) (dimension : nat)
    (embeddings_data : list EmbeddingData) : list Entity :=
  omap (validate_one js dimension) embeddings_data.

(** The retry loop around [collection.insert], [remaining] iterations
    left, [attempt] the loop variable; returns whether the rows went in. *)
Fixpoint insert_with_retry (env : Env) (remaining attempt : nat) : result bool :=
  match remaining with
  | O => Ok false
  | S rest =>
      match insert env attempt with
      | Ok _ => Ok true
      | Raise e =>
          match rest with
          | O => Raise e
          | S _ => insert_with_retry env rest (S attempt)
          end
      end
  end.

Definition add_entities (rows : list Entity) (c : Collection) : Collection :=
  {| dim := dim c; index := index c; loaded := loaded c;
     entities := entities c ++ rows |}.

(** [insert_embeddings] *)
Definition insert_embeddings (js : Json) (env : Env)
    (embeddings_data : list EmbeddingData) : M World (list string) :=
  match embeddings_data with
  | [] => ret []
  | _ =>
    (connected <- (fun w =>
        if negb (connection_established w)
        then match connect_with_retry env max_retries w with
             | (Ok _, w') => (Ok (connection_established w'), w')
             | (Raise e, w') => (Raise e, w')
             end
        else (Ok true, w)) ;;
     if negb connected then ret []
     else
       w <- get ;;
       let valid_embeddings := validate_embeddings js (dimension w) embeddings_data in
       match valid_embeddings with
       | [] => ret []
       | _ =>
           let ids := map e_id valid_embeddings in
           inserted <- lift (insert_with_retry env max_retries 0) ;;
           (if inserted : bool
            then modify (fun w =>
                   set_server (alter (add_entities valid_embeddings)
                                 (collection_name w) (server w)) w)
            else ret tt) ;;;
           ret ids
       end)%py
  end.

Definition format_hit (hit : Hit) : Found :=
  {| f_document_id := hit_document_id hit;
     f_chunk_id := hit_chunk_id hit;
     f_text := hit_text hit;
     f_metadata := hit_metadata hit;
     f_score := Some (hit_score hit) |}.

(** The loop that formats the hits and applies the cutoff
    ([if hit.score < similarity_cutoff: continue]). *)
Definition passing (similarity_cutoff : Q) (hits : list Hit) : list Found :=
  map format_hit
    (List.filter (fun hit => negb (Qltb (hit_score hit) similarity_cutoff)) hits).

(** Number of times a cutoff can still be lowered by 0.2 while above 0.4
    does not exceed this. *)
Definition relax_steps (similarity_cutoff : Q) : nat :=
  Z.to_nat (Qceiling (similarity_cutoff * 5)).

(** [search_similar]; the cutoff and the scores are exact rationals, so
    [similarity_cutoff - 0.2] is taken without rounding. *)
Equations? search_similar (env : Env) (limit : nat) (similarity_cutoff : Q)
    (w : World) : result (list Found) * World
  by wf (relax_steps similarity_cutoff) lt :=
search_similar env limit similarity_cutoff w :=
  try_except
    (fun w =>
       match (if negb (connection_established w)
              then match connect_with_retry env max_retries w with
                   | (Ok _, w') => (Ok (connection_established w'), w')
                   | (Raise e, w') => (Raise e, w')
                   end
              else (Ok true, w)) with
       | (Raise e, w') => (Raise e, w')
       | (Ok false, w') => (Ok [], w')
       | (Ok true, w') =>
           match search env limit with
           | Raise e => (Raise e, w')
           | Ok results =>
               let formatted_results := passing similarity_cutoff results in
               match formatted_results with
               | _ :: _ => (Ok formatted_results, w')
               | [] =>
                   match Qlt_le_dec (4 # 10) similarity_cutoff with
                   | left _ => search_similar env limit (similarity_cutoff - (2 # 10)) w'
                   | right _ => (Ok formatted_results, w')
                   end
               end
           end
       end)
    (fun e w =>
       match connect_with_retry env 1 (set_connection false w) with
       | (Ok _, w') => (Raise e, w')
       | (Raise e', w') => (Raise e', w')
       end)
    w.
Proof.
  rename similarity_cutoff into c.
  assert (Hc : (4 # 10 < c)%Q) by assumption.
  unfold relax_steps.
  assert (Heq : ((c - (2 # 10)) * 5 == c * 5 - 1)%Q) by ring.
  rewrite Heq.
  pose proof (Qle_ceiling (c * 5)) as Hup.
  pose proof (Qceiling_lt (c * 5 - 1)) as Hlo.
  assert (Hpos : (0 < Qceiling (c * 5))%Z).
  { rewrite Zlt_Qlt. eapply Qlt_le_trans; [ | exact Hup ].
    apply Qlt_trans with (y := ((4 # 10) * 5)%Q); [ reflexivity | ].
    apply Qmult_lt_compat_r; [ reflexivity | exact Hc ]. }
  assert (Hlt : (Qceiling (c * 5 - 1) - 1 < Qceiling (c * 5) - 1)%Z).
  { rewrite Zlt_Qlt. eapply Qlt_le_trans; [ exact Hlo | ].
    unfold Z.sub. rewrite inject_Z_plus. unfold Qminus.
    apply Qplus_le_compat; [ exact Hup | discriminate ]. }
  lia.
Qed.

Definition remove_entities (document_id : string) (c : Collection) : Collection :=
  {| dim := dim c; index := index c; loaded := loaded c;
     entities := List.filter (fun e => negb (String.eqb (e_document_id e) document_id))
                   (entities c) |}.

(** [delete_by_document_id] *)
Definition delete_by_document_id (env : Env) (document_id : string) : M World bool :=
  (connected <- (fun w =>
      if negb (connection_established w)
      then match connect_with_retry env max_retries w with
           | (Ok _, w') => (Ok (connection_established w'), w')
           | (Raise e, w') => (Raise e, w')
           end
      else (Ok true, w)) ;;
   if negb connected then ret false
   else
     try_except
       (lift (delete_rows env document_id) ;;;
        modify (fun w => set_server (alter (remove_entities document_id)
                                       (collection_name w) (server w)) w) ;;;
        ret true)
       (fun _ => ret false))%py.

(** [MilvusDB.__init__] against a server that holds [srv], after [calls]
    earlier connection attempts of the process: [connect_with_retry()]
    followed by [initialize_collection()].  The object exists only when
    nothing is raised. *)
Definition __init__ (env : Env) (ZILLIZ_COLLECTION_NAME : string)
    (EMBEDDING_DIMENSION : nat) (srv : gmap string Collection) (calls : nat)
  : result unit * World :=
  (connect_with_retry env max_retries ;;;
   initialize_collection ;;;
   ret tt)%py
    {| collection_name := ZILLIZ_COLLECTION_NAME;
       dimension := EMBEDDING_DIMENSION;
       connection_established := false;
       server := srv;
       connect_calls := calls |}.

End MilvusDB.

(** *** QdrantDB *)

Module QdrantDB.

Inductive Distance : Type := COSINE | EUCLID | DOT.

(** [PointStruct(id=pid, vector=vector, payload=payload)] *)
Record PointStruct : Type := {
  point_id : option string;
  vector : option (list float);
  payload : gmap string json;
}.

(** A collection on the server: [VectorParams(size, distance)] and the
    stored points. *)
Record Collection : Type := {
  size : nat;
  distance : Distance;
  points : list PointStruct;
}.

Record World : Type := {
  collection_name : string;
  dimension : nat;
  server : gmap string Collection;
}.

(** A hit of [client.search]. *)
Record ScoredPoint : Type := {
  sp_score : option Q;
  sp_payload : option (gmap string json);
}.

Record Found : Type := {
  f_document_id : option json;
  f_chunk_id : option json;
  f_text : option json;
  f_metadata : gmap string json;
  f_score : option Q;
}.

(** What the server answers. *)
Record Env : Type := {
  (** [client.upsert(collection_name, points, wait=True)] on a server state *)
  upsert : gmap string Collection -> string -> list PointStruct ->
           result (gmap string Collection);
  (** hits of [client.search] for the query at hand, given the limit *)
  search : nat -> result (list ScoredPoint);
  (** outcome of [client.delete(collection_name, filter)] *)
  delete_points : string -> result unit;
}.

(** [QdrantDB.__init__] against the server state [srv]. *)
Definition __init__ (QDRANT_COLLECTION_NAME : string) (EMBEDDING_DIMENSION : nat)
    (srv : gmap string Collection) : World :=
  let names := dom srv in
  (* "If collection exists, delete it to ensure correct configuration" *)
  let srv :=
    if bool_decide (QDRANT_COLLECTION_NAME ∈ names)
    then delete QDRANT_COLLECTION_NAME srv else srv in
  let srv :=
    <[QDRANT_COLLECTION_NAME :=
        {| size := EMBEDDING_DIMENSION; distance := COSINE; points := [] |}]> srv in
  {| collection_name := QDRANT_COLLECTION_NAME;
     dimension := EMBEDDING_DIMENSION;
     server := srv |}.

(** [data.get(key)] as a JSON value *)
Definition get_json (o : option string) : json :=
  match o with Some s => JStr s | None => JNull end.

(** The body of the loop of [insert_embeddings]: the point built from one
    record. *)
Definition point_of (js : Json) (data : EmbeddingData) : PointStruct :=
  let payload : gmap string json :=
    {[ "document_id" := get_json (document_id data);
       "chunk_id" := get_json (chunk_id data);
       "text" := get_json (text data) ]} in
  let payload :=
    match metadata data with
    | Some (MetaStr meta) =>
        if truthy meta
        then match loads js meta with
             | Ok d => (list_to_map d : gmap string json) ∪ payload
             | Raise _ => payload
             end
        else payload
    | Some (MetaDict _) => payload   (* [json.loads] of a dict raises; passed over *)
    | None => payload
    end in
  {| point_id := id data; vector := embedding data; payload := payload |}.

(** [insert_embeddings] *)
Definition insert_embeddings (js : Json) (env : Env)
    (embeddings_data : list EmbeddingData) : M World (list (option string)) :=
  match embeddings_data with
  | [] => ret []
  | _ =>
      let points := map (point_of js) embeddings_data in
      let ids := map id embeddings_data in
      fun w =>
        match upsert env (server w) (collection_name w) points with
        | Ok srv => (Ok ids, {| collection_name := collection_name w;
                                dimension := dimension w; server := srv |})
        | Raise e => (Raise e, w)
        end
  end.

Definition format_hit (hit : ScoredPoint) : Found :=
  let payload := default ∅ (sp_payload hit) in
  {| f_document_id := payload !! "document_id";
     f_chunk_id := payload !! "chunk_id";
     f_text := payload !! "text";
     f_metadata := payload;
     f_score := sp_score hit |}.

(** [score is not None and score < similarity_cutoff] *)
Definition below_cutoff (similarity_cutoff : Q) (hit : ScoredPoint) : bool :=
  match sp_score hit with
  | Some score => Qltb score similarity_cutoff
  | None => false
  end.

(** [search_similar] *)
Definition search_similar (env : Env) (limit : nat) (similarity_cutoff : Q)
  : M World (list Found) :=
  (results <- lift (search env limit) ;;
   ret (map format_hit
          (List.filter (fun hit => negb (below_cutoff similarity_cutoff hit)) results)))%py.

Definition remove_points (document_id : string) (c : Collection) : Collection :=
  {| size := size c; distance := distance c;
     points := List.filter
                 (fun p => negb (match payload p !! "document_id" with
                                 | Some (JStr d) => String.eqb d document_id
                                 | _ => false
                                 end))
                 (points c) |}.

(** [delete_by_document_id] *)
Definition delete_by_document_id (env : Env) (document_id : string) : M World bool :=
  try_except
    (lift (delete_points env document_id) ;;;
     modify (fun w => {| collection_name := collection_name w;
                         dimension := dimension w;
                         server := alter (remove_points document_id)
                                     (collection_name w) (server w) |}) ;;;
     ret true)%py
    (fun _ => ret false).

End QdrantDB.

(** *** The contract shared by the two backends, as the callers use it *)

Class VectorDB (V : Type) : Type := {
  vdb_insert_embeddings : list EmbeddingData -> M V (list (option string));
  vdb_delete_by_document_id : string -> M V bool;
}.

#[export] Instance Milvus_VectorDB (js : Json) (env : MilvusDB.Env)
  : VectorDB MilvusDB.World := {
  vdb_insert_embeddings data :=
    (ids <- MilvusDB.insert_embeddings js env data ;; ret (map Some ids))%py;
  vdb_delete_by_document_id := MilvusDB.delete_by_document_id env;
}.

#[export] Instance Qdrant_VectorDB (js : Json) (env : QdrantDB.Env)
  : VectorDB QdrantDB.World := {
  vdb_insert_embeddings := QdrantDB.insert_embeddings js env;
  vdb_delete_by_document_id := QdrantDB.delete_by_document_id env;
}.

(** *** [get_vector_db] *)

(** The fields of [settings] ([core/config.py]) the vector store reads. *)
Record Config : Type := {
  VECTOR_DB_TYPE : string;
  ZILLIZ_COLLECTION_NAME : string;
  QDRANT_COLLECTION_NAME : string;
  EMBEDDING_DIMENSION : nat;
}.

(** The object [get_vector_db] returns: an instance of one of the two
    classes. *)
Inductive Client : Type :=
| Milvus (client : MilvusDB.World)
| Qdrant (client : QdrantDB.World).

(** The Zilliz server as the process last saw it: its collections and the
    number of connection attempts made so far.  A backend that was not in
    use starts from a server that holds nothing. *)
Definition zilliz_server (previous : Client)
  : gmap string MilvusDB.Collection * nat :=
  match previous with
  | Milvus w => (MilvusDB.server w, MilvusDB.connect_calls w)
  | Qdrant _ => (∅, 0%nat)
  end.

(** The same for the Qdrant server. *)
Definition qdrant_server (previous : Client) : gmap string QdrantDB.Collection :=
  match previous with
  | Qdrant w => QdrantDB.server w
  | Milvus _ => ∅
  end.

(** [get_vector_db()]: the state is the client the process holds; the new
    client replaces it. *)
Definition get_vector_db (settings : Config) (env : MilvusDB.Env) : M Client unit :=
  fun previous =>
    let vtype := lower (VECTOR_DB_TYPE settings) in
    if String.eqb vtype "zilliz" then
      let '(srv, calls) := zilliz_server previous in
      match MilvusDB.__init__ env (ZILLIZ_COLLECTION_NAME settings)
              (EMBEDDING_DIMENSION settings) srv calls with
      | (r, w) => (r, Milvus w)
      end
    else if String.eqb vtype "qdrant" then
      (Ok tt,
       Qdrant (QdrantDB.__init__ (QDRANT_COLLECTION_NAME settings)
                 (EMBEDDING_DIMENSION settings) (qdrant_server previous)))
    else
      (Raise ("Unsupported vector DB type: " +:+ VECTOR_DB_TYPE settings), previous).

(** Calls on [self.vector_db] go to the class of the object. *)
#[export] Instance Client_VectorDB (js : Json) (menv : MilvusDB.Env)
    (qenv : QdrantDB.Env) : VectorDB Client := {
  vdb_insert_embeddings data := fun c =>
    match c with
    | Milvus w =>
        match vdb_insert_embeddings (VectorDB := Milvus_VectorDB js menv) data w with
        | (r, w') => (r, Milvus w')
        end
    | Qdrant w =>
        match vdb_insert_embeddings (VectorDB := Qdrant_VectorDB js qenv) data w with
        | (r, w') => (r, Qdrant w')
        end
    end;
  vdb_delete_by_document_id document_id := fun c =>
    match c with
    | Milvus w =>
        match MilvusDB.delete_by_document_id menv document_id w with
        | (r, w') => (r, Milvus w')
        end
    | Qdrant w =>
        match QdrantDB.delete_by_document_id qenv document_id w with
        | (r, w') => (r, Qdrant w')
        end
    end;
}.

End VectorStore.

(** ** Document pipeline ([services/document_processor.py]) *)

Module DocumentProcessor.
Import Py.
Import VectorStore.

(** *** Records *)

(** [class ProcessingStep] *)
Definition DOWNLOAD : string := "download".
Definition TEXT_EXTRACTION : string := "text_extraction".
Definition CHUNKING : string := "chunking".
Definition EMBEDDING : string := "embedding".
Definition STORAGE : string := "storage".
Definition CLEANUP : string := "cleanup".

(** [class ProcessingStepStatus] *)
Inductive ProcessingStepStatus : Type :=
| PENDING
| IN_PROGRESS
| COMPLETED
| FAILED.

(** An entry of [processing_stats["steps"]] (the timestamp is left out). *)
Record StepInfo : Type := {
  status : ProcessingStepStatus;
  step_error : option string;
}.

(** The dictionary [processing_stats]; a key that is missing is [None]. *)
Record Stats : Type := {
  startTime : option string;
  steps : option (gmap string StepInfo);
  stepTimes : option (gmap string Q);
  endTime : option string;
  totalTime : option Q;
  stats_chunkCount : option nat;
}.

(** Values of the fields of a Firestore document. *)
Inductive Value : Type :=
| VNone
| VStr (s : string)
| VInt (n : Z)
| VFloat (q : Q)
| VIds (l : list string)
| VStats (s : Stats)
| VMap (d : list (string * Value)).

(** A Firestore document: a dictionary of fields. *)
Abbreviation Doc := (gmap string Value).

(** A chunk prepared for insertion ([chunk_data]). *)
Record Chunk : Type := {
  c_id : string;
  c_document_id : string;
  c_chunk_id : string;
  c_text : string;
  c_embedding : list float;
  c_metadata : string;
}.

Definition to_embedding_data (c : Chunk) : EmbeddingData :=
  {| id := Some (c_id c); document_id := Some (c_document_id c);
     chunk_id := Some (c_chunk_id c); text := Some (c_text c);
     embedding := Some (c_embedding c); metadata := Some (MetaStr (c_metadata c)) |}.

(** A llama-index [Document]: its text and metadata. *)
Record LDocument : Type := {
  doc_text : string;
  doc_metadata : jdict;
}.

(** A node produced by the splitter. *)
Record Node : Type := {
  node_content : string;     (* [node.get_content(metadata_mode="none")] *)
  node_metadata : jdict;
}.

(** The value [process_document] returns: [{"error": msg}] or the result
    dictionary. *)
Inductive ProcessResult : Type :=
| ErrorResult (error : string)
| ResultData (chunk_count : nat) (vector_ids : list string) (processing_time : Q)
             (processing_stats : Stats).

Section Pipeline.

(** The vector database selected by [get_vector_db()]. *)
Context {V : Type} (vector_db : VectorDB V).

(** Everything outside the processor that the pipeline reads or writes. *)
Record World : Type := {
  (** Firestore collection [documents] *)
  firestore : gmap string Doc;
  (** objects in the Firebase storage bucket *)
  bucket : gset string;
  (** files in the local scratch directory *)
  tmpfiles : gset string;
  (** the vector database *)
  vdb : V;
}.

(** What the collaborators answer during one run. *)
Record Env : Type := {
  (** clock reading used for every timestamp *)
  now : string;
  (** measured duration of a step, in seconds *)
  elapsed : string -> Q;
  (** name picked by [tempfile.NamedTemporaryFile], without the suffix *)
  tempname : string;
  (** outcome of [blob.download_to_filename] for a storage path *)
  download_to_filename : string -> result unit;
  (** an OS error met by [os.unlink], if any *)
  unlink_error : option string;
  (** [extract_text_from_pdf(file_path)] *)
  extract_text_from_pdf : string -> option string;
  (** [open(file_path).read()] *)
  read_text : string -> result string;
  (** [SimpleDirectoryReader(input_files=[file_path]).load_data()] *)
  load_data : string -> result (list LDocument);
  (** [SentenceSplitter(...).get_nodes_from_documents(documents)] *)
  get_nodes_from_documents : list LDocument -> result (list Node);
  (** [self.embeddings.get_text_embedding_batch(texts)] *)
  get_text_embedding_batch : list string -> result (list (list float));
  (** the i-th [uuid.uuid4()] of the storage step *)
  uuid4 : nat -> string;
  (** the [json] module *)
  json_module : Json;
}.

(** The state of one run: the world and the local [processing_stats]
    dictionary, which [_update_processing_status] mutates in place. *)
Record Frame : Type := {
  world : World;
  processing_stats : Stats;
  (** the local variable [current_step] of the running function *)
  current_step : option string;
}.

Definition set_firestore (fs : gmap string Doc) (w : World) : World :=
  {| firestore := fs; bucket := bucket w; tmpfiles := tmpfiles w; vdb := vdb w |}.

Definition set_bucket (b : gset string) (w : World) : World :=
  {| firestore := firestore w; bucket := b; tmpfiles := tmpfiles w; vdb := vdb w |}.

Definition set_tmpfiles (t : gset string) (w : World) : World :=
  {| firestore := firestore w; bucket := bucket w; tmpfiles := t; vdb := vdb w |}.

Definition set_vdb (v : V) (w : World) : World :=
  {| firestore := firestore w; bucket := bucket w; tmpfiles := tmpfiles w; vdb := v |}.

(** Runs a computation on the world inside a frame. *)
Definition on_world {A} (m : M World A) : M Frame A :=
  fun f => match m (world f) with
           | (r, w) => (r, {| world := w; processing_stats := processing_stats f;
                              current_step := current_step f |})
           end.

(** Runs a computation on the vector database inside a world. *)
Definition on_vdb {A} (m : M V A) : M World A :=
  fun w => match m (vdb w) with (r, v) => (r, set_vdb v w) end.

Definition set_stats (s : Stats) : M Frame unit :=
  fun f => (Ok tt, {| world := world f; processing_stats := s;
                      current_step := current_step f |}).

Definition set_current_step (step : option string) : M Frame unit :=
  fun f => (Ok tt, {| world := world f; processing_stats := processing_stats f;
                      current_step := step |}).

(** Runs a callee with a [current_step] of its own, initially [None]; the
    caller's variable is untouched. *)
Definition call {A} (m : M Frame A) : M Frame A :=
  fun f =>
    match m {| world := world f; processing_stats := processing_stats f;
               current_step := None |} with
    | (r, f') => (r, {| world := world f'; processing_stats := processing_stats f';
                        current_step := current_step f |})
    end.

(** *** Firestore and storage ([db/firebase.py]) *)

(** [FirestoreDB.get_document] *)
Definition get_document (document_id : string) : M World (option Doc) :=
  fun w => (Ok (firestore w !! document_id), w).

(** [FirestoreDB.update_document]: [doc_ref.update(data)] merges the given
    fields into an existing document and fails on a missing one. *)
Definition update_document (env : Env) (document_id : string) (data : Doc)
  : M World unit :=
  fun w =>
    let data := <["updatedAt" := VStr (now env)]> data in
    match firestore w !! document_id with
    | Some doc => (Ok tt, set_firestore (<[document_id := data ∪ doc]> (firestore w)) w)
    | None => (Raise ("404 No document to update: " +:+ document_id), w)
    end.

(** [FirestoreDB.delete_document] *)
Definition firestore_delete_document (document_id : string) : M World unit :=
  modify (fun w => set_firestore (delete document_id (firestore w)) w).

(** [os.path.basename] *)
Fixpoint basename_from (cur : string) (p : string) : string :=
  match p with
  | EmptyString => cur
  | String c rest =>
      if Ascii.eqb c "/" then basename_from "" rest
      else basename_from (cur +:+ String c "") rest
  end.

Definition basename (p : string) : string := basename_from "" p.

Fixpoint strip_leading_dots (s : string) : string :=
  match s with
  | String c rest => if Ascii.eqb c "." then strip_leading_dots rest else s
  | EmptyString => EmptyString
  end.

(** The text from the last dot on, if there is a dot. *)
Fixpoint last_suffix (cur : option string) (s : string) : string :=
  match s with
  | EmptyString => default "" cur
  | String c rest =>
      if Ascii.eqb c "." then last_suffix (Some ".") rest
      else last_suffix ((fun e => e +:+ String c "") <$> cur) rest
  end.

(** [os.path.splitext(p)[1]] *)
Definition extension (p : string) : string :=
  last_suffix None (strip_leading_dots (basename p)).

(** [FirebaseStorage.download_file] *)
Definition download_file (env : Env) (source_path : string) : M World string :=
  fun w =>
    if negb (bool_decide (source_path ∈ bucket w))
    then (Raise ("File not found in storage at " +:+ source_path), w)
    else
      let original_filename := basename source_path in
      let temp_file := tempname env +:+ extension original_filename in
      (* the file is created with [delete=False] before the download *)
      let w := set_tmpfiles ({[ temp_file ]} ∪ tmpfiles w) w in
      match download_to_filename env source_path with
      | Ok _ => (Ok temp_file, w)
      | Raise e => (Raise e, w)
      end.

(** [FirebaseStorage.delete_file]: [blob.delete()] fails on a missing
    object. *)
Definition delete_file (file_path : string) : M World bool :=
  fun w =>
    if bool_decide (file_path ∈ bucket w)
    then (Ok true, set_bucket (bucket w ∖ {[ file_path ]}) w)
    else (Raise ("404 No such object: " +:+ file_path), w).

(** [os.path.exists] *)
Definition path_exists (path : string) : M World bool :=
  fun w => (Ok (bool_decide (path ∈ tmpfiles w)), w).

(** [os.unlink] *)
Definition unlink (env : Env) (path : string) : M World unit :=
  fun w =>
    match unlink_error env with
    | Some e => (Raise e, w)
    | None =>
        if bool_decide (path ∈ tmpfiles w)
        then (Ok tt, set_tmpfiles (tmpfiles w ∖ {[ path ]}) w)
        else (Raise ("No such file or directory: " +:+ path), w)
    end.

(** *** Status updates *)

Definition empty_stats : Stats :=
  {| startTime := None; steps := None; stepTimes := None; endTime := None;
     totalTime := None; stats_chunkCount := None |}.

Definition set_steps (m : gmap string StepInfo) (s : Stats) : Stats :=
  {| startTime := startTime s; steps := Some m; stepTimes := stepTimes s;
     endTime := endTime s; totalTime := totalTime s;
     stats_chunkCount := stats_chunkCount s |}.

Definition set_stepTimes (m : gmap string Q) (s : Stats) : Stats :=
  {| startTime := startTime s; steps := steps s; stepTimes := Some m;
     endTime := endTime s; totalTime := totalTime s;
     stats_chunkCount := stats_chunkCount s |}.

(** [_update_processing_status] *)
Definition _update_processing_status (env : Env) (document_id : string)
    (step : string) (status : ProcessingStepStatus) (error : option string)
  : M Frame unit :=
  try_except
    (f <- get ;;
     let stats := processing_stats f in
     let stats := match steps stats with
                  | None => set_steps ∅ stats
                  | Some _ => stats
                  end in
     let info := {| status := status;
                    step_error := if opt_truthy error then error else None |} in
     let stats := set_steps (<[step := info]> (default ∅ (steps stats))) stats in
     set_stats stats ;;;
     on_world (update_document env document_id
                 {[ "processingStats" := VStats stats ]}))%py
    (fun _ => ret tt).

(** [_update_document_status], called with the local [processing_stats] *)
Definition _update_document_status (env : Env) (document_id : string)
    (status : string) (error : option string) : M Frame unit :=
  try_except
    (f <- get ;;
     let update_data : Doc := {[ "processingStatus" := VStr status ]} in
     let update_data :=
       if opt_truthy error then <["error" := VStr (default "" error)]> update_data
       else update_data in
     (* a dictionary with keys in it is true *)
     let update_data := <["processingStats" := VStats (processing_stats f)]> update_data in
     on_world (update_document env document_id update_data))%py
    (fun _ => ret tt).

(** [processing_stats["stepTimes"][step] = t] *)
Definition record_step_time (env : Env) (step : string) : M Frame unit :=
  (f <- get ;;
   match stepTimes (processing_stats f) with
   | None => raise "'stepTimes'"
   | Some times =>
       set_stats (set_stepTimes (<[step := elapsed env step]> times) (processing_stats f))
   end)%py.

(** *** [_process_content] *)

(** [d[k] = v] on an ordered dictionary *)
Fixpoint dict_set (k : string) (v : json) (d : jdict) : jdict :=
  match d with
  | [] => [(k, v)]
  | (k', v') :: rest =>
      if String.eqb k' k then (k, v) :: rest else (k', v') :: dict_set k v rest
  end.

(** [d.update(other)] *)
Definition dict_update (d other : jdict) : jdict :=
  fold_left (fun acc kv => dict_set (fst kv) (snd kv) acc) other d.

(** Step 2, the part inside the inner [try]: the extracted documents, or
    [None] once the step was marked failed and [[]] is to be returned. *)
Definition extract_documents (env : Env) (document_id : string)
    (base_metadata : jdict) (file_path text_content : option string)
  : M Frame (option (list LDocument)) :=
  let fail msg :=
    (_update_processing_status env document_id TEXT_EXTRACTION FAILED (Some msg) ;;;
     ret None)%py in
  (documents <-
     match file_path with
     | Some path =>
         if truthy path then
           let file_ext := lower (extension path) in
           if String.eqb file_ext ".pdf" then
             match extract_text_from_pdf env path with
             | Some text =>
                 if truthy text
                 then ret (Some [{| doc_text := text; doc_metadata := base_metadata |}])
                 else fail "PDF extraction failed - empty result"
             | None => fail "PDF extraction failed - empty result"
             end
           else if String.eqb file_ext ".txt" then
             text <- lift (read_text env path) ;;
             if truthy text
             then ret (Some [{| doc_text := text; doc_metadata := base_metadata |}])
             else fail "Text file is empty"
           else
             documents <- lift (load_data env path) ;;
             ret (Some (map (fun doc =>
                           {| doc_text := doc_text doc;
                              doc_metadata := dict_update (doc_metadata doc) base_metadata |})
                          documents))
         else
           match text_content with
           | Some text =>
               if truthy text
               then ret (Some [{| doc_text := text;
                                  doc_metadata := dict_set "content" (JStr text) base_metadata |}])
               else fail "No file path or text content provided"
           | None => fail "No file path or text content provided"
           end
     | None =>
         match text_content with
         | Some text =>
             if truthy text
             then ret (Some [{| doc_text := text;
                                doc_metadata := dict_set "content" (JStr text) base_metadata |}])
             else fail "No file path or text content provided"
         | None => fail "No file path or text content provided"
         end
     end ;;
   match documents with
   | None => ret None
   | Some documents =>
       if forallb (fun doc => negb (truthy (doc_text doc))) documents
       then fail "Text extraction failed - no content found"
       else
         record_step_time env TEXT_EXTRACTION ;;;
         _update_processing_status env document_id TEXT_EXTRACTION COMPLETED None ;;;
         ret (Some documents)
   end)%py.

(** The loop of step 5 that builds [chunks_for_insertion]. *)
Fixpoint prepare_chunks (env : Env) (document_id : string) (base_metadata : jdict)
    (total_chunks : nat) (i : nat) (pairs : list (Node * list float)) : list Chunk :=
  match pairs with
  | [] => []
  | (node, embedding) :: rest =>
      let chunk_id := uuid4 env i in
      let chunk_text := node_content node in
      let chunk_metadata := dict_update base_metadata (node_metadata node) in
      let chunk_metadata := dict_set "chunk_index" (JInt (Z.of_nat i)) chunk_metadata in
      let chunk_metadata := dict_set "total_chunks" (JInt (Z.of_nat total_chunks)) chunk_metadata in
      let chunk_metadata := dict_set "content" (JStr chunk_text) chunk_metadata in
      {| c_id := chunk_id; c_document_id := document_id; c_chunk_id := chunk_id;
         c_text := chunk_text; c_embedding := embedding;
         c_metadata := dumps (json_module env) chunk_metadata |}
      :: prepare_chunks env document_id base_metadata total_chunks (S i) rest
  end.

(** [_process_content], on the [processing_stats] of the frame. *)
Definition _process_content (env : Env) (document_id : string)
    (base_metadata : option jdict) (file_path text_content : option string)
  : M Frame (list Chunk) :=
  let base_metadata :=
    match base_metadata with
    | Some (kv :: d) => kv :: d
    | _ => [("document_id", JStr document_id)]
    end in
  let in_progress step :=
    (set_current_step (Some step) ;;;
     _update_processing_status env document_id step IN_PROGRESS None)%py in
  let failed {A} step (e : string) (a : A) :=
    (_update_processing_status env document_id step FAILED (Some e) ;;; ret a)%py in
  let completed step :=
    (record_step_time env step ;;;
     _update_processing_status env document_id step COMPLETED None)%py in
  call (try_except
    ((* STEP 2: TEXT EXTRACTION *)
     in_progress TEXT_EXTRACTION ;;;
     documents <- try_except
                    (extract_documents env document_id base_metadata file_path text_content)
                    (fun extract_err => failed TEXT_EXTRACTION extract_err None) ;;
     match documents with
     | None => ret []
     | Some documents =>
       (* STEP 3: CHUNKING *)
       in_progress CHUNKING ;;;
       nodes <- try_except
                  (nodes <- lift (get_nodes_from_documents env documents) ;;
                   match nodes with
                   | [] => failed CHUNKING "Chunking failed - no chunks created" None
                   | _ => completed CHUNKING ;;; ret (Some nodes)
                   end)
                  (fun chunk_err => failed CHUNKING chunk_err None) ;;
       match nodes with
       | None => ret []
       | Some nodes =>
         (* STEP 4: EMBEDDING *)
         in_progress EMBEDDING ;;;
         embeddings <- try_except
                         (let texts_to_embed := map node_content nodes in
                          embeddings <- lift (get_text_embedding_batch env texts_to_embed) ;;
                          if negb (length embeddings =? length nodes)%nat
                          then
                            failed EMBEDDING
                              ("Embedding mismatch - got " +:+ pretty (length embeddings)
                               +:+ " embeddings for " +:+ pretty (length nodes)
                               +:+ " chunks") None
                          else completed EMBEDDING ;;; ret (Some embeddings))
                         (fun embed_err => failed EMBEDDING embed_err None) ;;
         match embeddings with
         | None => ret []
         | Some embeddings =>
           (* STEP 5: STORAGE *)
           in_progress STORAGE ;;;
           try_except
             (let chunks_for_insertion :=
                prepare_chunks env document_id base_metadata (length nodes) 0
                  (combine nodes embeddings) in
              on_world (on_vdb (vdb_insert_embeddings
                                  (map to_embedding_data chunks_for_insertion))) ;;;
              completed STORAGE ;;;
              ret chunks_for_insertion)
             (fun storage_err => failed STORAGE storage_err [])
         end
       end
     end)
    (fun e =>
       f <- get ;;
       match current_step f with
       | Some step => failed step e []
       | None => ret []
       end))%py.

(** *** [process_document] *)

(** Truth value of [document_data]: neither [None] nor an empty
    dictionary. *)
Definition doc_truthy (document_data : option Doc) : bool :=
  match document_data with
  | Some d => match map_to_list d with [] => false | _ => true end
  | None => false
  end.

(** [d.get(key)] for a field that holds a string or nothing. *)
Definition get_str (d : Doc) (key : string) : option string :=
  match d !! key with
  | Some (VStr s) => Some s
  | _ => None
  end.

Definition metadata_field (d : Doc) (key default_text : string) : json :=
  match d !! key with
  | Some (VStr s) => JStr s
  | Some (VInt n) => JInt n
  | Some _ => JNull
  | None => JStr default_text
  end.

(** Step 6, the body of the [finally] clause. *)
Definition cleanup (env : Env) (document_id local_file_path : string) : M Frame unit :=
  (set_current_step (Some CLEANUP) ;;;
   _update_processing_status env document_id CLEANUP IN_PROGRESS None ;;;
   try_except
     (present <- on_world (path_exists local_file_path) ;;
      (if present : bool then on_world (unlink env local_file_path) else ret tt) ;;;
      _update_processing_status env document_id CLEANUP COMPLETED None)
     (fun e => _update_processing_status env document_id CLEANUP FAILED (Some e)))%py.

Definition finish_stats (env : Env) (chunk_count : nat) (s : Stats) : Stats :=
  {| startTime := startTime s; steps := steps s; stepTimes := stepTimes s;
     endTime := Some (now env); totalTime := Some (elapsed env "total");
     stats_chunkCount := Some chunk_count |}.

(** Lines 98-131 of [process_document], the branch of a file-backed
    document: download, steps 2-5, cleanup.  [inl] is an early [return]. *)
Definition process_file (env : Env) (document_id : string) (base_metadata : jdict)
    (storage_path : string) : M Frame (ProcessResult + list Chunk) :=
  ((* STEP 1: DOWNLOAD *)
   set_current_step (Some DOWNLOAD) ;;;
   _update_processing_status env document_id DOWNLOAD IN_PROGRESS None ;;;
   try_except
     (local_file_path <- on_world (download_file env storage_path) ;;
      record_step_time env DOWNLOAD ;;;
      _update_processing_status env document_id DOWNLOAD COMPLETED None ;;;
      (* STEP 2-5: PROCESS CONTENT *)
      chunks <- try_finally
                  (_process_content env document_id (Some base_metadata)
                     (Some local_file_path) None)
                  (* STEP 6: CLEANUP *)
                  (cleanup env document_id local_file_path) ;;
      ret (inr chunks))
     (fun download_err =>
        f <- get ;;
        _update_processing_status env document_id
          (default "" (current_step f)) FAILED (Some download_err) ;;;
        _update_document_status env document_id "failed"
          (Some ("Failed to download file: " +:+ download_err)) ;;;
        ret (inl (ErrorResult ("Failed to download file: " +:+ download_err)))))%py.

(** Lines 134-141, the branch of a document with inline content. *)
Definition process_text (env : Env) (document_id : string) (base_metadata : jdict)
    (document_data : Doc) : M Frame (ProcessResult + list Chunk) :=
  (let text_content := get_str document_data "content" in
   if negb (opt_truthy text_content)
   then
     _update_document_status env document_id "failed"
       (Some "Document has no content or file") ;;;
     ret (inl (ErrorResult "Document has no content or file"))
   else
     chunks <- _process_content env document_id (Some base_metadata)
                 None text_content ;;
     ret (inr chunks))%py.

(** Lines 143-178: the final write and the returned value. *)
Definition complete_document (env : Env) (document_id : string) (chunks : list Chunk)
  : M Frame ProcessResult :=
  (match chunks with
   | [] =>
       _update_document_status env document_id "failed" (Some "No chunks created") ;;;
       ret (ErrorResult "No chunks created")
   | _ =>
       f <- get ;;
       let stats := finish_stats env (length chunks) (processing_stats f) in
       set_stats stats ;;;
       let update_data : Doc :=
         {[ "processingStatus" := VStr "completed";
            "chunkCount" := VInt (Z.of_nat (length chunks));
            "vectorIds" := VIds (map c_id chunks);
            "processingStats" := VStats stats;
            "error" := VNone ]} in
       on_world (update_document env document_id update_data) ;;;
       ret (ResultData (length chunks) (map c_id chunks) (elapsed env "total") stats)
   end)%py.

Definition initial_stats (env : Env) : Stats :=
  {| startTime := Some (now env); steps := Some ∅; stepTimes := Some ∅;
     endTime := None; totalTime := None; stats_chunkCount := None |}.

(** The body of [process_document], on the frame that holds its locals. *)
Definition process_document_frame (env : Env) (document_id : string)
  : M Frame ProcessResult :=
  (try_except
     (on_world (update_document env document_id
                  {[ "processingStatus" := VStr "processing";
                     "processingStats" := VStats (initial_stats env) ]}) ;;;
      document_data <- on_world (get_document document_id) ;;
      if negb (doc_truthy document_data)
      then
        _update_document_status env document_id "failed" (Some "Document not found") ;;;
        ret (ErrorResult "Document not found")
      else
        let document_data : Doc := default ∅ document_data in
        let base_metadata : jdict :=
          [("document_id", JStr document_id);
           ("name", metadata_field document_data "name" "Untitled");
           ("created_at", metadata_field document_data "createdAt" (now env))] in
        let storage_path := get_str document_data "storageUri" in
        outcome <-
          (if opt_truthy storage_path
           then process_file env document_id base_metadata (default "" storage_path)
           else process_text env document_id base_metadata document_data) ;;
        match outcome with
        | inl returned => ret returned
        | inr chunks => complete_document env document_id chunks
        end)
     (fun e =>
        _update_document_status env document_id "failed" (Some e) ;;;
        ret (ErrorResult e)))%py.

(** [process_document] *)
Definition process_document (env : Env) (document_id : string) : M World ProcessResult :=
  fun w =>
    match process_document_frame env document_id
            {| world := w; processing_stats := initial_stats env;
               current_step := None |} with
    | (r, f) => (r, world f)
    end.

(** *** [delete_document], [reindex_document] *)

Definition delete_document (document_id : string) : M World bool :=
  (document_data <- get_document document_id ;;
   if negb (doc_truthy document_data) then ret false
   else
     on_vdb (vdb_delete_by_document_id document_id) ;;;
     let storage_path := get_str (default ∅ document_data) "storageUri" in
     (if opt_truthy storage_path
      then delete_file (default "" storage_path) ;;; ret tt
      else ret tt) ;;;
     firestore_delete_document document_id ;;;
     ret true)%py.

Definition reindex_document (env : Env) (document_id : string) : M World ProcessResult :=
  (on_vdb (vdb_delete_by_document_id document_id) ;;;
   process_document env document_id)%py.

(** *** [process_document_immediately] *)

(** How an iteration of the retry loop ends. *)
Inductive Signal : Type :=
| Continue
| Return (value : bool).

(** [_process_content(document_id=..., file_path=...)]: without a
    [processing_stats] argument the callee works on its own dictionary
    [{"steps": {}}]. *)
Definition _process_content_default (env : Env) (document_id : string)
    (file_path : string) : M World (list Chunk) :=
  fun w =>
    match _process_content env document_id None (Some file_path) None
            {| world := w; processing_stats := set_steps ∅ empty_stats;
               current_step := None |} with
    | (r, f) => (r, world f)
    end.

(** The loop "Retry the status update if it fails", [remaining] iterations
    left. *)
Fixpoint update_with_retry (env : Env) (document_id : string) (update_data : Doc)
    (remaining : nat) : M World unit :=
  match remaining with
  | O => ret tt
  | S rest =>
      try_except
        (update_document env document_id update_data)
        (fun e =>
           match rest with
           | O => raise e
           | S _ => update_with_retry env document_id update_data rest
           end)
  end.

Definition missing_fields (document_data : Doc) : list string :=
  List.filter (fun field => negb (bool_decide (is_Some (document_data !! field))))
    ["storageUri"; "id"; "processingStatus"].

(** One iteration of the loop of [process_document_immediately]. *)
Definition immediate_attempt (env : Env) (document_id : string)
    (max_retries attempt : nat) : M World Signal :=
  try_except
    (document_data <- get_document document_id ;;
     if negb (doc_truthy document_data)
     then
       if (attempt <? max_retries - 1)%nat then ret Continue
       else raise ("Document " +:+ document_id +:+ " not found after "
                   +:+ pretty max_retries +:+ " attempts")
     else
       let document_data : Doc := default ∅ document_data in
       match missing_fields document_data with
       | _ :: _ =>
           raise ("Document " +:+ document_id +:+ " is missing required fields: "
                  +:+ join ", " (missing_fields document_data))
       | [] =>
           local_file_path <-
             match document_data !! "storageUri" with
             | Some (VStr storage_path) => download_file env storage_path
             | _ => raise "expected str, bytes or os.PathLike object"
             end ;;
           chunks <- _process_content_default env document_id local_file_path ;;
           try_except (unlink env local_file_path) (fun _ => ret tt) ;;;
           let update_data : Doc :=
             {[ "processingStatus" := VStr "completed";
                "chunkCount" := VInt (Z.of_nat (length chunks));
                "processingStats" :=
                  VMap [("downloadTime", VFloat (elapsed env DOWNLOAD));
                        ("processTime", VFloat (elapsed env "process"));
                        ("totalChunks", VInt (Z.of_nat (length chunks)));
                        ("completedAt", VStr (now env))] ]} in
           update_with_retry env document_id update_data 3 ;;;
           ret (Return true)
       end)%py
    (fun e =>
       if (attempt <? max_retries - 1)%nat then ret Continue
       else
         let error_msg := "Error processing document " +:+ document_id +:+ ": " +:+ e in
         (try_except
            (update_document env document_id
               {[ "processingStatus" := VStr "failed";
                  "error" := VStr error_msg;
                  "errorTimestamp" := VStr (now env);
                  "processingStats" :=
                    VMap [("failedAt", VStr (now env));
                          ("totalAttempts", VInt (Z.of_nat (attempt + 1)));
                          ("errorMessage", VStr e)] ]})
            (fun _ => ret tt) ;;;
          raise e)%py).

(** The [for attempt in range(max_retries)] loop, [remaining] iterations
    left. *)
Fixpoint immediate_loop (env : Env) (document_id : string)
    (max_retries remaining attempt : nat) : M World bool :=
  match remaining with
  | O => ret false
  | S rest =>
      (signal <- immediate_attempt env document_id max_retries attempt ;;
       match signal with
       | Continue => immediate_loop env document_id max_retries rest (S attempt)
       | Return value => ret value
       end)%py
  end.

(** [process_document_immediately] *)
Definition process_document_immediately (env : Env) (document_id : string)
    (max_retries : nat) : M World bool :=
  immediate_loop env document_id max_retries max_retries 0.

End Pipeline.

(** [DocumentProcessor.__init__]: the Firestore and storage clients hold no
    state of their own and the embedding model is taken to load;
    [get_vector_db()] gives the processor a new vector database client. *)
Definition __init__ (settings : Config) (menv : MilvusDB.Env)
  : M (World (V := Client)) unit :=
  on_vdb (get_vector_db settings menv).

End DocumentProcessor.

(** ** PDF text extraction ([utils/pdf_utils.py]) *)

Module PdfUtils.
Import Py.

(** What the two PDF libraries answer for a file. *)
Record Env : Type := {
  (** [PdfReader(file_path).pages], each page by the outcome of its
      [extract_text()] *)
  pages : string -> result (list (result string));
  (** [pdfminer_extract_text(file_path)] *)
  pdfminer_extract_text : string -> result string;
}.

Definition newline : string := String (ascii_of_nat 10) EmptyString.

(** The loop [for page in reader.pages: text += page.extract_text() + '\n'] *)
Fixpoint read_pages (text : string) (pages : list (result string)) : result string :=
  match pages with
  | [] => Ok text
  | Ok page_text :: rest => read_pages (text +:+ page_text +:+ newline) rest
  | Raise e :: _ => Raise e
  end.

(** The first attempt, with PyPDF2: the text when it is not blank. *)
Definition pypdf2_text (env : Env) (file_path : string) : option string :=
  match rbind (pages env file_path) (read_pages "") with
  | Ok text => if truthy (strip text) then Some text else None
  | Raise _ => None
  end.

(** [extract_text_from_pdf] *)
Definition extract_text_from_pdf (env : Env) (file_path : string) : option string :=
  match pypdf2_text env file_path with
  | Some text => Some text
  | None =>
      (* "If PyPDF2 fails or returns no text, try pdfminer" *)
      match pdfminer_extract_text env file_path with
      | Ok text => if truthy (strip text) then Some text else None
      | Raise _ => None
      end
  end.

End PdfUtils.

(** ** The processing task ([tasks/document_tasks.py]) *)

Module DocumentTasks.
Import Py VectorStore DocumentProcessor.

(** [process_document]: the processor is constructed inside the task, the
    record is read and updated through the module's [firestore_db]. *)
Definition process_document (settings : Config) (menv : MilvusDB.Env)
    (qenv : QdrantDB.Env) (env : Env) (document_id : string)
  : M (World (V := Client)) ProcessResult :=
  let vector_db := Client_VectorDB (json_module env) menv qenv in
  (DocumentProcessor.__init__ settings menv ;;;
   try_except
     (doc <- get_document document_id ;;
      if negb (doc_truthy doc)
      then raise ("Document " +:+ document_id +:+ " not found")
      else
        update_document env document_id {[ "processingStatus" := VStr "processing" ]} ;;;
        DocumentProcessor.process_document vector_db env document_id)
     (fun e =>
        try_except
          (update_document env document_id
             {[ "processingStatus" := VStr "failed"; "error" := VStr e ]})
          (fun _ => ret tt) ;;;
        raise e))%py.

End DocumentTasks.

(** ** Exceptions as the endpoints tell them apart *)

Module Http.
Import Py.

Inductive Exception : Type :=
| Error (message : string)
| HTTPException (status_code : N) (detail : string).

Inductive outcome (A : Type) : Type :=
| Returns (a : A)
| Raises (e : Exception).
Arguments Returns {A} a.
Arguments Raises {A} e.

(** Computations of the API layer over a state [S]. *)
Definition H (S A : Type) : Type := S -> outcome A * S.

Definition hret {S A} (a : A) : H S A := fun s => (Returns a, s).
Definition hraise {S A} (e : Exception) : H S A := fun s => (Raises e, s).
Definition hbind {S A B} (m : H S A) (k : A -> H S B) : H S B :=
  fun s => match m s with
           | (Returns a, s') => k a s'
           | (Raises e, s') => (Raises e, s')
           end.

(** A call into the layers below, whose exceptions are not HTTP ones. *)
Definition call {S A} (m : M S A) : H S A :=
  fun s => match m s with
           | (Ok a, s') => (Returns a, s')
           | (Raise e, s') => (Raises (Error e), s')
           end.

(** [try: body  except Exception as e: handler e] *)
Definition htry {S A} (body : H S A) (handler : Exception -> H S A) : H S A :=
  fun s => match body s with
           | (Returns a, s') => (Returns a, s')
           | (Raises e, s') => handler e s'
           end.

(** [try: body  except HTTPException: raise  except Exception as e: handler
    (str e)] *)
Definition htry_other {S A} (body : H S A) (handler : string -> H S A) : H S A :=
  htry body (fun e => match e with
                      | HTTPException _ _ => hraise e
                      | Error message => handler message
                      end).

Declare Scope http_scope.
Delimit Scope http_scope with http.
Notation "x <- c1 ;; c2" := (hbind c1 (fun x => c2))
  (at level 100, c1 at next level, right associativity) : http_scope.
Notation "c1 ;;; c2" := (hbind c1 (fun _ => c2))
  (at level 100, right associativity) : http_scope.

End Http.

(** ** Firestore and storage calls of the endpoints ([db/firebase.py]) *)

Module Firebase.
Import Py VectorStore DocumentProcessor Http.

(** The uploaded file as the endpoint sees it. *)
Record UploadFile : Type := {
  filename : string;
  content_type : option string;
  (** [len(await file.read())] *)
  read : result nat;
}.

(** What the collaborators of the API layer answer. *)
Record Env : Type := {
  (** [str(uuid.uuid4())] of the upload endpoint *)
  new_document_id : string;
  (** the id Firestore gives a document created without one *)
  auto_id : string;
  (** name picked by [tempfile.NamedTemporaryFile] during the upload *)
  upload_tempname : string;
  (** outcome of [blob.upload_from_filename] for a storage path *)
  upload_from_filename : string -> result unit;
  (** outcome of [blob.make_public] for a storage path *)
  make_public : string -> result unit;
  (** [str(e)] of an [HTTPException], as the framework prints it *)
  str_http : N -> string -> string;
}.

(** [str(e)] *)
Definition str (aenv : Env) (e : Exception) : string :=
  match e with
  | Error message => message
  | HTTPException status_code detail => str_http aenv status_code detail
  end.

Section Calls.
Context {V : Type}.
Abbreviation World := (World (V := V)).

(** [FirestoreDB.create_document]: [doc_ref.set(data, merge=True)] writes
    the given fields and keeps the other fields of a document that is
    already there. *)
Definition create_document (aenv : Env) (env : DocumentProcessor.Env) (data : Doc)
  : M World string :=
  let data :=
    if bool_decide (is_Some (data !! "createdAt")) then data
    else <["createdAt" := VStr (now env)]> data in
  let data :=
    if bool_decide (is_Some (data !! "updatedAt")) then data
    else <["updatedAt" := VStr (now env)]> data in
  let document_id := get_str data "id" in
  let '(document_id, data) :=
    if opt_truthy document_id then (default "" document_id, data)
    else (auto_id aenv, <["id" := VStr (auto_id aenv)]> data) in
  fun w =>
    (Ok document_id,
     set_firestore
       (<[document_id := data ∪ default ∅ (firestore w !! document_id)]> (firestore w)) w).

(** The clean-up of the temporary file, errors of which are passed over. *)
Definition remove_temp (env : DocumentProcessor.Env) (temp_file_path : string)
  : M World unit :=
  try_except
    (present <- path_exists temp_file_path ;;
     if present : bool then unlink env temp_file_path else ret tt)%py
    (fun _ => ret tt).

Definition storage_path_of (user_id document_id : string) (file : UploadFile) : string :=
  "documents/" +:+ user_id +:+ "/" +:+ document_id +:+ "/" +:+ filename file.

(** [FirebaseStorage.upload_file] *)
Definition upload_file (aenv : Env) (env : DocumentProcessor.Env) (file : UploadFile)
    (document_id user_id : string) : H World nat :=
  let failed (e : string) : H World nat :=
    hraise (HTTPException 500 ("Failed to upload file to Firebase Storage: " +:+ e)) in
  if negb (truthy (filename file)) then failed "No file provided"
  else
    let storage_path := storage_path_of user_id document_id file in
    match read file with
    | Raise e => failed e
    | Ok file_size =>
        let temp_file_path := upload_tempname aenv in
        htry
          (call
             (modify (fun w => set_tmpfiles ({[ temp_file_path ]} ∪ tmpfiles w) w) ;;;
              try_finally
                (lift (upload_from_filename aenv storage_path) ;;;
                 modify (fun w => set_bucket ({[ storage_path ]} ∪ bucket w) w) ;;;
                 lift (make_public aenv storage_path))
                (remove_temp env temp_file_path) ;;;
              ret file_size)%py)
          (fun e =>
             (call (remove_temp env temp_file_path) ;;;
              failed (str aenv e))%http)
    end.

End Calls.

End Firebase.

(** ** Document endpoints ([api/documents.py]) *)

Module DocumentsApi.
Import Py VectorStore DocumentProcessor Http Firebase.

(** [s.endswith(suffix)] *)
Fixpoint endswith (s suffix : string) : bool :=
  String.eqb s suffix
  || match s with
     | String _ rest => endswith rest suffix
     | EmptyString => false
     end.

(** ['.' in s] *)
Fixpoint has_dot (s : string) : bool :=
  match s with
  | String c rest => Ascii.eqb c "." || has_dot rest
  | EmptyString => false
  end.

(** [s.split('.')[-1]] *)
Fixpoint last_field (cur : string) (s : string) : string :=
  match s with
  | EmptyString => cur
  | String c rest =>
      if Ascii.eqb c "." then last_field "" rest
      else last_field (cur +:+ String c "") rest
  end.

Definition allowed_types : list string := [".pdf"; ".txt"; ".docx"].

(** The dictionary the upload endpoint returns. *)
Record UploadResponse : Type := {
  documentId : string;
  status : string;
  message : string;
  name : string;
  id : string;
}.

(** The record the upload endpoint creates. *)
Definition document_data (aenv : Firebase.Env) (env : DocumentProcessor.Env)
    (file : UploadFile) (name : string) (description : option string)
    (user_id : string) (file_size : nat) : Doc :=
  let document_id := new_document_id aenv in
  <["id" := VStr document_id]>
  {[ "name" := VStr name;
     "description" := match description with Some d => VStr d | None => VNone end;
     "ownerId" := VStr user_id;
     "fileType" := VStr (if has_dot (filename file) then last_field "" (filename file)
                         else "unknown");
     "fileSize" := VInt (Z.of_nat file_size);
     "uploadedAt" := VStr (now env);
     "storageUri" := VStr (storage_path_of user_id document_id file);
     "processingStatus" := VStr "pending";
     "createdAt" := VStr (now env);
     "updatedAt" := VStr (now env);
     "chunkCount" := VInt 0;
     "vectorIds" := VIds [];
     "error" := VNone ]}.

(** [upload_document], the handler of [POST /upload] *)
Definition upload_document (aenv : Firebase.Env) (settings : Config)
    (menv : MilvusDB.Env) (qenv : QdrantDB.Env) (env : DocumentProcessor.Env)
    (file : UploadFile) (name : string) (description : option string)
    (user_id : string) : H (World (V := Client)) UploadResponse :=
  htry
    (if negb (existsb (endswith (lower (filename file))) allowed_types)
     then hraise (HTTPException 400
                    ("File type not supported. Allowed types: "
                     +:+ join ", " allowed_types))
     else
       let document_id := new_document_id aenv in
       file_size <- upload_file aenv env file document_id user_id ;;
       call (create_document aenv env
               (document_data aenv env file name description user_id file_size)) ;;;
       htry
         (call (DocumentTasks.process_document settings menv qenv env document_id) ;;;
          hret tt)
         (fun _ => hret tt) ;;;
       hret {| documentId := document_id;
               status := "pending";
               message := "Document upload successful. Processing initiated.";
               name := name;
               id := document_id |})%http
    (fun e => hraise (HTTPException 500 ("Error uploading document: " +:+ str aenv e))).

Section Processor.
(** The module's [document_processor] and its vector database. *)
Context {V : Type} (vector_db : VectorDB V).

(** [document.get("ownerId") != user_id] *)
Definition owned_by (document : Doc) (user_id : string) : bool :=
  match document !! "ownerId" with
  | Some (VStr owner) => String.eqb owner user_id
  | _ => false
  end.

(** [reindex_document], the handler of [POST /{document_id}/reindex] *)
Definition reindex_document (env : DocumentProcessor.Env) (document_id user_id : string)
  : H (World (V := V)) (option Doc) :=
  htry_other
    (document <- call (get_document document_id) ;;
     if negb (doc_truthy document)
     then hraise (HTTPException 404 "Document not found")
     else if negb (owned_by (default ∅ document) user_id)
     then hraise (HTTPException 403 "Not authorized to reindex this document")
     else
       call (update_document env document_id
               {[ "processingStatus" := VStr "processing";
                  "chunkCount" := VNone;
                  "vectorIds" := VNone ]}) ;;;
       call (process_document_immediately vector_db env document_id 3) ;;;
       updated_document <- call (get_document document_id) ;;
       hret updated_document)%http
    (fun e => hraise (HTTPException 400 ("Failed to reindex document: " +:+ e))).

(** A document of the collection [chatbots], as the delete endpoint reads
    it: a field that is missing is [None]. *)
Record ChatbotDoc : Type := {
  cb_id : option string;
  cb_ownerId : option string;
  cb_documents : option (list string);
}.

(** What the delete endpoint works on: the world of the processor and the
    collection [chatbots], each document under its name, in the order a
    query streams them. *)
Record Store : Type := {
  docs : World (V := V);
  chatbots : list (string * ChatbotDoc);
}.

(** Runs a computation on the world of the processor. *)
Definition on_docs {A} (m : M (World (V := V)) A) : M Store A :=
  fun s => match m (docs s) with
           | (r, w) => (r, {| docs := w; chatbots := chatbots s |})
           end.

(** The query [where('ownerId', '==', owner_id)] on the collection. *)
Definition chatbots_of (owner_id : string) (entries : list (string * ChatbotDoc))
  : list ChatbotDoc :=
  map snd
    (List.filter
       (fun entry => match cb_ownerId (snd entry) with
                     | Some owner => String.eqb owner owner_id
                     | None => false
                     end)
       entries).

(** [FirestoreDB.list_chatbots] *)
Definition list_chatbots (owner_id : string) : M Store (list ChatbotDoc) :=
  fun s => (Ok (chatbots_of owner_id (chatbots s)), s).

(** [FirestoreDB.update_chatbot] with the new list of documents:
    [chatbot_ref.update] fails on a missing document. *)
Definition update_chatbot (chatbot_id : string) (new_docs : list string)
  : M Store bool :=
  fun s =>
    if existsb (fun entry => String.eqb (fst entry) chatbot_id) (chatbots s)
    then
      (Ok true,
       {| docs := docs s;
          chatbots :=
            map (fun entry =>
                   if String.eqb (fst entry) chatbot_id
                   then (fst entry,
                         {| cb_id := cb_id (snd entry);
                            cb_ownerId := cb_ownerId (snd entry);
                            cb_documents := Some new_docs |})
                   else entry)
              (chatbots s) |})
    else (Raise ("404 No document to update: " +:+ chatbot_id), s).

(** The loop "remove document from any chatbots that reference it" over
    the chatbots listed. *)
Fixpoint detach (document_id : string) (listed : list ChatbotDoc) : M Store unit :=
  match listed with
  | [] => ret tt
  | chatbot :: rest =>
      ((if existsb (String.eqb document_id) (default [] (cb_documents chatbot))
        then
          match cb_id chatbot with
          | None => raise "'id'"
          | Some chatbot_id =>
              let current_docs := default [] (cb_documents chatbot) in
              let new_docs :=
                List.filter (fun doc => negb (String.eqb doc document_id)) current_docs in
              update_chatbot chatbot_id new_docs ;;; ret tt
          end
        else ret tt) ;;;
       detach document_id rest)%py
  end.

(** Truth value of [document.get(key)]. *)
Definition value_truthy (v : option Value) : bool :=
  match v with
  | None | Some VNone => false
  | Some (VStr s) => truthy s
  | Some (VInt n) => negb (n =? 0)%Z
  | Some (VFloat q) => negb (Qeq_bool q 0)
  | Some (VIds l) => match l with [] => false | _ => true end
  | Some (VMap d) => match d with [] => false | _ => true end
  | Some (VStats stats) =>
      bool_decide (is_Some (startTime stats)) || bool_decide (is_Some (steps stats))
      || bool_decide (is_Some (stepTimes stats)) || bool_decide (is_Some (endTime stats))
      || bool_decide (is_Some (totalTime stats))
      || bool_decide (is_Some (stats_chunkCount stats))
  end.

(** [try: body  except Exception as e: handler (str e)], for a body of the
    layers below. *)
Definition call_or {S A} (body : M S A) (handler : string -> H S A) : H S A :=
  fun s => match body s with
           | (Ok a, s') => (Returns a, s')
           | (Raise e, s') => handler e s'
           end.

(** [delete_document], the handler of [DELETE /{document_id}] *)
Definition delete_document (document_id user_id : string) : H Store unit :=
  htry_other
    (document <- call (on_docs (get_document document_id)) ;;
     if negb (doc_truthy document)
     then hraise (HTTPException 404 "Document not found")
     else
       let document : Doc := default ∅ document in
       let user_uid := user_id in
       if negb (owned_by document user_uid)
       then hraise (HTTPException 403 "Not authorized to delete this document")
       else
         call_or
           (listed <- list_chatbots user_uid ;;
            detach document_id listed ;;;
            (if value_truthy (document !! "vectorIds")
             then on_docs (DocumentProcessor.delete_document vector_db document_id) ;;;
                  ret tt
             else ret tt) ;;;
            let storage_uri := get_str document "storageUri" in
            (if opt_truthy storage_uri
             then try_except
                    (on_docs (delete_file (default "" storage_uri)) ;;; ret tt)
                    (fun _ => ret tt)
             else ret tt) ;;;
            on_docs (firestore_delete_document document_id))%py
           (fun e => hraise (HTTPException 500 ("Failed to delete document: " +:+ e))))%http
    (fun e => hraise (HTTPException 500 ("Failed to delete document: " +:+ e))).

End Processor.

End DocumentsApi.

(** ** Sample inputs *)

Module Samples.
Import Py.

(** Defaults of [core/config.py]. *)
Definition app : QueryEngine.AppSettings :=
  {| QueryEngine.LLM_MODEL := "mixtral-8x7b-32768";
     QueryEngine.LLM_MAX_TOKENS := 2048;
     QueryEngine.LLM_TEMPERATURE := 7 # 10;
     QueryEngine.EMBEDDING_MODEL := "sentence-transformers/all-MiniLM-L6-v2" |}.

(** The engine as [QueryEngine.__init__] leaves it. *)
Definition engine : QueryEngine.Self :=
  {| QueryEngine.self_llm :=
       QueryEngine.Groq (QueryEngine.LLM_MODEL app) (QueryEngine.LLM_MAX_TOKENS app)
         (QueryEngine.LLM_TEMPERATURE app);
     QueryEngine.self_embeddings := QueryEngine.EMBEDDING_MODEL app |}.

(** [Settings.llm = self.llm], [Settings.embed_model = self.embeddings]. *)
Definition initial_state : QueryEngine.State :=
  {| QueryEngine.Settings :=
       {| QueryEngine.Settings_llm := QueryEngine.self_llm engine;
          QueryEngine.Settings_embed_model := QueryEngine.self_embeddings engine |};
     QueryEngine.last_sources := [] |}.

(** A retrieved node scoring 0.8. *)
Definition node1 : QueryEngine.SourceNode :=
  {| QueryEngine.sn_metadata :=
       Some {| QueryEngine.md_document_id := Some "d1";
               QueryEngine.md_chunk_id := Some "c1" |};
     QueryEngine.sn_score := Some (8 # 10) |}.

(** Collaborators that all answer: the provider replies with [reply]. *)
Definition replying (reply : string) : QueryEngine.Env :=
  {| QueryEngine.get_chatbot := fun _ =>
       Ok (Some {| QueryEngine.documents := Some ["d1"]; QueryEngine.settings := None |});
     QueryEngine.llm_chat := fun _ _ => Ok (QueryEngine.WithMessage (Some reply));
     QueryEngine.vector_store_index := fun _ => Ok tt;
     QueryEngine.engine_query := fun _ _ _ _ _ =>
       Ok {| QueryEngine.response_str := reply;
             QueryEngine.source_nodes := Some [node1] |} |}.

(** The vector database cannot be reached; the provider still replies. *)
Definition store_down : QueryEngine.Env :=
  {| QueryEngine.get_chatbot := fun _ => Ok None;
     QueryEngine.llm_chat := fun _ _ => Ok (QueryEngine.AsStr "From general knowledge.");
     QueryEngine.vector_store_index := fun _ => Raise "connection refused";
     QueryEngine.engine_query := fun _ _ _ _ _ => Raise "connection refused" |}.

(** A stand-in for the [json] module: the text it produces plays no part
    in what is proved. *)
Definition json_stub : VectorStore.Json :=
  {| VectorStore.dumps := fun d => join "," (map fst d);
     VectorStore.loads := fun _ => Raise "Expecting value" |}.

Definition unit_vector (n : nat) : list VectorStore.float :=
  repeat (VectorStore.Num (1 # 10)) n.

(** A well-formed record for a store of dimension 384. *)
Definition good_chunk : VectorStore.EmbeddingData :=
  {| VectorStore.id := Some "c1"; VectorStore.document_id := Some "d1";
     VectorStore.chunk_id := Some "c1"; VectorStore.text := Some "first chunk";
     VectorStore.embedding := Some (unit_vector 384);
     VectorStore.metadata := Some (VectorStore.MetaStr "{}") |}.

(** The same with an embedding of three components. *)
Definition short_chunk : VectorStore.EmbeddingData :=
  {| VectorStore.id := Some "c2"; VectorStore.document_id := Some "d1";
     VectorStore.chunk_id := Some "c2"; VectorStore.text := Some "second chunk";
     VectorStore.embedding := Some (unit_vector 3);
     VectorStore.metadata := Some (VectorStore.MetaStr "{}") |}.

(** A Qdrant server on which the target collection already holds a point. *)
Definition stored_point : VectorStore.QdrantDB.PointStruct :=
  {| VectorStore.QdrantDB.point_id := Some "c0";
     VectorStore.QdrantDB.vector := Some (unit_vector 384);
     VectorStore.QdrantDB.payload :=
       {[ "document_id" := VectorStore.JStr "d1" ]} |}.

Definition qdrant_in_use : gmap string VectorStore.QdrantDB.Collection :=
  {[ "docs" := {| VectorStore.QdrantDB.size := 384;
                  VectorStore.QdrantDB.distance := VectorStore.QdrantDB.COSINE;
                  VectorStore.QdrantDB.points := [stored_point] |} ]}.

(** A corpus whose only match scores 0.5, seen through each backend. *)
Definition milvus_half_hit : VectorStore.MilvusDB.Hit :=
  {| VectorStore.MilvusDB.hit_score := 5 # 10;
     VectorStore.MilvusDB.hit_document_id := Some "d1";
     VectorStore.MilvusDB.hit_chunk_id := Some "c1";
     VectorStore.MilvusDB.hit_text := Some "first chunk";
     VectorStore.MilvusDB.hit_metadata := Some "{}" |}.

Definition milvus_half : VectorStore.MilvusDB.Env :=
  {| VectorStore.MilvusDB.connect := fun _ => Ok tt;
     VectorStore.MilvusDB.insert := fun _ => Ok tt;
     VectorStore.MilvusDB.search := fun _ => Ok [milvus_half_hit];
     VectorStore.MilvusDB.delete_rows := fun _ => Ok tt |}.

Definition milvus_world : VectorStore.MilvusDB.World :=
  {| VectorStore.MilvusDB.collection_name := "docs";
     VectorStore.MilvusDB.dimension := 384;
     VectorStore.MilvusDB.connection_established := true;
     VectorStore.MilvusDB.server :=
       {[ "docs" := VectorStore.MilvusDB.load (VectorStore.MilvusDB.new_collection 384) ]};
     VectorStore.MilvusDB.connect_calls := 1 |}.

Definition qdrant_half_hit : VectorStore.QdrantDB.ScoredPoint :=
  {| VectorStore.QdrantDB.sp_score := Some (5 # 10);
     VectorStore.QdrantDB.sp_payload :=
       Some {[ "document_id" := VectorStore.JStr "d1" ]} |}.

(** A Qdrant server that stores what it is given. *)
Definition qdrant_half : VectorStore.QdrantDB.Env :=
  {| VectorStore.QdrantDB.upsert := fun srv name pts =>
       Ok (alter (fun c =>
                    {| VectorStore.QdrantDB.size := VectorStore.QdrantDB.size c;
                       VectorStore.QdrantDB.distance := VectorStore.QdrantDB.distance c;
                       VectorStore.QdrantDB.points :=
                         VectorStore.QdrantDB.points c ++ pts |}) name srv);
     VectorStore.QdrantDB.search := fun _ => Ok [qdrant_half_hit];
     VectorStore.QdrantDB.delete_points := fun _ => Ok tt |}.

Definition qdrant_world : VectorStore.QdrantDB.World :=
  VectorStore.QdrantDB.__init__ "docs" 384 ∅.

(** The pipeline's collaborators when every step goes well: one chunk per
    document, embeddings of dimension 384. *)
Definition pipeline_env : DocumentProcessor.Env :=
  {| DocumentProcessor.now := "2025-01-01T00:00:00";
     DocumentProcessor.elapsed := fun _ => 1%Q;
     DocumentProcessor.tempname := "/tmp/tmpk3w9";
     DocumentProcessor.download_to_filename := fun _ => Ok tt;
     DocumentProcessor.unlink_error := None;
     DocumentProcessor.extract_text_from_pdf := fun _ => Some "Quarterly report.";
     DocumentProcessor.read_text := fun _ => Ok "Quarterly report.";
     DocumentProcessor.load_data := fun _ => Ok [];
     DocumentProcessor.get_nodes_from_documents := fun documents =>
       Ok (map (fun d => {| DocumentProcessor.node_content := DocumentProcessor.doc_text d;
                            DocumentProcessor.node_metadata := [] |}) documents);
     DocumentProcessor.get_text_embedding_batch := fun texts =>
       Ok (map (fun _ => unit_vector 384) texts);
     DocumentProcessor.uuid4 := fun i => "uuid-" +:+ pretty i;
     DocumentProcessor.json_module := json_stub |}.

(** The same, except that the embedding model raises. *)
Definition embedder_down : DocumentProcessor.Env :=
  {| DocumentProcessor.now := "2025-01-01T00:00:00";
     DocumentProcessor.elapsed := fun _ => 1%Q;
     DocumentProcessor.tempname := "/tmp/tmpk3w9";
     DocumentProcessor.download_to_filename := fun _ => Ok tt;
     DocumentProcessor.unlink_error := None;
     DocumentProcessor.extract_text_from_pdf := fun _ => Some "Quarterly report.";
     DocumentProcessor.read_text := fun _ => Ok "Quarterly report.";
     DocumentProcessor.load_data := fun _ => Ok [];
     DocumentProcessor.get_nodes_from_documents := fun documents =>
       Ok (map (fun d => {| DocumentProcessor.node_content := DocumentProcessor.doc_text d;
                            DocumentProcessor.node_metadata := [] |}) documents);
     DocumentProcessor.get_text_embedding_batch := fun _ => Raise "CUDA out of memory";
     DocumentProcessor.uuid4 := fun i => "uuid-" +:+ pretty i;
     DocumentProcessor.json_module := json_stub |}.

(** The same as [pipeline_env], except that the scratch file cannot be
    removed. *)
Definition unlink_denied : DocumentProcessor.Env :=
  {| DocumentProcessor.now := "2025-01-01T00:00:00";
     DocumentProcessor.elapsed := fun _ => 1%Q;
     DocumentProcessor.tempname := "/tmp/tmpk3w9";
     DocumentProcessor.download_to_filename := fun _ => Ok tt;
     DocumentProcessor.unlink_error := Some "Permission denied";
     DocumentProcessor.extract_text_from_pdf := fun _ => Some "Quarterly report.";
     DocumentProcessor.read_text := fun _ => Ok "Quarterly report.";
     DocumentProcessor.load_data := fun _ => Ok [];
     DocumentProcessor.get_nodes_from_documents := fun documents =>
       Ok (map (fun d => {| DocumentProcessor.node_content := DocumentProcessor.doc_text d;
                            DocumentProcessor.node_metadata := [] |}) documents);
     DocumentProcessor.get_text_embedding_batch := fun texts =>
       Ok (map (fun _ => unit_vector 384) texts);
     DocumentProcessor.uuid4 := fun i => "uuid-" +:+ pretty i;
     DocumentProcessor.json_module := json_stub |}.

(** The same as [pipeline_env], except that the download from the bucket
    raises. *)
Definition download_refused : DocumentProcessor.Env :=
  {| DocumentProcessor.now := "2025-01-01T00:00:00";
     DocumentProcessor.elapsed := fun _ => 1%Q;
     DocumentProcessor.tempname := "/tmp/tmpk3w9";
     DocumentProcessor.download_to_filename := fun _ => Raise "503 Service Unavailable";
     DocumentProcessor.unlink_error := None;
     DocumentProcessor.extract_text_from_pdf := fun _ => Some "Quarterly report.";
     DocumentProcessor.read_text := fun _ => Ok "Quarterly report.";
     DocumentProcessor.load_data := fun _ => Ok [];
     DocumentProcessor.get_nodes_from_documents := fun documents =>
       Ok (map (fun d => {| DocumentProcessor.node_content := DocumentProcessor.doc_text d;
                            DocumentProcessor.node_metadata := [] |}) documents);
     DocumentProcessor.get_text_embedding_batch := fun texts =>
       Ok (map (fun _ => unit_vector 384) texts);
     DocumentProcessor.uuid4 := fun i => "uuid-" +:+ pretty i;
     DocumentProcessor.json_module := json_stub |}.

(** The fields of [settings] the vector store reads, with Qdrant
    selected. *)
Definition qdrant_config : VectorStore.Config :=
  {| VectorStore.VECTOR_DB_TYPE := "qdrant";
     VectorStore.ZILLIZ_COLLECTION_NAME := "document_embeddings";
     VectorStore.QDRANT_COLLECTION_NAME := "docs";
     VectorStore.EMBEDDING_DIMENSION := 384 |}.

(** The same with the backend spelled [Qdrant]. *)
Definition mixed_case_config : VectorStore.Config :=
  {| VectorStore.VECTOR_DB_TYPE := "Qdrant";
     VectorStore.ZILLIZ_COLLECTION_NAME := "document_embeddings";
     VectorStore.QDRANT_COLLECTION_NAME := "docs";
     VectorStore.EMBEDDING_DIMENSION := 384 |}.

Definition mixed_case_settings (name : string) : option string :=
  if String.eqb name "VECTOR_DB_TYPE" then Some "Qdrant"
  else if String.eqb name "QDRANT_COLLECTION_NAME" then Some "docs"
  else None.

(** The fields of [settings] ([core/config.py]) the vector stores read,
    when the environment sets none of the variables behind them. *)
Definition default_settings (name : string) : option string :=
  if String.eqb name "VECTOR_DB_TYPE" then Some "zilliz"
  else if String.eqb name "ZILLIZ_COLLECTION_NAME" then Some "document_embeddings"
  else if String.eqb name "QDRANT_COLLECTION_NAME" then Some "document_embeddings"
  else None.

(** The Qdrant backend as the pipeline's vector database. *)
Definition vector_db : VectorStore.VectorDB VectorStore.QdrantDB.World :=
  VectorStore.Qdrant_VectorDB json_stub qdrant_half.

(** An uploaded PDF as the reindex endpoint leaves its record before it
    calls [process_document_immediately]. *)
Definition report : gmap string DocumentProcessor.Value :=
  {[ "id" := DocumentProcessor.VStr "d1";
     "name" := DocumentProcessor.VStr "report.pdf";
     "storageUri" := DocumentProcessor.VStr "documents/u1/d1.pdf";
     "processingStatus" := DocumentProcessor.VStr "processing";
     "chunkCount" := DocumentProcessor.VNone;
     "vectorIds" := DocumentProcessor.VNone;
     "error" := DocumentProcessor.VNone ]}.

Definition uploaded : DocumentProcessor.World (V := VectorStore.QdrantDB.World) :=
  {| DocumentProcessor.firestore := {[ "d1" := report ]};
     DocumentProcessor.bucket := {[ "documents/u1/d1.pdf" ]};
     DocumentProcessor.tmpfiles := ∅;
     DocumentProcessor.vdb := qdrant_world |}.

(** The record and its vectors are there, the file is gone from storage. *)
Definition file_gone : DocumentProcessor.World (V := VectorStore.QdrantDB.World) :=
  {| DocumentProcessor.firestore := {[ "d1" := report ]};
     DocumentProcessor.bucket := ∅;
     DocumentProcessor.tmpfiles := ∅;
     DocumentProcessor.vdb :=
       {| VectorStore.QdrantDB.collection_name := "docs";
          VectorStore.QdrantDB.dimension := 384;
          VectorStore.QdrantDB.server := qdrant_in_use |} |}.

(** The record, the file and the vectors of the document are all there. *)
Definition indexed : DocumentProcessor.World (V := VectorStore.QdrantDB.World) :=
  {| DocumentProcessor.firestore := {[ "d1" := report ]};
     DocumentProcessor.bucket := {[ "documents/u1/d1.pdf" ]};
     DocumentProcessor.tmpfiles := ∅;
     DocumentProcessor.vdb :=
       {| VectorStore.QdrantDB.collection_name := "docs";
          VectorStore.QdrantDB.dimension := 384;
          VectorStore.QdrantDB.server := qdrant_in_use |} |}.

(** A Qdrant server that rejects deletions. *)
Definition qdrant_delete_rejected : VectorStore.QdrantDB.Env :=
  {| VectorStore.QdrantDB.upsert := VectorStore.QdrantDB.upsert qdrant_half;
     VectorStore.QdrantDB.search := VectorStore.QdrantDB.search qdrant_half;
     VectorStore.QdrantDB.delete_points := fun _ => Raise "503 Service Unavailable" |}.

(** The same worlds as the task sees them, the process holding a Qdrant
    client: with the vectors of [d1] stored, and with an empty server. *)
Definition client_indexed : DocumentProcessor.World (V := VectorStore.Client) :=
  {| DocumentProcessor.firestore := {[ "d1" := report ]};
     DocumentProcessor.bucket := {[ "documents/u1/d1.pdf" ]};
     DocumentProcessor.tmpfiles := ∅;
     DocumentProcessor.vdb :=
       VectorStore.Qdrant
         {| VectorStore.QdrantDB.collection_name := "docs";
            VectorStore.QdrantDB.dimension := 384;
            VectorStore.QdrantDB.server := qdrant_in_use |} |}.

Definition client_fresh : DocumentProcessor.World (V := VectorStore.Client) :=
  {| DocumentProcessor.firestore := {[ "d1" := report ]};
     DocumentProcessor.bucket := {[ "documents/u1/d1.pdf" ]};
     DocumentProcessor.tmpfiles := ∅;
     DocumentProcessor.vdb :=
       VectorStore.Qdrant
         {| VectorStore.QdrantDB.collection_name := "docs";
            VectorStore.QdrantDB.dimension := 384;
            VectorStore.QdrantDB.server := ∅ |} |}.



(** The indexed document with its owner, and a chatbot of the owner that
    lists it. *)
Definition owned_indexed : DocumentProcessor.World (V := VectorStore.QdrantDB.World) :=
  {| DocumentProcessor.firestore :=
       {[ "d1" := <["ownerId" := DocumentProcessor.VStr "u1"]> report ]};
     DocumentProcessor.bucket := {[ "documents/u1/d1.pdf" ]};
     DocumentProcessor.tmpfiles := ∅;
     DocumentProcessor.vdb := DocumentProcessor.vdb indexed |}.

Definition owner_store : DocumentsApi.Store (V := VectorStore.QdrantDB.World) :=
  {| DocumentsApi.docs := owned_indexed;
     DocumentsApi.chatbots :=
       [("b1", {| DocumentsApi.cb_id := Some "b1";
                  DocumentsApi.cb_ownerId := Some "u1";
                  DocumentsApi.cb_documents := Some ["d1"; "d2"] |})] |}.


(** A field of the record of document [d1]. *)
Definition field (w : DocumentProcessor.World (V := VectorStore.QdrantDB.World))
    (key : string) : option DocumentProcessor.Value :=
  DocumentProcessor.firestore w !! "d1" ≫= (fun d => d !! key).

(** The status recorded for a step in the stored [processingStats]. *)
Definition step_status (w : DocumentProcessor.World (V := VectorStore.QdrantDB.World))
    (step : string) : option DocumentProcessor.ProcessingStepStatus :=
  match field w "processingStats" with
  | Some (DocumentProcessor.VStats s) =>
      DocumentProcessor.steps s ≫= (fun m => DocumentProcessor.status <$> m !! step)
  | _ => None
  end.

End Samples.

(** ** Specification vocabulary *)

Module Spec.
Import Py VectorStore DocumentProcessor.


(** A record that [validate_embeddings] is meant to keep: the required
    fields are present, the embedding has the dimension of the store and
    no component is NaN. *)
Definition well_formed (dimension : nat) (data : VectorStore.EmbeddingData) : Prop :=
  is_Some (VectorStore.id data) /\ is_Some (VectorStore.document_id data) /\
  is_Some (VectorStore.chunk_id data) /\ is_Some (VectorStore.text data) /\
  exists e, VectorStore.embedding data = Some e /\ length e = dimension /\
            Forall (fun v => VectorStore.isnan v = false) e.

(** The computation leaves an aspect [view] of the world as it is. *)
Definition keeps {V A X} (view : World (V := V) -> X)
    (m : M (Frame (V := V)) A) : Prop :=
  forall f, view (world (snd (m f))) = view (world f).

(** The same for a computation on any state. *)
Definition leaves {S A X} (view : S -> X) (m : M S A) : Prop :=
  forall s, view (snd (m s)) = view s.

(** The scratch directory and the bucket. *)
Definition storage {V} (w : World (V := V)) : gset string * gset string :=
  (tmpfiles w, bucket w).

(** The fields of a document record that the invariant of the data model
    speaks about. *)
Definition record_state {V} (document_id : string) (w : World (V := V))
  : option (option Value * option Value * option Value * option Value) :=
  (fun d => (d !! "processingStatus", d !! "chunkCount", d !! "vectorIds", d !! "error"))
    <$> firestore w !! document_id.

(** The [vectorIds] field of the record of a document. *)
Definition recorded_vector_ids {V} (document_id : string) (w : World (V := V))
  : option (option Value) :=
  (fun d : Doc => d !! "vectorIds") <$> firestore w !! document_id.

(** The computation leaves the [stepTimes] entry of [processing_stats] as
    it is. *)
Definition keeps_times {V A} (m : M (Frame (V := V)) A) : Prop :=
  forall f, stepTimes (processing_stats (snd (m f))) = stepTimes (processing_stats f).

(** The invariant of the data model on the fields of one record:
    [completed] comes with a positive chunk count equal to the number of
    vector ids, [failed] with a non-empty error. *)
Definition consistent
    (fields : option Value * option Value * option Value * option Value) : Prop :=
  let '(processingStatus, chunkCount, vectorIds, error) := fields in
  (processingStatus = Some (VStr "completed") ->
   exists ids : list string,
     ids <> [] /\
     chunkCount = Some (VInt (Z.of_nat (length ids))) /\
     vectorIds = Some (VIds ids)) /\
  (processingStatus = Some (VStr "failed") ->
   exists e : string, e <> "" /\ error = Some (VStr e)).

(** The record of a document, if there is one, satisfies the invariant. *)
Definition settled {V} (document_id : string) (w : World (V := V)) : Prop :=
  match record_state document_id w with
  | Some fields => consistent fields
  | None => True
  end.

(** The last element [_build_system_prompt] appends to the prompt. *)
Definition rag_instruction : string :=
  "Use ONLY the provided context to answer the question. If the context doesn't contain the answer, admit that you don't know rather than making up information.".

(** The last element [_build_llm_only_prompt] appends to the prompt. *)
Definition general_instruction : string :=
  "Answer the user's question to the best of your ability based on your general knowledge.".

(** The bucket and the records of all documents but one. *)
Definition elsewhere {V} (document_id : string) (w : World (V := V))
  : gset string * gmap string Doc :=
  (bucket w, delete document_id (firestore w)).

(** What the vector database went through during a run: nothing, or one
    call of [insert_embeddings]. *)
Definition one_insertion {V} {vector_db : VectorDB V} (before after : V) : Prop :=
  after = before \/
  exists data r, vdb_insert_embeddings data before = (r, after).

End Spec.

(** * Properties *)

(** ** Python preliminaries *)

Module PyFacts.
Import Py.

Example split_runs_of_blanks :
  split "  why   does X happen " = ["why"; "does"; "X"; "happen"].
Proof. reflexivity. Qed.

Example split_blank : split "   " = [].
Proof. reflexivity. Qed.

Example lower_mixed : lower "Why NOT?" = "why not?".
Proof. reflexivity. Qed.

Example strip_both_ends : strip "  an answer  " = "an answer".
Proof. reflexivity. Qed.

Example join_parts : join " " ["You are a tutor."; "Be brief."] = "You are a tutor. Be brief.".
Proof. reflexivity. Qed.

Example extension_pdf : DocumentProcessor.extension "documents/u1/d1.PDF" = ".PDF".
Proof. reflexivity. Qed.

Example extension_hidden : DocumentProcessor.extension "uploads/.profile" = "".
Proof. reflexivity. Qed.

End PyFacts.

(** ** Query engine *)

Module QueryEngineFacts.
Import Py QueryEngine Spec.

Lemma str_in_In (x : string) (xs : list string) : str_in x xs = true <-> In x xs.
Proof.
  unfold str_in. rewrite existsb_exists. split.
  - intros [y [Hy Heq]]. apply String.eqb_eq in Heq. now subst.
  - intros H. exists x. split; [ exact H | apply String.eqb_refl ].
Qed.





Lemma _query_llm_only_returns app env query_text temperature instructions chatbot :
  exists text,
    _query_llm_only app env query_text temperature instructions chatbot
    = Ok (response_dict text).
Proof.
  unfold _query_llm_only, rcatch, rbind.
  destruct (llm_chat env _ _) as [[[c|]|[c|]|s|]|e]; eauto.
Qed.

Lemma get_response_dict text default_text :
  get_response (response_dict text) default_text = text.
Proof.
  unfold get_response, response_dict. now rewrite lookup_singleton_eq.
Qed.

(** The frame after scope resolution carries the state it started with. *)
Lemma resolve_scope_state env chatbot_id document_ids st chatbot :
  fst (snd (resolve_scope env chatbot_id document_ids (st, chatbot))) = st.
Proof.
  unfold resolve_scope, bind, lift, modify, raise, ret.
  destruct (opt_truthy chatbot_id && negb (ids_truthy document_ids)); [ | reflexivity ].
  destruct (get_chatbot env _) as [[cb|]|e]; reflexivity.
Qed.

Ltac llm_only_reply :=
  match goal with
  | |- context [_query_llm_only ?a ?e ?q ?t ?i ?c] =>
      let text := fresh "text" in
      let H := fresh "Hreply" in
      destruct (_query_llm_only_returns a e q t i c) as [text H];
      rewrite H; cbn [fst snd]; try rewrite get_response_dict
  end.

(** [query] by cases on what scope resolution and the vector search do. *)
Lemma query_cases app self env query_text document_ids chatbot_id temperature
    instructions max_tokens model st :
  let res := resolve_scope env chatbot_id document_ids (st, None) in
  let out := query app self env query_text document_ids chatbot_id temperature
               instructions max_tokens model st in
  match fst res with
  | Raise _ =>
      exists text, out = (Ok (text, [], 0%nat, FALLBACK), st)
  | Ok ids =>
      if ids_truthy ids then
        let search := vector_search app self env query_text (default [] ids)
                        temperature instructions (st, snd (snd res)) in
        match fst search with
        | Ok answer => out = (Ok answer, fst (snd search))
        | Raise _ => exists text, out = (Ok (text, [], 0%nat, ERROR), fst (snd search))
        end
      else exists text, out = (Ok (text, [], 0%nat, NO_DOCUMENTS), st)
  end.
Proof.
  intros res out. subst out.
  pose proof (resolve_scope_state env chatbot_id document_ids st None) as Hst.
  fold res in Hst.
  unfold query, query_body, try_except, bind, get, ret, lift.
  fold res. destruct res as [[ids|e] [st1 cb]]; cbn [fst snd] in *; subst st1.
  - destruct (ids_truthy ids); cbn [negb].
    + destruct (vector_search _ _ _ _ _ _ _ _) as [[answer|e] [st2 cb2]]; cbn [fst snd].
      * reflexivity.
      * llm_only_reply. eauto.
    + llm_only_reply. eauto.
  - llm_only_reply. eauto.
Qed.


Lemma query_never_raises app self env query_text document_ids chatbot_id temperature
    instructions max_tokens model st :
  exists answer,
    fst (query app self env query_text document_ids chatbot_id temperature
           instructions max_tokens model st) = Ok answer.
Proof.
  pose proof (query_cases app self env query_text document_ids chatbot_id temperature
                instructions max_tokens model st) as H.
  cbv zeta in H.
  destruct (fst (resolve_scope _ _ _ _)) as [ids|e].
  - destruct (ids_truthy ids).
    + destruct (fst (vector_search _ _ _ _ _ _ _ _)) as [answer|e].
      * rewrite H. eauto.
      * destruct H as [text ->]. eauto.
    + destruct H as [text ->]. eauto.
  - destruct H as [text ->]. eauto.
Qed.

(** What a successful vector search returns. *)
Lemma vector_search_answer app self env query_text ids temperature instructions
    st chatbot answer :
  fst (vector_search app self env query_text ids temperature instructions (st, chatbot))
  = Ok answer ->
  exists response,
    engine_query env
      (Settings (snd (create_service_context app self temperature st)))
      (fst (retrieval_parameters (_assess_query_complexity query_text)))
      (snd (retrieval_parameters (_assess_query_complexity query_text)))
      (effective_prompt instructions chatbot) query_text = Ok response /\
    snd (fst answer) =
      (length (split query_text) + length (split (answer_text response)))%nat /\
    snd answer <> NO_DOCUMENTS /\ snd answer <> ERROR /\
    snd (fst (fst answer)) = flat_map source_of_node (default [] (source_nodes response)).
Proof.
  unfold vector_search, bind, on_state, create_service_context, modify, lift, get, ret.
  cbn [fst snd Settings].
  destruct (vector_store_index env ids); [ | discriminate ].
  destruct (retrieval_parameters (_assess_query_complexity query_text)) as [k c].
  cbn [fst snd].
  destruct (engine_query _ _ _ _ _ _) as [response|e]; [ | discriminate ].
  cbn [fst snd]. intros [= <-]. exists response. cbn [fst snd].
  split; [ reflexivity | ]. split; [ reflexivity | ].
  destruct (default [] (source_nodes response)) as [|n ns]; cbn [flat_map].
  - cbn. repeat split; discriminate.
  - destruct (source_of_node n ++ flat_map source_of_node ns)%list; cbn;
      repeat split; discriminate.
Qed.

(** The four ways out of [query], each taken by a sample call. *)
Example query_retrieval_path :
  fst (query Samples.app Samples.engine (Samples.replying "Chunking splits text.")
         "what is chunking" (Some ["d1"]) None None None None None
         Samples.initial_state)
  = Ok ("Chunking splits text.",
        [{| document_id := Some "d1"; chunk_id := Some "c1"; score := Some (8 # 10) |}],
        6%nat, SUCCESS).
Proof. vm_compute. reflexivity. Qed.

Example query_store_down_path :
  fst (query Samples.app Samples.engine Samples.store_down
         "what is chunking" (Some ["d1"]) None None None None None
         Samples.initial_state)
  = Ok ("From general knowledge.", [], 0%nat, ERROR).
Proof. vm_compute. reflexivity. Qed.

Example query_unknown_chatbot_path :
  fst (query Samples.app Samples.engine Samples.store_down
         "what is chunking" None (Some "bot-7") None None None None
         Samples.initial_state)
  = Ok ("From general knowledge.", [], 0%nat, FALLBACK).
Proof. vm_compute. reflexivity. Qed.

Example query_empty_scope_path :
  fst (query Samples.app Samples.engine Samples.store_down
         "what is chunking" None None None None None None
         Samples.initial_state)
  = Ok ("From general knowledge.", [], 0%nat, NO_DOCUMENTS).
Proof. vm_compute. reflexivity. Qed.

(** Claim C10.  Whatever the collaborators answer, [query] returns an
    answer with no sources and a token estimate of 0 on each fallback path:
    with status [llm_fallback] when scope resolution raises, with status
    [no_documents] when the resolved scope is empty, with status [error]
    when the vector search raises.  Only when the vector search returned is
    the estimate the number of words of the query plus the number of words
    of the response text, and the status is then neither [no_documents]
    nor [error]. *)
Theorem fallback_paths_carry_no_sources app self env query_text document_ids
    chatbot_id temperature instructions max_tokens model st :
  let res := resolve_scope env chatbot_id document_ids (st, None) in
  let out := fst (query app self env query_text document_ids chatbot_id temperature
                    instructions max_tokens model st) in
  match fst res with
  | Raise _ => exists text, out = Ok (text, [], 0%nat, FALLBACK)
  | Ok ids =>
      if ids_truthy ids then
        match fst (vector_search app self env query_text (default [] ids)
                     temperature instructions (st, snd (snd res))) with
        | Raise _ => exists text, out = Ok (text, [], 0%nat, ERROR)
        | Ok _ =>
            exists text sources status response,
              engine_query env
                (Settings (snd (create_service_context app self temperature st)))
                (fst (retrieval_parameters (_assess_query_complexity query_text)))
                (snd (retrieval_parameters (_assess_query_complexity query_text)))
                (effective_prompt instructions (snd (snd res))) query_text
              = Ok response /\
              out = Ok (text, sources,
                        (length (split query_text)
                         + length (split (answer_text response)))%nat,
                        status) /\
              status <> NO_DOCUMENTS /\ status <> ERROR
        end
      else exists text, out = Ok (text, [], 0%nat, NO_DOCUMENTS)
  end.
Proof.
  intros res out. subst out.
  pose proof (query_cases app self env query_text document_ids chatbot_id temperature
                instructions max_tokens model st) as H.
  cbv zeta in H. fold res in H.
  destruct (fst res) as [ids|e].
  - destruct (ids_truthy ids).
    + destruct (fst (vector_search _ _ _ _ _ _ _ _)) as [answer|e] eqn:Hs.
      * rewrite H. cbn [fst].
        destruct (vector_search_answer _ _ _ _ _ _ _ _ _ _ Hs)
          as (response & Hq & Htok & Hn1 & Hn2 & _).
        destruct answer as [[[text sources] tokens] status]. cbn [fst snd] in *.
        exists text, sources, status, response. subst tokens. auto.
      * destruct H as [text ->]. eauto.
    + destruct H as [text ->]. eauto.
  - destruct H as [text ->]. eauto.
Qed.

(** Claim C5, at the failing input.  [query("hello", document_ids=[])]
    against a provider whose reply has an empty content returns the status
    [no_documents] with an empty response text. *)
Theorem query_empty_scope_blank_reply :
  fst (query Samples.app Samples.engine (Samples.replying "") "hello" (Some [])
         None None None None None Samples.initial_state)
  = Ok ("", [], 0%nat, NO_DOCUMENTS).
Proof. vm_compute. reflexivity. Qed.

(** Claim C9, counterexample.  After a query over one document with a
    temperature override of 0.1, the global settings differ from what they
    were before the call. *)
Lemma temperature_override_outlives_call :
  Settings (snd (query Samples.app Samples.engine (Samples.replying "An answer.")
                   "hi" (Some ["d1"]) None (Some (1 # 10)) None None None
                   Samples.initial_state))
  <> Settings Samples.initial_state.
Proof. vm_compute. discriminate. Qed.

Lemma vector_search_settings app self env query_text ids temperature instructions
    st chatbot :
  Settings (fst (snd (vector_search app self env query_text ids temperature
                        instructions (st, chatbot))))
  = {| Settings_llm := match temperature with
                       | Some t => Groq (LLM_MODEL app) (LLM_MAX_TOKENS app) t
                       | None => self_llm self
                       end;
       Settings_embed_model := self_embeddings self |}.
Proof.
  unfold vector_search, bind, on_state, create_service_context, modify, lift, get, ret.
  cbn [fst snd Settings].
  destruct (vector_store_index env ids); [ | reflexivity ].
  destruct (retrieval_parameters (_assess_query_complexity query_text)) as [k c].
  destruct (engine_query _ _ _ _ _ _) as [response|e]; reflexivity.
Qed.

(** Claim C9, as amended.  The client [_query_llm_only] builds carries the
    override temperature.  When the resolved scope is empty or scope
    resolution raises, the answer is the reply obtained through that
    client and the engine state is what it was before the call.  When the
    resolved scope is not empty, the global [Settings.llm] after the call
    is a client with the override temperature, or the engine's own client
    when no override was given. *)
Theorem temperature_override_scope app self env query_text document_ids
    chatbot_id temperature instructions max_tokens model st :
  let res := resolve_scope env chatbot_id document_ids (st, None) in
  let out := query app self env query_text document_ids chatbot_id temperature
               instructions max_tokens model st in
  (forall t, QueryEngine.temperature (llm_only_client app (Some t)) = t) /\
  match fst res with
  | Ok ids =>
      if ids_truthy ids then
        Settings (snd out) =
          {| Settings_llm := match temperature with
                             | Some t => Groq (LLM_MODEL app) (LLM_MAX_TOKENS app) t
                             | None => self_llm self
                             end;
             Settings_embed_model := self_embeddings self |}
      else
        snd out = st /\
        exists text,
          _query_llm_only app env query_text temperature instructions (snd (snd res))
          = Ok (response_dict text) /\
          fst out = Ok (text, [], 0%nat, NO_DOCUMENTS)
  | Raise _ =>
      snd out = st /\
      exists text,
        _query_llm_only app env query_text temperature instructions (snd (snd res))
        = Ok (response_dict text) /\
        fst out = Ok (text, [], 0%nat, FALLBACK)
  end.
Proof.
  intros res out. split; [ reflexivity | ]. subst out.
  pose proof (resolve_scope_state env chatbot_id document_ids st None) as Hst.
  fold res in Hst.
  unfold query, query_body, try_except, bind, get, ret, lift.
  fold res. destruct res as [[ids|e] [st1 cb]]; cbn [fst snd] in *; subst st1.
  - destruct (ids_truthy ids); cbn [negb].
    + pose proof (vector_search_settings app self env query_text (default [] ids)
                    temperature instructions st cb) as Hs.
      destruct (vector_search _ _ _ _ _ _ _ _) as [[answer|e] [st2 cb2]];
        cbn [fst snd] in *.
      * exact Hs.
      * llm_only_reply. exact Hs.
    + destruct (_query_llm_only_returns app env query_text temperature instructions cb)
        as [text Hr].
      rewrite Hr. cbn [fst snd]. rewrite get_response_dict. eauto.
  - destruct (_query_llm_only_returns app env query_text temperature instructions cb)
      as [text Hr].
    rewrite Hr. cbn [fst snd]. rewrite get_response_dict. eauto.
Qed.

End QueryEngineFacts.

(** ** Vector store *)

Module VectorStoreFacts.
Import Py VectorStore Spec.

(** *** Initialisation *)


Lemma milvus_load_load c : MilvusDB.load (MilvusDB.load c) = MilvusDB.load c.
Proof. reflexivity. Qed.




(** *** Insertion *)

(** [validate_embeddings] keeps exactly the well-formed records. *)
Lemma validate_one_Some js dimension data :
  is_Some (MilvusDB.validate_one js dimension data) <-> well_formed dimension data.
Proof.
  unfold MilvusDB.validate_one, well_formed.
  destruct (id data), (document_id data), (chunk_id data), (text data),
    (embedding data) as [e|];
    try (split; [ intros [? [=]] | intros (H1 & H2 & H3 & H4 & e' & H5 & _) ];
         repeat match goal with H : is_Some None |- _ => destruct H as [? [=]] end;
         discriminate).
  destruct (length e =? dimension)%nat eqn:Hd; cbn [negb].
  - apply Nat.eqb_eq in Hd.
    destruct (existsb isnan e) eqn:Hn.
    + split; [ intros [? [=]] | ].
      intros (_ & _ & _ & _ & e' & [= <-] & _ & Hall).
      apply existsb_exists in Hn as [v [Hv Hnan]].
      rewrite Forall_forall in Hall. apply list_elem_of_In in Hv.
      specialize (Hall v Hv). congruence.
    + split; [ intros _ | eauto ].
      repeat (split; [ eauto | ]). exists e. repeat split; try assumption.
      apply Forall_forall. intros v Hv. apply list_elem_of_In in Hv.
      destruct (isnan v) eqn:Hv'; [ | reflexivity ].
      assert (existsb isnan e = true) by (apply existsb_exists; eauto). congruence.
  - apply Nat.eqb_neq in Hd. split; [ intros [? [=]] | ].
    intros (_ & _ & _ & _ & e' & [= <-] & Hlen & _). contradiction.
Qed.

Lemma substring_length_le (m : nat) (s : string) :
  (String.length (substring 0 m s) <= m)%nat.
Proof.
  revert s. induction m as [|m IH]; intros [|c s]; cbn; try lia.
  specialize (IH s). lia.
Qed.

Lemma validate_one_id js dimension data entity :
  MilvusDB.validate_one js dimension data = Some entity ->
  id data = Some (e_id entity) /\ embedding data = Some (e_embedding entity) /\
  (N.of_nat (String.length (e_text entity)) <= MAX_FIELD)%N /\
  (N.of_nat (String.length (e_metadata entity)) <= MAX_FIELD)%N.
Proof.
  unfold MilvusDB.validate_one.
  destruct (id data), (document_id data), (chunk_id data), (text data) as [t|],
    (embedding data) as [e|]; try discriminate.
  destruct (negb _); [ discriminate | ]. destruct (existsb _ _); [ discriminate | ].
  intros [= <-]. cbn [e_id e_embedding e_text e_metadata].
  assert (Hcap : forall s, (N.of_nat (String.length
                     (if too_long s then truncate s else s)) <= MAX_FIELD)%N).
  { intros str. unfold too_long.
    destruct (N.ltb_spec MAX_FIELD (N.of_nat (String.length str))).
    - unfold truncate.
      pose proof (substring_length_le (N.to_nat MAX_FIELD) str). lia.
    - assumption. }
  repeat split; apply Hcap.
Qed.


(** On a connected Milvus client whose first insertion attempt succeeds,
    the validated records, and only they, are stored and reported. *)
Lemma milvus_insert_valid_subset js env data (w : MilvusDB.World) :
  MilvusDB.connection_established w = true ->
  MilvusDB.insert env 0 = Ok tt ->
  let valid := MilvusDB.validate_embeddings js (MilvusDB.dimension w) data in
  let out := MilvusDB.insert_embeddings js env data w in
  fst out = Ok (map e_id valid) /\
  MilvusDB.server (snd out) !! MilvusDB.collection_name w =
    match valid with
    | [] => MilvusDB.server w !! MilvusDB.collection_name w
    | _ => MilvusDB.add_entities valid
             <$> MilvusDB.server w !! MilvusDB.collection_name w
    end.
Proof.
  intros Hc Hi valid out. subst out.
  unfold MilvusDB.insert_embeddings.
  destruct data as [|d data'].
  { cbn. split; reflexivity. }
  unfold bind, get, ret, lift, modify. rewrite Hc. cbn [negb].
  fold valid. destruct valid as [|v vs] eqn:Hv.
  { cbn. split; reflexivity. }
  cbn [MilvusDB.insert_with_retry MilvusDB.max_retries]. rewrite Hi. cbn [fst snd].
  split; [ reflexivity | ].
  cbn [MilvusDB.set_server MilvusDB.server]. apply lookup_alter_eq.
Qed.

(** Claim C2, at the failing input.  For a store of dimension 384 and a
    batch of one record of dimension 384 and one of dimension 3, the
    Qdrant backend hands both points to the server and, unless the server
    call raises, reports both ids; validation as MilvusDB performs it
    keeps the first record only. *)
Theorem qdrant_insert_keeps_wrong_dimension (env : QdrantDB.Env) :
  let batch := [Samples.good_chunk; Samples.short_chunk] in
  let points := map (QdrantDB.point_of Samples.json_stub) batch in
  let out := QdrantDB.insert_embeddings Samples.json_stub env batch Samples.qdrant_world in
  QdrantDB.dimension Samples.qdrant_world = 384%nat /\
  map (fun p => length <$> QdrantDB.vector p) points = [Some 384%nat; Some 3%nat] /\
  match QdrantDB.upsert env (QdrantDB.server Samples.qdrant_world) "docs" points with
  | Ok srv => fst out = Ok [Some "c1"; Some "c2"] /\ QdrantDB.server (snd out) = srv
  | Raise e => out = (Raise e, Samples.qdrant_world)
  end /\
  map e_id (MilvusDB.validate_embeddings Samples.json_stub 384 batch) = ["c1"].
Proof.
  intros batch points out.
  split; [ reflexivity | ]. split; [ vm_compute; reflexivity | ].
  split; [ | vm_compute; reflexivity ].
  subst out. unfold QdrantDB.insert_embeddings. subst batch. cbv beta iota.
  fold points.
  change (QdrantDB.collection_name Samples.qdrant_world) with "docs".
  destruct (QdrantDB.upsert env _ "docs" points) as [srv|e]; cbn; auto.
Qed.

(** *** Search *)


Lemma relax_steps_decrease (c : Q) :
  (4 # 10 < c)%Q -> (MilvusDB.relax_steps (c - (2 # 10)) < MilvusDB.relax_steps c)%nat.
Proof.
  intros Hc. unfold MilvusDB.relax_steps.
  assert (Heq : ((c - (2 # 10)) * 5 == c * 5 - 1)%Q) by ring.
  rewrite Heq.
  pose proof (Qle_ceiling (c * 5)) as Hup.
  pose proof (Qceiling_lt (c * 5 - 1)) as Hlo.
  assert (Hpos : (0 < Qceiling (c * 5))%Z).
  { rewrite Zlt_Qlt. eapply Qlt_le_trans; [ | exact Hup ].
    apply Qlt_trans with (y := ((4 # 10) * 5)%Q); [ reflexivity | ].
    apply Qmult_lt_compat_r; [ reflexivity | exact Hc ]. }
  assert (Hlt : (Qceiling (c * 5 - 1) - 1 < Qceiling (c * 5) - 1)%Z).
  { rewrite Zlt_Qlt. eapply Qlt_le_trans; [ exact Hlo | ].
    unfold Z.sub. rewrite inject_Z_plus. unfold Qminus.
    apply Qplus_le_compat; [ exact Hup | discriminate ]. }
  lia.
Qed.

(** One round of [search_similar] on a connected client whose search
    answers [hits]. *)
Lemma milvus_search_connected env limit hits (w : MilvusDB.World) :
  MilvusDB.connection_established w = true ->
  MilvusDB.search env limit = Ok hits ->
  forall cutoff,
    exists found, MilvusDB.search_similar env limit cutoff w = (Ok found, w) /\
      (MilvusDB.passing cutoff hits <> [] -> found = MilvusDB.passing cutoff hits) /\
      (MilvusDB.passing cutoff hits = [] -> (4 # 10 < cutoff)%Q ->
         MilvusDB.search_similar env limit cutoff w
         = MilvusDB.search_similar env limit (cutoff - (2 # 10)) w) /\
      (MilvusDB.passing cutoff hits = [] -> (cutoff <= 4 # 10)%Q -> found = []).
Proof.
  intros Hc Hs cutoff.
  remember (MilvusDB.relax_steps cutoff) as n eqn:Hn.
  revert cutoff Hn. induction n as [n IH] using lt_wf_ind. intros cutoff Hn.
  rewrite MilvusDB.search_similar_equation_1.
  unfold try_except. rewrite Hc. cbn [negb]. rewrite Hs.
  destruct (MilvusDB.passing cutoff hits) as [|f fs] eqn:Hp.
  - destruct (Qlt_le_dec (4 # 10) cutoff) as [Hlt|Hle].
    + destruct (IH (MilvusDB.relax_steps (cutoff - (2 # 10)))) with (cutoff := (cutoff - (2 # 10))%Q)
        as (found & Hrec & _).
      * subst n. now apply relax_steps_decrease.
      * reflexivity.
      * rewrite Hrec. exists found. split; [ reflexivity | ].
        split; [ congruence | ]. split; [ reflexivity | ].
        intros _ Hle. exfalso. apply (Qlt_not_le _ _ Hlt Hle).
    + exists []. split; [ reflexivity | ]. split; [ congruence | ].
      split; [ | reflexivity ].
      intros _ Hlt. exfalso. apply (Qlt_not_le _ _ Hlt Hle).
  - exists (f :: fs). split; [ reflexivity | ].
    split; [ reflexivity | ]. split; discriminate.
Qed.

(** Claim C4, at the failing input.  With a cutoff of 0.6 over a corpus
    whose only match scores 0.5 the Qdrant backend returns no result,
    where the Milvus backend returns the match. *)
Theorem qdrant_search_does_not_relax :
  fst (QdrantDB.search_similar Samples.qdrant_half 3 (6 # 10) Samples.qdrant_world)
  = Ok [] /\
  fst (MilvusDB.search_similar Samples.milvus_half 3 (6 # 10) Samples.milvus_world)
  = Ok [MilvusDB.format_hit Samples.milvus_half_hit].
Proof. split; vm_compute; reflexivity. Qed.

End VectorStoreFacts.

(** ** Document pipeline *)

Module DocumentProcessorFacts.
Import Py VectorStore DocumentProcessor Spec.

Section Frames.
Context {V : Type} (vector_db : VectorDB V).
Abbreviation Frame := (Frame (V := V)).
Abbreviation World := (World (V := V)).

(** *** What the monad's combinators keep *)

Section Keeps.
Context {X : Type} (view : World -> X).

Lemma keeps_ret {A} (a : A) : keeps view (ret a : M Frame A).
Proof. intros f. reflexivity. Qed.

Lemma keeps_raise {A} (e : string) : keeps view (raise e : M Frame A).
Proof. intros f. reflexivity. Qed.

Lemma keeps_lift {A} (r : result A) : keeps view (lift r : M Frame A).
Proof. intros f. reflexivity. Qed.

Lemma keeps_get : keeps view (get : M Frame Frame).
Proof. intros f. reflexivity. Qed.

Lemma keeps_set_stats s : keeps view (set_stats (V := V) s).
Proof. intros f. reflexivity. Qed.

Lemma keeps_set_current_step s : keeps view (set_current_step (V := V) s).
Proof. intros f. reflexivity. Qed.

Lemma keeps_bind {A B} (m : M Frame A) (k : A -> M Frame B) :
  keeps view m -> (forall a, keeps view (k a)) -> keeps view (bind m k).
Proof.
  intros Hm Hk f. unfold bind. specialize (Hm f).
  destruct (m f) as [[a|e] f1]; cbn [snd] in *.
  - rewrite (Hk a f1). exact Hm.
  - exact Hm.
Qed.

Lemma keeps_try_except {A} (m : M Frame A) (h : string -> M Frame A) :
  keeps view m -> (forall e, keeps view (h e)) -> keeps view (try_except m h).
Proof.
  intros Hm Hh f. unfold try_except. specialize (Hm f).
  destruct (m f) as [[a|e] f1]; cbn [snd] in *.
  - exact Hm.
  - rewrite (Hh e f1). exact Hm.
Qed.

Lemma keeps_try_finally {A} (m : M Frame A) (fin : M Frame unit) :
  keeps view m -> keeps view fin -> keeps view (try_finally m fin).
Proof.
  intros Hm Hf f. unfold try_finally. specialize (Hm f).
  destruct (m f) as [r f1]. specialize (Hf f1).
  destruct (fin f1) as [[[]|e] f2]; cbn [snd] in *; congruence.
Qed.

Lemma keeps_call {A} (m : M Frame A) : keeps view m -> keeps view (call m).
Proof.
  intros Hm f. unfold call.
  specialize (Hm {| world := world f; processing_stats := processing_stats f;
                    current_step := None |}).
  destruct (m _) as [r f1]. exact Hm.
Qed.

Lemma keeps_get_document document_id :
  keeps view (on_world (V := V) (get_document document_id)).
Proof. intros f. reflexivity. Qed.

End Keeps.

Lemma keeps_storage_update_document env document_id data :
  keeps storage (on_world (V := V) (update_document env document_id data)).
Proof.
  intros f. unfold on_world, update_document.
  destruct (firestore (world f) !! document_id); reflexivity.
Qed.

Lemma keeps_storage_on_vdb {A} (m : M V A) : keeps storage (on_world (on_vdb m)).
Proof. intros f. unfold on_world, on_vdb. destruct (m _); reflexivity. Qed.

Lemma keeps_record_on_vdb document_id {A} (m : M V A) :
  keeps (record_state document_id) (on_world (on_vdb m)).
Proof. intros f. unfold on_world, on_vdb. destruct (m _); reflexivity. Qed.

(** Writing [processingStats] (and [updatedAt]) into a record leaves the
    four fields of the invariant alone. *)
Lemma keeps_record_stats_update env document_id other stats :
  keeps (record_state document_id)
    (on_world (V := V)
       (update_document env other {[ "processingStats" := VStats stats ]})).
Proof.
  intros f. unfold on_world, update_document.
  destruct (firestore (world f) !! other) as [d|] eqn:Hd; [ | reflexivity ].
  cbn [snd world]. unfold record_state. cbn [firestore set_firestore].
  destruct (decide (other = document_id)) as [->|Hne].
  - rewrite lookup_insert_eq, Hd. cbn [fmap option_fmap option_map].
    rewrite !lookup_union_r; [ reflexivity | | | | ];
      (rewrite lookup_insert_ne by discriminate; apply lookup_singleton_ne; discriminate).
  - rewrite lookup_insert_ne by exact Hne. reflexivity.
Qed.

Ltac keeps_step :=
  lazymatch goal with
  | |- keeps _ (ret _) => apply keeps_ret
  | |- keeps _ (raise _) => apply keeps_raise
  | |- keeps _ (lift _) => apply keeps_lift
  | |- keeps _ get => apply keeps_get
  | |- keeps _ (set_stats _) => apply keeps_set_stats
  | |- keeps _ (set_current_step _) => apply keeps_set_current_step
  | |- keeps _ (on_world (get_document _)) => apply keeps_get_document
  | |- keeps storage (on_world (update_document _ _ _)) =>
      apply keeps_storage_update_document
  | |- keeps (record_state _) (on_world (update_document _ _ {[ "processingStats" := _ ]})) =>
      apply keeps_record_stats_update
  | |- keeps storage (on_world (on_vdb _)) => apply keeps_storage_on_vdb
  | |- keeps (record_state _) (on_world (on_vdb _)) => apply keeps_record_on_vdb
  | |- keeps _ (call _) => apply keeps_call
  | |- keeps _ (bind _ _) => apply keeps_bind; [ | intros ? ]
  | |- keeps _ (try_except _ _) => apply keeps_try_except; [ | intros ? ]
  | |- keeps _ (try_finally _ _) => apply keeps_try_finally
  | |- keeps _ (match ?x with _ => _ end) => destruct x
  end.

Lemma keeps_storage_update_processing_status env document_id step status error :
  keeps storage (_update_processing_status (V := V) env document_id step status error).
Proof. unfold _update_processing_status. repeat keeps_step. Qed.

Lemma keeps_record_update_processing_status env document_id other step status error :
  keeps (record_state document_id)
    (_update_processing_status (V := V) env other step status error).
Proof. unfold _update_processing_status. repeat keeps_step. Qed.

Lemma keeps_storage_update_document_status env document_id status error :
  keeps storage (_update_document_status (V := V) env document_id status error).
Proof. unfold _update_document_status. repeat keeps_step. Qed.

Lemma keeps_record_step_time {X} (view : World -> X) env step :
  keeps view (record_step_time (V := V) env step).
Proof. unfold record_step_time. repeat keeps_step. Qed.

Ltac keeps_auto :=
  repeat lazymatch goal with
         | |- keeps storage (_update_processing_status _ _ _ _ _) =>
             apply keeps_storage_update_processing_status
         | |- keeps (record_state _) (_update_processing_status _ _ _ _ _) =>
             apply keeps_record_update_processing_status
         | |- keeps storage (_update_document_status _ _ _ _) =>
             apply keeps_storage_update_document_status
         | |- keeps _ (record_step_time _ _) => apply keeps_record_step_time
         | |- _ => keeps_step
         end.

Lemma keeps_storage_extract_documents env document_id base_metadata file_path
    text_content :
  keeps storage (extract_documents (V := V) env document_id base_metadata
                   file_path text_content).
Proof. unfold extract_documents. keeps_auto. Qed.

Lemma keeps_record_extract_documents env document_id other base_metadata file_path
    text_content :
  keeps (record_state document_id)
    (extract_documents (V := V) env other base_metadata file_path text_content).
Proof. unfold extract_documents. keeps_auto. Qed.

Lemma keeps_storage_process_content env document_id base_metadata file_path
    text_content :
  keeps storage (_process_content vector_db env document_id base_metadata
                   file_path text_content).
Proof.
  unfold _process_content.
  repeat lazymatch goal with
         | |- keeps _ (extract_documents _ _ _ _ _) =>
             apply keeps_storage_extract_documents
         | |- _ => progress keeps_auto
         end.
Qed.

Lemma keeps_record_process_content env document_id other base_metadata file_path
    text_content :
  keeps (record_state document_id)
    (_process_content vector_db env other base_metadata file_path text_content).
Proof.
  unfold _process_content.
  repeat lazymatch goal with
         | |- keeps _ (extract_documents _ _ _ _ _) =>
             apply keeps_record_extract_documents
         | |- _ => progress keeps_auto
         end.
Qed.

Lemma keeps_storage_complete_document env document_id chunks :
  keeps storage (complete_document (V := V) env document_id chunks).
Proof. unfold complete_document. keeps_auto. Qed.

(** *** Status updates *)

(** Status updates swallow every exception. *)
Lemma update_processing_status_run env document_id step status error (f : Frame) :
  exists f',
    _update_processing_status env document_id step status error f = (Ok tt, f') /\
    storage (world f') = storage (world f) /\
    (forall other, record_state other (world f') = record_state other (world f)) /\
    stepTimes (processing_stats f') = stepTimes (processing_stats f).
Proof.
  pose proof (keeps_storage_update_processing_status env document_id step status error f)
    as Hst.
  pose proof (fun other =>
                keeps_record_update_processing_status env other document_id step status
                  error f) as Hrec.
  revert Hst Hrec.
  unfold _update_processing_status, try_except, bind, get, set_stats, on_world,
    update_document, ret.
  cbn. destruct (firestore (world f) !! document_id), (steps (processing_stats f));
    cbn; eauto.
Qed.

Ltac run_status_update :=
  match goal with
  | |- context [_update_processing_status ?e ?d ?s ?st ?er ?fr] =>
      let f' := fresh "f" in
      let E := fresh "E" in
      let Ht := fresh "Hstorage" in
      let Hr := fresh "Hrecord" in
      let Hs := fresh "Htimes" in
      destruct (update_processing_status_run e d s st er fr) as (f' & E & Ht & Hr & Hs);
      rewrite E; clear E
  end.

(** A failure recorded with a non-empty message settles the record. *)
Lemma update_document_status_failed env document_id (msg : string) (f : Frame) :
  truthy msg = true ->
  exists f',
    _update_document_status env document_id "failed" (Some msg) f = (Ok tt, f') /\
    settled document_id (world f') /\
    storage (world f') = storage (world f).
Proof.
  intros Hmsg.
  unfold _update_document_status, try_except, bind, get, on_world, update_document, ret.
  cbn [opt_truthy default]. rewrite Hmsg. cbn [fst snd].
  destruct (firestore (world f) !! document_id) as [d|] eqn:Hd.
  - eexists. split; [ reflexivity | ]. split; [ | reflexivity ].
    unfold settled, record_state. cbn [world firestore set_firestore].
    rewrite lookup_insert_eq. cbn [fmap option_fmap option_map consistent].
    split.
    + rewrite lookup_union_l'; [ | eexists; reflexivity ]. intros [=].
    + intros _. exists msg. split.
      * intros ->. discriminate.
      * rewrite lookup_union_l'; [ reflexivity | eexists; reflexivity ].
  - eexists. split; [ reflexivity | ]. split; [ | reflexivity ].
    unfold settled, record_state. cbn [world]. rewrite Hd. exact I.
Qed.

Lemma storage_eq (w w' : World) :
  storage w' = storage w -> tmpfiles w' = tmpfiles w /\ bucket w' = bucket w.
Proof. unfold storage. intros [= -> ->]. split; reflexivity. Qed.

(** A computation that keeps the storage keeps a file out of the scratch
    directory. *)
Lemma keeps_absent {A} (m : M Frame A) (path : string) (f : Frame) :
  keeps storage m -> path ∉ tmpfiles (world f) -> path ∉ tmpfiles (world (snd (m f))).
Proof.
  intros Hm Hp. destruct (storage_eq _ _ (Hm f)) as [-> _]. exact Hp.
Qed.

(** *** Step 6 *)

(** Step 6 removes the scratch file unless the removal itself fails, and
    touches no record. *)
Lemma cleanup_removes env document_id local_file_path (f : Frame) :
  unlink_error env = None ->
  exists f',
    cleanup env document_id local_file_path f = (Ok tt, f') /\
    local_file_path ∉ tmpfiles (world f').
Proof.
  intros Hu. unfold cleanup.
  unfold bind at 1 2. unfold set_current_step at 1.
  run_status_update. apply storage_eq in Hstorage as [Ht Hb].
  destruct f0 as [w1 s1 c1]. cbn [world processing_stats] in *.
  unfold try_except, bind at 1, on_world at 1, path_exists.
  cbn [fst snd world processing_stats current_step].
  destruct (bool_decide (local_file_path ∈ tmpfiles w1)) eqn:Hp.
  - unfold bind at 1, on_world at 1, unlink.
    cbn [world processing_stats current_step]. rewrite Hu, Hp.
    run_status_update. apply storage_eq in Hstorage as [Ht0 Hb0].
    eexists. split; [ reflexivity | ].
    cbn [world tmpfiles set_tmpfiles] in *. rewrite Ht0. set_solver.
  - unfold bind at 1, ret at 1.
    run_status_update. apply storage_eq in Hstorage as [Ht0 Hb0].
    eexists. split; [ reflexivity | ].
    cbn [world] in *. rewrite Ht0.
    apply bool_decide_eq_false_1 in Hp. exact Hp.
Qed.

(** Step 6 never raises and touches no record. *)
Lemma cleanup_returns env document_id local_file_path (f : Frame) :
  exists f',
    cleanup env document_id local_file_path f = (Ok tt, f') /\
    forall other, record_state other (world f') = record_state other (world f).
Proof.
  unfold cleanup.
  unfold bind at 1 2. unfold set_current_step at 1.
  run_status_update.
  destruct f0 as [w1 s1 c1]. cbn [world processing_stats] in *.
  unfold try_except, bind at 1, on_world at 1, path_exists.
  cbn [fst snd world processing_stats current_step].
  destruct (bool_decide (local_file_path ∈ tmpfiles w1)) eqn:Hp.
  - unfold bind at 1, on_world at 1, unlink.
    cbn [world processing_stats current_step]. rewrite Hp.
    destruct (unlink_error env) as [e|]; run_status_update;
      (eexists; split; [ reflexivity | ]);
      intros other; rewrite Hrecord0; cbn [world]; apply Hrecord.
  - unfold bind at 1, ret at 1. run_status_update.
    eexists. split; [ reflexivity | ].
    intros other. rewrite Hrecord0. cbn [world]. apply Hrecord.
Qed.

(** *** Steps 2-5 *)

(** [_process_content] catches whatever its steps raise. *)
Lemma process_content_returns env document_id base_metadata file_path text_content
    (f : Frame) :
  exists chunks,
    fst (_process_content vector_db env document_id base_metadata file_path
           text_content f) = Ok chunks.
Proof.
  unfold _process_content, call, try_except.
  match goal with
  | |- context [let (r, s') := ?body ?f0 in _] => destruct (body f0) as [[chunks|e] f1]
  end.
  - eauto.
  - unfold bind, get. cbn [fst snd].
    destruct (current_step f1); [ run_status_update | ]; cbn; eauto.
Qed.

(** *** The branches of [process_document] *)

Lemma bind_Ok_inv {S A B} (m : M S A) (k : A -> M S B) (s s' : S) (b : B) :
  bind m k s = (Ok b, s') ->
  exists a s1, m s = (Ok a, s1) /\ k a s1 = (Ok b, s').
Proof.
  unfold bind. destruct (m s) as [[a|e] s1]; [ eauto | discriminate ].
Qed.

(** The file branch leaves no scratch file behind, whatever steps 2-5 do. *)
Lemma process_file_removes env document_id base_metadata storage_path (f : Frame) :
  storage_path ∈ bucket (world f) ->
  download_to_filename env storage_path = Ok tt ->
  unlink_error env = None ->
  is_Some (stepTimes (processing_stats f)) ->
  tempname env +:+ extension (basename storage_path)
  ∉ tmpfiles (world (snd (process_file vector_db env document_id base_metadata
                            storage_path f))).
Proof.
  intros Hin Hdl Hu Hst. unfold process_file.
  unfold bind at 1 2. unfold set_current_step at 1.
  run_status_update. apply storage_eq in Hstorage as [Ht Hb].
  cbn [world processing_stats] in *.
  unfold try_except at 1. unfold bind at 1. unfold on_world at 1, download_file.
  rewrite bool_decide_eq_true_2 by (rewrite Hb; exact Hin). cbn [negb]. rewrite Hdl.
  set (local_file_path := tempname env +:+ extension (basename storage_path)).
  unfold bind at 1. unfold record_step_time at 1. unfold bind at 1, get at 1.
  cbn [processing_stats].
  destruct (stepTimes (processing_stats f0)) as [times|] eqn:Htimes';
    [ | rewrite Htimes in Htimes'; destruct Hst; congruence ].
  unfold set_stats at 1.
  unfold bind at 1.
  run_status_update.
  unfold bind at 1. unfold try_finally at 1.
  match goal with
  | |- context [_process_content ?vd ?e ?d ?b ?p ?t ?fr] =>
      destruct (_process_content vd e d b p t fr) as [r f2]
  end.
  destruct (cleanup_removes env document_id local_file_path f2 Hu) as (f3 & Ec & Hgone).
  rewrite Ec.
  destruct r as [chunks|e].
  - exact Hgone.
  - apply keeps_absent; [ | exact Hgone ]. keeps_auto.
Qed.

(** The file branch never raises; when it returns early, the record is
    settled. *)
Lemma process_file_returns env document_id base_metadata storage_path (f : Frame) :
  exists outcome f',
    process_file vector_db env document_id base_metadata storage_path f
    = (Ok outcome, f') /\
    match outcome with
    | inl _ => settled document_id (world f')
    | inr _ => True
    end.
Proof.
  unfold process_file.
  unfold bind at 1 2. unfold set_current_step at 1.
  run_status_update.
  unfold try_except at 1.
  match goal with
  | |- context [let (r, s') := ?body ?f0 in _] =>
      destruct (body f0) as [[outcome|e] f1] eqn:Hbody
  end.
  - exists outcome, f1. split; [ reflexivity | ].
    apply bind_Ok_inv in Hbody as (local_file_path & g1 & _ & Hbody).
    apply bind_Ok_inv in Hbody as (? & g2 & _ & Hbody).
    apply bind_Ok_inv in Hbody as (? & g3 & _ & Hbody).
    apply bind_Ok_inv in Hbody as (chunks & g4 & _ & Hbody).
    injection Hbody as <- _. exact I.
  - unfold bind at 1, get at 1. unfold bind at 1.
    run_status_update. unfold bind at 1.
    match goal with
    | |- context [_update_document_status ?e ?d ?s (Some ?msg) ?fr] =>
        destruct (update_document_status_failed e d msg fr eq_refl)
          as (f3 & Eu & Hsettled & _)
    end.
    rewrite Eu. eexists _, _. split; [ reflexivity | exact Hsettled ].
Qed.

(** The same for the branch of a document with inline content. *)
Lemma process_text_returns env document_id base_metadata document_data (f : Frame) :
  exists outcome f',
    process_text vector_db env document_id base_metadata document_data f
    = (Ok outcome, f') /\
    match outcome with
    | inl _ => settled document_id (world f')
    | inr _ => True
    end.
Proof.
  unfold process_text.
  destruct (negb (opt_truthy (get_str document_data "content"))).
  - unfold bind at 1.
    match goal with
    | |- context [_update_document_status ?e ?d ?s (Some ?msg) ?fr] =>
        destruct (update_document_status_failed e d msg fr eq_refl)
          as (f3 & Eu & Hsettled & _)
    end.
    rewrite Eu. eexists _, _. split; [ reflexivity | exact Hsettled ].
  - unfold bind at 1.
    match goal with
    | |- context [_process_content ?vd ?e ?d ?b ?p ?t ?fr] =>
        destruct (process_content_returns e d b p t fr) as [chunks Hpc];
        destruct (_process_content vd e d b p t fr) as [r f2]
    end.
    cbn [fst] in Hpc. subst r. eexists _, _. split; [ reflexivity | exact I ].
Qed.

(** The final write settles the record, or fails because there is no
    record. *)
Lemma complete_document_run env document_id chunks (f : Frame) :
  match complete_document env document_id chunks f with
  | (Ok _, f') => settled document_id (world f')
  | (Raise e, f') => truthy e = true /\ record_state document_id (world f') = None
  end.
Proof.
  unfold complete_document. destruct chunks as [|c chunks].
  - unfold bind at 1.
    match goal with
    | |- context [_update_document_status ?e ?d ?s (Some ?msg) ?fr] =>
        destruct (update_document_status_failed e d msg fr eq_refl)
          as (f3 & Eu & Hsettled & _)
    end.
    rewrite Eu. exact Hsettled.
  - unfold bind, get, set_stats, on_world, update_document, ret.
    cbn [fst snd world processing_stats current_step].
    destruct (firestore (world f) !! document_id) as [d|] eqn:Hd.
    + unfold settled, record_state. cbn [world firestore set_firestore].
      rewrite lookup_insert_eq. cbn [fmap option_fmap option_map consistent].
      split.
      * intros _. exists (map c_id (c :: chunks)).
        split; [ discriminate | ].
        rewrite length_map.
        split; (rewrite lookup_union_l'; [ reflexivity | eexists; reflexivity ]).
      * rewrite lookup_union_l'; [ | eexists; reflexivity ]. intros [=].
    + split; [ reflexivity | ].
      unfold record_state. cbn [world]. rewrite Hd. reflexivity.
Qed.

(** Recording a failure when there is no record changes nothing. *)
Lemma update_document_status_no_record env document_id status error (f : Frame) :
  record_state document_id (world f) = None ->
  settled document_id
    (world (snd (_update_document_status env document_id status error f))).
Proof.
  unfold record_state. intros Hrec.
  destruct (firestore (world f) !! document_id) as [d|] eqn:Hd; [ discriminate | ].
  unfold _update_document_status, try_except, bind, get, on_world, update_document, ret.
  cbn [fst snd world]. rewrite Hd. cbn [fst snd world].
  unfold settled, record_state. rewrite Hd. exact I.
Qed.

(** The outermost handler of [process_document] when there is no record. *)
Lemma failed_handler_no_record env document_id (e : string) (f : Frame) :
  record_state document_id (world f) = None ->
  settled document_id
    (world (snd (bind (_update_document_status env document_id "failed" (Some e))
                   (fun _ => ret (ErrorResult e)) f))).
Proof.
  intros Hnone.
  pose proof (update_document_status_no_record env document_id "failed" (Some e) f Hnone)
    as Hs.
  unfold bind.
  destruct (_update_document_status env document_id "failed" (Some e) f) as [[[]|e'] f'];
    exact Hs.
Qed.

(** *** [process_document] *)

Lemma doc_truthy_insert_union (k : string) (v : Value) (data doc : Doc) :
  doc_truthy (Some (<[k := v]> data ∪ doc)) = true.
Proof.
  unfold doc_truthy.
  destruct (map_to_list (<[k := v]> data ∪ doc)) as [|kv l] eqn:Hl; [ | reflexivity ].
  apply map_to_list_empty_iff in Hl.
  assert (Hk : (<[k := v]> data ∪ doc) !! k = Some v).
  { apply lookup_union_Some_l, lookup_insert_eq. }
  rewrite Hl, lookup_empty in Hk. discriminate.
Qed.

(** Every path of [process_document] leaves the record of the document
    with the invariant of the data model: [completed] comes with a
    positive chunk count and as many vector ids, [failed] with a non-empty
    error. *)
Lemma process_document_settles env document_id (w : World) :
  settled document_id (snd (process_document vector_db env document_id w)).
Proof.
  unfold process_document.
  set (f0 := {| world := w; processing_stats := initial_stats env;
                current_step := None |}).
  assert (Hframe : settled document_id
            (world (snd (process_document_frame vector_db env document_id f0))));
    [ | destruct (process_document_frame vector_db env document_id f0); exact Hframe ].
  unfold process_document_frame, try_except.
  unfold bind at 1. unfold on_world at 1, update_document at 1.
  cbn [world f0].
  destruct (firestore w !! document_id) as [doc|] eqn:Hdoc.
  2:{ apply failed_handler_no_record.
      unfold record_state. cbn [world]. rewrite Hdoc. reflexivity. }
  unfold bind at 1. unfold on_world at 1, get_document at 1.
  cbn [world firestore set_firestore processing_stats current_step].
  rewrite lookup_insert_eq, doc_truthy_insert_union. cbn [negb default].
  unfold bind at 1.
  match goal with
  | |- context [(if ?b then process_file ?vd ?e ?d ?bm ?p
                 else process_text _ _ _ _ ?dd) ?fr] =>
      destruct b;
      [ destruct (process_file_returns e d bm p fr) as (outcome & f1 & Eb & Hpost)
      | destruct (process_text_returns e d bm dd fr) as (outcome & f1 & Eb & Hpost) ]
  end; rewrite Eb; clear Eb.
  all: destruct outcome as [returned|chunks]; [ exact Hpost | ].
  all: pose proof (complete_document_run env document_id chunks f1) as Hc;
       destruct (complete_document env document_id chunks f1) as [[done|e] f2];
       [ exact Hc | destruct Hc as [_ Hnone] ];
       apply failed_handler_no_record; exact Hnone.
Qed.

(** Claim C8, as amended.  For a document whose record names a file that
    is in the bucket and whose download succeeds, the scratch file is gone
    when [process_document] returns, whatever text extraction, chunking,
    embedding and storage do, provided the removal of the file itself does
    not fail. *)
Theorem scratch_file_removed_on_every_exit_path env document_id (w : World)
    (doc : Doc) (storage_path : string) :
  firestore w !! document_id = Some doc ->
  doc !! "storageUri" = Some (VStr storage_path) ->
  truthy storage_path = true ->
  storage_path ∈ bucket w ->
  download_to_filename env storage_path = Ok tt ->
  unlink_error env = None ->
  tempname env +:+ extension (basename storage_path)
  ∉ tmpfiles (snd (process_document vector_db env document_id w)).
Proof.
  intros Hdoc Huri Htruthy Hin Hdl Hu.
  unfold process_document.
  set (f0 := {| world := w; processing_stats := initial_stats env;
                current_step := None |}).
  assert (Hframe : tempname env +:+ extension (basename storage_path)
          ∉ tmpfiles (world (snd (process_document_frame vector_db env document_id f0))));
    [ | destruct (process_document_frame vector_db env document_id f0); exact Hframe ].
  unfold process_document_frame, try_except.
  unfold bind at 1. unfold on_world at 1, update_document at 1.
  cbn [world f0]. rewrite Hdoc.
  unfold bind at 1. unfold on_world at 1, get_document at 1.
  cbn [world firestore set_firestore processing_stats current_step].
  rewrite lookup_insert_eq, doc_truthy_insert_union. cbn [negb default].
  unfold Datatypes.id.
  assert (Hpath : get_str
            (<["updatedAt" := VStr (now env)]>
               {["processingStatus" := VStr "processing";
                 "processingStats" := VStats (initial_stats env)]} ∪ doc)
            "storageUri" = Some storage_path).
  { unfold get_str. rewrite lookup_union_r; [ now rewrite Huri | ].
    rewrite !lookup_insert_ne by discriminate. apply lookup_singleton_ne. discriminate. }
  rewrite Hpath. cbn [opt_truthy default]. rewrite Htruthy.
  unfold bind at 1.
  match goal with
  | |- context [process_file ?vd ?e ?d ?b ?p ?fr] =>
      pose proof (process_file_removes e d b p fr) as Hgone;
      destruct (process_file vd e d b p fr) as [[outcome|err] f1]
  end; cbn [snd world bucket set_firestore processing_stats initial_stats stepTimes]
         in Hgone;
    specialize (Hgone Hin Hdl Hu (ltac:(eauto))).
  - destruct outcome as [returned|chunks].
    + exact Hgone.
    + pose proof (keeps_storage_complete_document env document_id chunks f1) as Hc.
      apply storage_eq in Hc as [Hc _].
      destruct (complete_document env document_id chunks f1) as [[done|e] f2];
        cbn [snd] in Hc.
      * cbn [snd]. rewrite Hc. exact Hgone.
      * apply keeps_absent; [ keeps_auto | rewrite Hc; exact Hgone ].
  - apply keeps_absent; [ keeps_auto | exact Hgone ].
Qed.

(** *** [process_document_immediately] *)

Lemma keeps_times_ret {A} (a : A) : keeps_times (ret a : M Frame A).
Proof. intros f. reflexivity. Qed.

Lemma keeps_times_lift {A} (r : result A) : keeps_times (lift r : M Frame A).
Proof. intros f. reflexivity. Qed.

Lemma keeps_times_bind {A B} (m : M Frame A) (k : A -> M Frame B) :
  keeps_times m -> (forall a, keeps_times (k a)) -> keeps_times (bind m k).
Proof.
  intros Hm Hk f. unfold bind. specialize (Hm f).
  destruct (m f) as [[a|e] f1]; cbn [snd] in *.
  - rewrite (Hk a f1). exact Hm.
  - exact Hm.
Qed.

Lemma keeps_times_update_processing_status env document_id step status error :
  keeps_times (_update_processing_status (V := V) env document_id step status error).
Proof.
  intros f.
  destruct (update_processing_status_run env document_id step status error f)
    as (f' & -> & _ & _ & Ht).
  exact Ht.
Qed.

Ltac keeps_times_auto :=
  repeat lazymatch goal with
         | |- keeps_times (ret _) => apply keeps_times_ret
         | |- keeps_times (lift _) => apply keeps_times_lift
         | |- keeps_times (_update_processing_status _ _ _ _ _) =>
             apply keeps_times_update_processing_status
         | |- keeps_times (bind _ _) => apply keeps_times_bind; [ | intros ? ]
         | |- keeps_times (match ?x with _ => _ end) => destruct x
         end.

(** Without a [stepTimes] entry in [processing_stats], text extraction
    never hands documents on: recording the step time raises. *)
Lemma extract_documents_without_stepTimes env document_id base_metadata file_path
    text_content (f : Frame) :
  stepTimes (processing_stats f) = None ->
  match extract_documents env document_id base_metadata file_path text_content f with
  | (Ok (Some _), _) => False
  | (_, f') => stepTimes (processing_stats f') = None
  end.
Proof.
  intros Hnone. unfold extract_documents. unfold bind at 1.
  match goal with
  | |- context [let (r, s') := ?m f in _] =>
      assert (Hm : keeps_times m) by keeps_times_auto;
      specialize (Hm f); destruct (m f) as [[documents|e] f1]
  end; cbn [snd] in Hm; rewrite Hnone in Hm; [ | exact Hm ].
  destruct documents as [documents|]; [ | exact Hm ].
  destruct (forallb _ documents).
  - unfold bind at 1. run_status_update. cbn. congruence.
  - unfold bind at 1, record_step_time at 1, bind at 1, get at 1.
    rewrite Hm. exact Hm.
Qed.

(** Called without [processing_stats], as [process_document_immediately]
    does, [_process_content] returns no chunk, whatever the document. *)
Lemma process_content_default_empty env document_id file_path (w : World) :
  fst (_process_content_default vector_db env document_id file_path w) = Ok [].
Proof.
  unfold _process_content_default.
  match goal with
  | |- fst (let (r, f) := ?m ?f0 in _) = _ =>
      assert (Hm : fst (m f0) = Ok []); [ | destruct (m f0); exact Hm ]
  end.
  unfold _process_content, call.
  match goal with
  | |- fst (let (r, f') := ?m ?f0 in _) = _ =>
      assert (Hm : fst (m f0) = Ok []); [ | destruct (m f0); exact Hm ]
  end.
  cbn [world processing_stats].
  unfold try_except at 1. unfold bind at 1 2. unfold set_current_step at 1.
  run_status_update. cbn [processing_stats set_steps empty_stats stepTimes] in Htimes.
  unfold bind at 1. unfold try_except at 1.
  match goal with
  | |- context [extract_documents ?e ?d ?b ?p ?t ?fr] =>
      pose proof (extract_documents_without_stepTimes e d b p t fr Htimes) as Hex;
      destruct (extract_documents e d b p t fr) as [[[documents|]|err] f1]
  end.
  - contradiction.
  - reflexivity.
  - unfold bind at 1. run_status_update. reflexivity.
Qed.

Lemma update_with_retry_Ok env document_id (data : Doc) (w w' : World) :
  update_with_retry env document_id data 3 w = (Ok tt, w') ->
  exists d,
    firestore w !! document_id = Some d /\
    firestore w' !! document_id = Some (<["updatedAt" := VStr (now env)]> data ∪ d).
Proof.
  cbn [update_with_retry]. unfold try_except, update_document, raise.
  destruct (firestore w !! document_id) as [d|] eqn:Hd.
  - intros [= <-]. exists d. split; [ reflexivity | ].
    cbn [firestore set_firestore]. apply lookup_insert_eq.
  - repeat (rewrite ?Hd; cbv beta iota). discriminate.
Qed.

(** An attempt of [process_document_immediately] that returns has
    recorded the document as completed with no chunk. *)
Lemma immediate_attempt_Return env document_id max_retries attempt (w w' : World)
    (value : bool) :
  immediate_attempt vector_db env document_id max_retries attempt w
  = (Ok (Return value), w') ->
  value = true /\
  exists vectorIds error,
    record_state document_id w'
    = Some (Some (VStr "completed"), Some (VInt 0), vectorIds, error).
Proof.
  unfold immediate_attempt. unfold try_except at 1.
  match goal with
  | |- (let (r, s') := ?body w in _) = _ -> _ =>
      destruct (body w) as [[signal|e] w1] eqn:Hbody
  end.
  - intros [= -> ->].
    apply bind_Ok_inv in Hbody as (document_data & w2 & Hget & Hbody).
    cbv beta in Hbody.
    destruct (negb (doc_truthy document_data)).
    { destruct (attempt <? max_retries - 1)%nat; discriminate. }
    destruct (missing_fields _); [ | discriminate ].
    apply bind_Ok_inv in Hbody as (local_file_path & w3 & _ & Hbody).
    apply bind_Ok_inv in Hbody as (chunks & w4 & Hpc & Hbody).
    pose proof (process_content_default_empty env document_id local_file_path w3) as He.
    rewrite Hpc in He. injection He as ->.
    apply bind_Ok_inv in Hbody as (? & w5 & _ & Hbody).
    apply bind_Ok_inv in Hbody as ([] & w6 & Hup & Hbody).
    injection Hbody as <- <-.
    apply update_with_retry_Ok in Hup as (d & _ & Hd).
    split; [ reflexivity | ].
    exists (d !! "vectorIds"), (d !! "error").
    unfold record_state. rewrite Hd. cbn [fmap option_fmap option_map].
    rewrite (lookup_union_l' _ _ "processingStatus") by (eexists; reflexivity).
    rewrite (lookup_union_l' _ _ "chunkCount") by (eexists; reflexivity).
    rewrite (lookup_union_r _ _ "vectorIds") by reflexivity.
    rewrite (lookup_union_r _ _ "error") by reflexivity.
    reflexivity.
  - destruct (attempt <? max_retries - 1)%nat; [ discriminate | ].
    unfold bind, try_except, update_document, raise.
    destruct (firestore w1 !! document_id); discriminate.
Qed.

Lemma immediate_loop_true env document_id max_retries remaining attempt (w : World) :
  let out := immediate_loop vector_db env document_id max_retries remaining attempt w in
  fst out = Ok true ->
  exists vectorIds error,
    record_state document_id (snd out)
    = Some (Some (VStr "completed"), Some (VInt 0), vectorIds, error).
Proof.
  cbv zeta. revert w attempt.
  induction remaining as [|rest IH]; intros w attempt; cbn [immediate_loop].
  - discriminate.
  - unfold bind.
    destruct (immediate_attempt vector_db env document_id max_retries attempt w)
      as [[[|value]|e] w1] eqn:Hattempt.
    + apply IH.
    + unfold ret. cbn [fst snd]. intros [= ->].
      apply immediate_attempt_Return in Hattempt as (_ & vectorIds & error & Hrec).
      eauto.
    + discriminate.
Qed.

(** Whenever [process_document_immediately] returns [True], the record
    is [completed] with a chunk count of 0, against the invariant. *)
Lemma immediate_processing_never_counts env document_id max_retries (w : World) :
  let out := process_document_immediately vector_db env document_id max_retries w in
  fst out = Ok true ->
  exists vectorIds error,
    record_state document_id (snd out)
    = Some (Some (VStr "completed"), Some (VInt 0), vectorIds, error) /\
    ~ consistent (Some (VStr "completed"), Some (VInt 0), vectorIds, error).
Proof.
  cbv zeta. unfold process_document_immediately. intros Hout.
  apply immediate_loop_true in Hout as (vectorIds & error & Hrec).
  exists vectorIds, error. split; [ exact Hrec | ].
  intros [Hcompleted _].
  destruct (Hcompleted eq_refl) as (ids & Hne & [= Hlen] & _).
  destruct ids; [ congruence | discriminate ].
Qed.

End Frames.

(** Claim C8, witness: a PDF whose embedding step raises. *)
Lemma scratch_file_removed_when_embedding_raises :
  (firestore Samples.uploaded !! "d1" = Some Samples.report /\
   Samples.report !! "storageUri" = Some (VStr "documents/u1/d1.pdf") /\
   truthy "documents/u1/d1.pdf" = true /\
   "documents/u1/d1.pdf" ∈ bucket Samples.uploaded /\
   download_to_filename Samples.embedder_down "documents/u1/d1.pdf" = Ok tt /\
   unlink_error Samples.embedder_down = None) /\
  "/tmp/tmpk3w9.pdf"
  ∉ tmpfiles (snd (process_document Samples.vector_db Samples.embedder_down "d1"
                     Samples.uploaded)).
Proof.
  split; [ repeat split; reflexivity | ].
  apply (scratch_file_removed_on_every_exit_path Samples.vector_db
           Samples.embedder_down "d1" Samples.uploaded Samples.report
           "documents/u1/d1.pdf"); reflexivity.
Defined.

(** Claim C8, counterexample.  When the removal of the scratch file
    fails, the download step is recorded as completed, the cleanup step as
    failed, and the file is still in the scratch directory after
    [process_document]. *)
Lemma scratch_file_left_when_unlink_fails :
  let out := process_document Samples.vector_db Samples.unlink_denied "d1"
               Samples.uploaded in
  "/tmp/tmpk3w9.pdf" ∈ tmpfiles (snd out) /\
  Samples.step_status (snd out) "download" = Some COMPLETED /\
  Samples.step_status (snd out) "cleanup" = Some FAILED.
Proof.
  cbv zeta. split; [ | split; vm_compute; reflexivity ].
  apply elem_of_elements.
  replace (elements _) with ["/tmp/tmpk3w9.pdf"] by (vm_compute; reflexivity).
  apply list_elem_of_here.
Qed.

(** Claim C1, at the failing input.  For an uploaded PDF every step of
    which succeeds, [process_document_immediately] returns [True] and
    leaves the record [completed] with a chunk count of 0 and the
    [vectorIds] it found; [process_document] on the same input leaves it
    [completed] with one chunk and one vector id. *)
Theorem immediate_processing_records_no_chunks :
  let out := process_document_immediately Samples.vector_db Samples.pipeline_env
               "d1" 3 Samples.uploaded in
  let ref := process_document Samples.vector_db Samples.pipeline_env "d1"
               Samples.uploaded in
  (fst out = Ok true /\
   Samples.field (snd out) "processingStatus" = Some (VStr "completed") /\
   Samples.field (snd out) "chunkCount" = Some (VInt 0) /\
   Samples.field (snd out) "vectorIds" = Some VNone) /\
  (Samples.field (snd ref) "processingStatus" = Some (VStr "completed") /\
   Samples.field (snd ref) "chunkCount" = Some (VInt 1) /\
   Samples.field (snd ref) "vectorIds" = Some (VIds ["uuid-0"]) /\
   Samples.field (snd ref) "error" = Some VNone).
Proof. cbv zeta. repeat split; vm_compute; reflexivity. Qed.

(** When the file is in the bucket and the vector database answers, the
    vectors, the file and the record are removed, in this order. *)
Lemma delete_document_cascade {V} (vector_db : VectorDB V) document_id
    (w : World (V := V)) (doc : Doc) (storage_path : string) (removed : bool) (v : V) :
  firestore w !! document_id = Some doc ->
  doc !! "storageUri" = Some (VStr storage_path) ->
  truthy storage_path = true ->
  storage_path ∈ bucket w ->
  vdb_delete_by_document_id document_id (vdb w) = (Ok removed, v) ->
  delete_document vector_db document_id w =
    (Ok true,
     {| firestore := delete document_id (firestore w);
        bucket := bucket w ∖ {[ storage_path ]};
        tmpfiles := tmpfiles w;
        vdb := v |}).
Proof.
  intros Hdoc Huri Htruthy Hin Hv.
  unfold delete_document, bind, get_document, on_vdb, ret.
  rewrite Hdoc.
  assert (Ht : doc_truthy (Some doc) = true).
  { unfold doc_truthy. destruct (map_to_list doc) eqn:Hl; [ | reflexivity ].
    apply map_to_list_empty_iff in Hl. subst doc. rewrite lookup_empty in Huri.
    discriminate. }
  rewrite Ht. cbn [negb]. rewrite Hv. cbn [default]. unfold Datatypes.id, get_str.
  rewrite Huri.
  cbn [opt_truthy default]. rewrite Htruthy.
  unfold delete_file. cbn [bucket set_vdb].
  rewrite bool_decide_eq_true_2 by exact Hin. reflexivity.
Qed.

(** Claim C7, at the failing input.  For a document whose file is no
    longer in the bucket, [delete_document] raises once the vectors are
    deleted: the vector rows are gone and the record is still there. *)
Theorem delete_document_aborts_when_file_is_gone :
  let out := delete_document Samples.vector_db "d1" Samples.file_gone in
  fst out = Raise "404 No such object: documents/u1/d1.pdf" /\
  firestore (snd out) !! "d1" = Some Samples.report /\
  QdrantDB.points <$> QdrantDB.server (vdb Samples.file_gone) !! "docs"
  = Some [Samples.stored_point] /\
  QdrantDB.points <$> QdrantDB.server (vdb (snd out)) !! "docs" = Some [].
Proof. cbv zeta. repeat split; vm_compute; reflexivity. Qed.

End DocumentProcessorFacts.

(** ** The Milvus client, further properties *)

Module VectorStoreMore.
Import Py VectorStore Spec.

(** *** Connecting *)

Lemma connect_with_retry_cases env retries (w : MilvusDB.World) :
  let out := MilvusDB.connect_with_retry env retries w in
  let first := MilvusDB.connect_calls w in
  MilvusDB.server (snd out) = MilvusDB.server w /\
  MilvusDB.collection_name (snd out) = MilvusDB.collection_name w /\
  MilvusDB.dimension (snd out) = MilvusDB.dimension w /\
  match fst out with
  | Ok None => retries = 0%nat /\ snd out = w
  | Ok (Some answer) =>
      answer = true /\
      MilvusDB.connection_established (snd out) = true /\
      exists k, (k < retries)%nat /\
        is_ok (MilvusDB.connect env (first + k)) = true /\
        (forall j, (j < k)%nat -> is_ok (MilvusDB.connect env (first + j)) = false) /\
        MilvusDB.connect_calls (snd out) = (first + k + 1)%nat
  | Raise e =>
      (0 < retries)%nat /\
      MilvusDB.connection_established (snd out) = false /\
      MilvusDB.connect env (first + retries - 1) = Raise e /\
      (forall j, (j < retries)%nat -> is_ok (MilvusDB.connect env (first + j)) = false) /\
      MilvusDB.connect_calls (snd out) = (first + retries)%nat
  end.
Proof.
  cbv zeta. revert w. induction retries as [|rest IH]; intros w.
  - cbn. repeat split; reflexivity.
  - cbn [MilvusDB.connect_with_retry].
    destruct (MilvusDB.connect env (MilvusDB.connect_calls w)) as [u|e] eqn:Hc.
    + cbn. repeat split.
      exists 0%nat. rewrite Nat.add_0_r, Hc.
      repeat split; [ lia | | lia ]. intros j Hj. lia.
    + destruct rest as [|rest'].
      * cbn. repeat split; try lia.
        -- replace (MilvusDB.connect_calls w + 1 - 1)%nat with (MilvusDB.connect_calls w) by lia.
           exact Hc.
        -- intros j Hj. assert (j = 0)%nat as -> by lia.
           rewrite Nat.add_0_r, Hc. reflexivity.
      * specialize (IH (MilvusDB.count_connect w)).
        destruct IH as (Hs & Hn & Hd & IH).
        split; [ exact Hs | ]. split; [ exact Hn | ]. split; [ exact Hd | ].
        cbn [MilvusDB.count_connect MilvusDB.connect_calls] in IH.
        destruct (fst (MilvusDB.connect_with_retry env (S rest') (MilvusDB.count_connect w)))
          as [[answer|]|e'].
        -- destruct IH as (Ha & Hce & k & Hk & Hok & Hfail & Hcalls).
           split; [ exact Ha | ]. split; [ exact Hce | ].
           exists (S k). split; [ lia | ].
           split; [ now replace (MilvusDB.connect_calls w + S k)%nat
                      with (S (MilvusDB.connect_calls w) + k)%nat by lia | ].
           split; [ | lia ].
           intros j Hj. destruct j as [|j].
           ++ rewrite Nat.add_0_r, Hc. reflexivity.
           ++ replace (MilvusDB.connect_calls w + S j)%nat
                with (S (MilvusDB.connect_calls w) + j)%nat by lia.
              apply Hfail. lia.
        -- destruct IH as [[=] _].
        -- destruct IH as (_ & Hce & Hlast & Hfail & Hcalls).
           split; [ lia | ]. split; [ exact Hce | ].
           split; [ now replace (MilvusDB.connect_calls w + S (S rest') - 1)%nat
                      with (S (MilvusDB.connect_calls w) + S rest' - 1)%nat by lia | ].
           split; [ | lia ].
           intros j Hj. destruct j as [|j].
           ++ rewrite Nat.add_0_r, Hc. reflexivity.
           ++ replace (MilvusDB.connect_calls w + S j)%nat
                with (S (MilvusDB.connect_calls w) + j)%nat by lia.
              apply Hfail. lia.
Qed.


(** Extra X1.  [connect_with_retry] never changes what the server
    holds.  It answers [True] exactly when one of the first [retries]
    attempts succeeds, having made no attempt after the first success; it
    raises the error of the last attempt when all of them fail; with no
    attempt to make it returns [None] and does nothing. *)
Theorem connect_with_retry_attempts env retries (w : MilvusDB.World) :
  let out := MilvusDB.connect_with_retry env retries w in
  let first := MilvusDB.connect_calls w in
  MilvusDB.server (snd out) = MilvusDB.server w /\
  match fst out with
  | Ok None => retries = 0%nat /\ snd out = w
  | Ok (Some answer) =>
      answer = true /\
      MilvusDB.connection_established (snd out) = true /\
      exists k, (k < retries)%nat /\
        is_ok (MilvusDB.connect env (first + k)) = true /\
        (forall j, (j < k)%nat -> is_ok (MilvusDB.connect env (first + j)) = false) /\
        MilvusDB.connect_calls (snd out) = (first + k + 1)%nat
  | Raise e =>
      (0 < retries)%nat /\
      MilvusDB.connection_established (snd out) = false /\
      MilvusDB.connect env (first + retries - 1) = Raise e /\
      (forall j, (j < retries)%nat -> is_ok (MilvusDB.connect env (first + j)) = false) /\
      MilvusDB.connect_calls (snd out) = (first + retries)%nat
  end.
Proof.
  intros out first.
  destruct (connect_with_retry_cases env retries w) as (Hs & _ & _ & H).
  split; [ exact Hs | exact H ].
Qed.



(** *** Validation *)

Lemma validate_one_inv js dimension data entity :
  MilvusDB.validate_one js dimension data = Some entity ->
  id data = Some (e_id entity) /\
  document_id data = Some (e_document_id entity) /\
  chunk_id data = Some (e_chunk_id entity) /\
  embedding data = Some (e_embedding entity) /\
  (exists t, text data = Some t /\
             e_text entity = if too_long t then truncate t else t) /\
  (exists m,
     m = match metadata data with
         | None => dumps js [("document_id", JStr (e_document_id entity));
                             ("chunk_id", JStr (e_chunk_id entity))]
         | Some (MetaDict md) => dumps js md
         | Some (MetaStr s) => s
         end /\
     e_metadata entity = if too_long m then truncate m else m).
Proof.
  unfold MilvusDB.validate_one.
  destruct (id data), (document_id data), (chunk_id data), (text data) as [t|],
    (embedding data) as [e|]; try discriminate.
  destruct (negb _); [ discriminate | ]. destruct (existsb _ _); [ discriminate | ].
  intros [= <-]. cbn [e_id e_document_id e_chunk_id e_embedding e_text e_metadata].
  repeat split; eauto.
Qed.

(** Extra X3.  Every entity [validate_embeddings] returns comes from a
    well-formed record of the input, with its identifiers and embedding
    unchanged, its text cut to 65000 characters when longer, and text and
    metadata of at most 65000 characters.  Every well-formed record is kept, the order of
    the input is preserved, and an input of well-formed records loses
    none. *)
Theorem validate_embeddings_keeps_the_well_formed js dimension data :
  let valid := MilvusDB.validate_embeddings js dimension data in
  Forall (fun entity =>
            (exists d, In d data /\ well_formed dimension d /\
               id d = Some (e_id entity) /\
               document_id d = Some (e_document_id entity) /\
               chunk_id d = Some (e_chunk_id entity) /\
               embedding d = Some (e_embedding entity) /\
               exists t, text d = Some t /\
                         e_text entity = if too_long t then truncate t else t) /\
            (N.of_nat (String.length (e_text entity)) <= MAX_FIELD)%N /\
            (N.of_nat (String.length (e_metadata entity)) <= MAX_FIELD)%N)
         valid /\
  (forall d, In d data -> well_formed dimension d ->
     exists entity, In entity valid /\ id d = Some (e_id entity)) /\
  sublist (map (fun entity => Some (e_id entity)) valid) (map id data) /\
  (Forall (well_formed dimension) data -> length valid = length data).
Proof.
  cbv zeta. unfold MilvusDB.validate_embeddings.
  split; [ | split; [ | split ] ].
  - apply Forall_forall. intros entity Hin.
    apply list_elem_of_omap in Hin as (d & Hd & Hv).
    pose proof (validate_one_inv _ _ _ _ Hv) as (Hi & Hdoc & Hc & He & Ht & _).
    pose proof (VectorStoreFacts.validate_one_id _ _ _ _ Hv) as (_ & _ & Hcap1 & Hcap2).
    split; [ | split; assumption ].
    exists d. split; [ now apply list_elem_of_In | ].
    split; [ apply (VectorStoreFacts.validate_one_Some js); eauto | ].
    auto.
  - intros d Hd Hwf.
    apply (VectorStoreFacts.validate_one_Some js) in Hwf as [entity Hv].
    exists entity. split.
    + apply list_elem_of_In, list_elem_of_omap. exists d.
      split; [ now apply list_elem_of_In | exact Hv ].
    + now apply validate_one_inv in Hv as (Hi & _).
  - induction data as [|d data IH]; cbn; [ constructor | ].
    destruct (MilvusDB.validate_one js dimension d) as [entity|] eqn:Hv; cbn.
    + apply validate_one_inv in Hv as (-> & _). now constructor.
    + now constructor.
  - induction 1 as [|d data Hwf Hall IH]; cbn; [ reflexivity | ].
    apply (VectorStoreFacts.validate_one_Some js) in Hwf as [entity ->].
    cbn. now rewrite IH.
Qed.

(** *** Insertion *)

(** The reconnection step shared by [insert_embeddings], [search_similar]
    and [delete_by_document_id]. *)
Lemma reconnect_cases env (w : MilvusDB.World) :
  let step :=
    if negb (MilvusDB.connection_established w)
    then match MilvusDB.connect_with_retry env MilvusDB.max_retries w with
         | (Ok _, w') => (Ok (MilvusDB.connection_established w'), w')
         | (Raise e, w') => (Raise e, w')
         end
    else (Ok true, w) in
  MilvusDB.server (snd step) = MilvusDB.server w /\
  MilvusDB.collection_name (snd step) = MilvusDB.collection_name w /\
  MilvusDB.dimension (snd step) = MilvusDB.dimension w /\
  match fst step with
  | Ok connected =>
      connected = true /\ MilvusDB.connection_established (snd step) = true
  | Raise e =>
      MilvusDB.connection_established w = false /\
      MilvusDB.connection_established (snd step) = false /\
      forall j, (j < 3)%nat ->
        is_ok (MilvusDB.connect env (MilvusDB.connect_calls w + j)) = false
  end.
Proof.
  cbv zeta. destruct (MilvusDB.connection_established w) eqn:Hc; cbn [negb].
  - cbn. repeat split; try reflexivity; exact Hc.
  - destruct (connect_with_retry_cases env MilvusDB.max_retries w) as (Hs & Hn & Hd & H).
    destruct (MilvusDB.connect_with_retry env MilvusDB.max_retries w) as [[[answer|]|e] w1];
      cbn [fst snd] in *.
    + destruct H as (_ & Hce & _). repeat split; assumption.
    + destruct H as [[=] _].
    + destruct H as (_ & Hce & _ & Hfail & _). repeat split; assumption.
Qed.





(** *** Search *)






(** *** Deletion *)

(** Extra X6.  [delete_by_document_id] of the Milvus client answers
    [True] only when the delete call went through, and then exactly the rows
    of that document are gone from its collection; it answers [False] when
    the delete call raised, with the server unchanged; it raises only when
    the client was disconnected and three reconnection attempts failed. *)
Theorem milvus_delete_reports_failure env document_id (w : MilvusDB.World) :
  let name := MilvusDB.collection_name w in
  let out := MilvusDB.delete_by_document_id env document_id w in
  (forall other, other <> name ->
     MilvusDB.server (snd out) !! other = MilvusDB.server w !! other) /\
  match fst out with
  | Ok true =>
      is_ok (MilvusDB.delete_rows env document_id) = true /\
      match MilvusDB.server w !! name with
      | Some before =>
          exists after,
            MilvusDB.server (snd out) !! name = Some after /\
            forall row, In row (MilvusDB.entities after) <->
                        In row (MilvusDB.entities before) /\
                        e_document_id row <> document_id
      | None => MilvusDB.server (snd out) !! name = None
      end
  | Ok false =>
      is_ok (MilvusDB.delete_rows env document_id) = false /\
      MilvusDB.server (snd out) = MilvusDB.server w
  | Raise e =>
      MilvusDB.connection_established w = false /\
      (forall j, (j < 3)%nat ->
         is_ok (MilvusDB.connect env (MilvusDB.connect_calls w + j)) = false) /\
      MilvusDB.server (snd out) = MilvusDB.server w
  end.
Proof.
  cbv zeta. unfold MilvusDB.delete_by_document_id.
  unfold bind, ret, lift, modify, try_except.
  destruct (reconnect_cases env w) as (Hs & Hn & Hd & H). cbv zeta in Hs, Hn, Hd, H.
  match goal with
  | |- context [if negb (MilvusDB.connection_established w) then ?a else ?b] =>
      destruct (if negb (MilvusDB.connection_established w) then a else b)
        as [[connected|e] w1]
  end; cbn [fst snd] in *.
  2:{ destruct H as (Hw & _ & Hfail). rewrite Hs.
      split; [ reflexivity | ]. split; [ exact Hw | ]. split; [ exact Hfail | reflexivity ]. }
  destruct H as (-> & Hce). cbn [negb].
  destruct (MilvusDB.delete_rows env document_id) as [u|e]; cbn [fst snd].
  - cbn [MilvusDB.set_server MilvusDB.server]. rewrite Hn, Hs.
    split; [ intros other Hne; now rewrite lookup_alter_ne by congruence | ].
    split; [ reflexivity | ].
    rewrite lookup_alter_eq.
    destruct (MilvusDB.server w !! MilvusDB.collection_name w) as [before|];
      [ | reflexivity ].
    eexists. split; [ reflexivity | ].
    intros row. cbn [MilvusDB.remove_entities MilvusDB.entities].
    rewrite filter_In, negb_true_iff, String.eqb_neq. reflexivity.
  - rewrite Hs. split; [ reflexivity | ]. split; reflexivity.
Qed.

End VectorStoreMore.

(** ** The query engine, further properties *)

Module PyMore.
Import Py.

Lemma string_app_cons (x : ascii) (a b : string) :
  String x a +:+ b = String x (a +:+ b).
Proof. reflexivity. Qed.

Lemma string_app_assoc (a b c : string) : (a +:+ b) +:+ c = a +:+ (b +:+ c).
Proof.
  induction a as [|x a IH]; [ reflexivity | ].
  rewrite !string_app_cons. f_equal. exact IH.
Qed.

Lemma string_app_length (a b : string) :
  String.length (a +:+ b) = (String.length a + String.length b)%nat.
Proof.
  induction a as [|x a IH]; [ reflexivity | ].
  rewrite string_app_cons. cbn [String.length]. now rewrite IH.
Qed.

Lemma prefix_app (a b : string) : String.prefix a (a +:+ b) = true.
Proof.
  induction a as [|x a IH]; [ now destruct b | ].
  rewrite string_app_cons. cbn [String.prefix].
  destruct (ascii_dec x x) as [_|Hne]; [ exact IH | congruence ].
Qed.

Lemma truthy_nonempty (s : string) : truthy s = true <-> s <> "".
Proof.
  unfold truthy. rewrite negb_true_iff, String.eqb_neq. reflexivity.
Qed.

(** The last part of a joined list ends the result. *)
Lemma join_snoc (sep : string) (parts : list string) (x : string) :
  join sep (parts ++ [x])
  = match parts with [] => "" | _ => join sep parts +:+ sep end +:+ x.
Proof.
  induction parts as [|p ps IH]; [ reflexivity | ].
  destruct ps as [|q qs].
  - cbn. now rewrite string_app_assoc.
  - change (join sep ((p :: q :: qs) ++ [x]))
      with (p +:+ sep +:+ join sep ((q :: qs) ++ [x])).
    rewrite IH.
    change (join sep (p :: q :: qs)) with (p +:+ sep +:+ join sep (q :: qs)).
    now rewrite !string_app_assoc.
Qed.

End PyMore.

Module QueryEngineMore.
Import Py QueryEngine Spec PyMore.

Lemma build_llm_only_prompt_eq instructions chatbot :
  _build_llm_only_prompt instructions chatbot
  = match prompt_parts instructions chatbot with
    | [] => ""
    | _ => join " " (prompt_parts instructions chatbot) +:+ " "
    end +:+ general_instruction.
Proof.
  unfold _build_llm_only_prompt.
  rewrite <- join_snoc.
  destruct (prompt_parts instructions chatbot ++ _) eqn:Hp; [ | reflexivity ].
  apply app_eq_nil in Hp as [_ [=]].
Qed.

Lemma build_llm_only_prompt_truthy instructions chatbot :
  truthy (_build_llm_only_prompt instructions chatbot) = true.
Proof.
  apply truthy_nonempty. rewrite build_llm_only_prompt_eq. intros H.
  apply (f_equal String.length) in H. rewrite string_app_length in H.
  cbn in H. lia.
Qed.

(** Extra X7.  The system prompt always ends with the instruction to
    answer from the provided context only, and the prompt of the call
    without retrieval with the instruction to answer from general
    knowledge; without instructions and chatbot behaviour the prompt is
    that instruction alone.  As neither prompt is ever empty, the default
    prompts of the callers are never used. *)
Theorem prompts_end_with_the_standard_instruction instructions chatbot :
  (exists lead,
     _build_system_prompt instructions chatbot = Some (lead +:+ rag_instruction) /\
     (prompt_parts instructions chatbot = [] -> lead = "")) /\
  (exists lead,
     _build_llm_only_prompt instructions chatbot = lead +:+ general_instruction /\
     (prompt_parts instructions chatbot = [] -> lead = "")) /\
  _build_llm_only_prompt instructions chatbot
  <> "You are a helpful assistant. Answer the user's question to the best of your ability." /\
  effective_prompt instructions chatbot = _build_system_prompt instructions chatbot.
Proof.
  assert (Hsys : _build_system_prompt instructions chatbot
                 = Some (match prompt_parts instructions chatbot with
                         | [] => ""
                         | _ => join " " (prompt_parts instructions chatbot) +:+ " "
                         end +:+ rag_instruction)).
  { unfold _build_system_prompt. rewrite <- join_snoc.
    destruct (prompt_parts instructions chatbot ++ _) eqn:Hp; [ | reflexivity ].
    apply app_eq_nil in Hp as [_ [=]]. }
  split; [ | split; [ | split ] ].
  - eexists. split; [ exact Hsys | ]. now intros ->.
  - eexists. split; [ apply build_llm_only_prompt_eq | ]. now intros ->.
  - rewrite build_llm_only_prompt_eq. intros H.
    apply (f_equal String.length) in H. rewrite string_app_length in H.
    cbn in H. lia.
  - unfold effective_prompt. rewrite Hsys.
    match goal with |- (if truthy ?s then _ else _) = _ =>
      assert (Ht : truthy s = true); [ | now rewrite Ht ] end.
    apply truthy_nonempty. intros H.
    apply (f_equal String.length) in H. rewrite string_app_length in H.
    cbn in H. lia.
Qed.

(** Extra X8.  [_query_llm_only] always returns.  It makes one call to
    the provider, with the system prompt and the query as the two
    messages and the temperature of the request or else of the settings;
    the text of the answer is returned, and an apology when the provider
    raises or answers without text. *)
Theorem llm_only_call app env query_text temperature instructions chatbot :
  let messages :=
    [{| msg_role := SYSTEM; content := _build_llm_only_prompt instructions chatbot |};
     {| msg_role := USER; content := query_text |}] in
  let llm := Groq (LLM_MODEL app) (LLM_MAX_TOKENS app)
               (default (LLM_TEMPERATURE app) temperature) in
  _query_llm_only app env query_text temperature instructions chatbot
  = Ok (response_dict
          match llm_chat env llm messages with
          | Ok (WithMessage (Some text)) | Ok (AsDict (Some text)) | Ok (AsStr text) => text
          | Ok Unexpected => "I'm having trouble generating a response right now."
          | Ok (WithMessage None) | Ok (AsDict None) | Raise _ =>
              "I'm having trouble generating a response right now. Please try again later."
          end).
Proof.
  cbv zeta. unfold _query_llm_only, llm_only_client.
  rewrite build_llm_only_prompt_truthy. cbn [List.app].
  replace (match temperature with Some t => t | None => LLM_TEMPERATURE app end)
    with (default (LLM_TEMPERATURE app) temperature) by (now destruct temperature).
  destruct (llm_chat env _ _) as [[[c|]|[c|]|s|]|e]; reflexivity.
Qed.

(** *** The retrieval path *)

Lemma answer_text_nonempty response : answer_text response <> "".
Proof.
  unfold answer_text.
  destruct (truthy (strip (response_str response))) eqn:Ht; [ | discriminate ].
  intros He. rewrite He in Ht. discriminate.
Qed.

Lemma vector_search_shape app self env query_text ids temperature instructions
    st chatbot text sources tokens status :
  fst (vector_search app self env query_text ids temperature instructions (st, chatbot))
  = Ok (text, sources, tokens, status) ->
  (sources <> [] <-> status = SUCCESS) /\
  (status = NO_RESULTS -> String.prefix fallback_prefix text = true) /\
  text <> "" /\
  status <> NO_DOCUMENTS /\ status <> ERROR.
Proof.
  unfold vector_search, bind, on_state, create_service_context, modify, lift, get, ret.
  cbn [fst snd Settings].
  destruct (vector_store_index env ids); [ | discriminate ].
  destruct (retrieval_parameters (_assess_query_complexity query_text)) as [k c].
  cbn [fst snd].
  destruct (engine_query _ _ _ _ _ _) as [response|e]; [ | discriminate ].
  cbn [fst snd]. intros [= <- <- <- <-].
  pose proof (answer_text_nonempty response) as Hne.
  destruct (default [] (source_nodes response)) as [|n ns]; cbn [flat_map].
  - cbn [RAGStatus_eqb negb].
    split; [ split; [ congruence | discriminate ] | ].
    split.
    + intros _. destruct (String.prefix fallback_prefix (answer_text response)) eqn:Hp;
        [ exact Hp | apply prefix_app ].
    + split; [ | split; discriminate ].
      destruct (String.prefix fallback_prefix (answer_text response)); [ exact Hne | ].
      discriminate.
  - destruct (source_of_node n ++ flat_map source_of_node ns)%list as [|s ss];
      cbn [RAGStatus_eqb negb].
    + split; [ split; [ congruence | discriminate ] | ].
      split; [ discriminate | ]. split; [ exact Hne | split; discriminate ].
    + split; [ split; [ reflexivity | discriminate ] | ].
      split; [ discriminate | ]. split; [ exact Hne | split; discriminate ].
Qed.

(** Extra X9.  [query] always returns an answer.  The answer has sources
    exactly when its status is [success]; a [no_results] answer starts with
    the notice that nothing was found in the documents; [success] and
    [no_results] answers have a text; [no_documents] and [error] answers
    count no tokens. *)
Theorem query_answer_shape app self env query_text document_ids chatbot_id
    temperature instructions max_tokens model st :
  exists text sources tokens status,
    fst (query app self env query_text document_ids chatbot_id temperature
           instructions max_tokens model st)
    = Ok (text, sources, tokens, status) /\
    (sources <> [] <-> status = SUCCESS) /\
    (status = NO_RESULTS -> String.prefix fallback_prefix text = true) /\
    (status = SUCCESS \/ status = NO_RESULTS -> text <> "") /\
    (status = NO_DOCUMENTS \/ status = ERROR -> tokens = 0%nat).
Proof.
  pose proof (QueryEngineFacts.query_cases app self env query_text document_ids
                chatbot_id temperature instructions max_tokens model st) as H.
  cbv zeta in H.
  destruct (fst (resolve_scope _ _ _ _)) as [ids|e].
  - destruct (ids_truthy ids).
    + destruct (fst (vector_search _ _ _ _ _ _ _ _)) as [answer|e] eqn:Hs.
      * rewrite H. cbn [fst]. destruct answer as [[[text sources] tokens] status].
        apply vector_search_shape in Hs as (Hsrc & Hpre & Hne & Hn1 & Hn2).
        exists text, sources, tokens, status.
        split; [ reflexivity | ]. split; [ exact Hsrc | ]. split; [ exact Hpre | ].
        split; [ intros _; exact Hne | intros [?|?]; contradiction ].
      * destruct H as [text ->]. exists text, [], 0%nat, ERROR.
        split; [ reflexivity | ].
        split; [ split; [ congruence | discriminate ] | ].
        split; [ discriminate | ]. split; [ intros [?|?]; discriminate | reflexivity ].
    + destruct H as [text ->]. exists text, [], 0%nat, NO_DOCUMENTS.
      split; [ reflexivity | ].
      split; [ split; [ congruence | discriminate ] | ].
      split; [ discriminate | ]. split; [ intros [?|?]; discriminate | reflexivity ].
  - destruct H as [text ->]. exists text, [], 0%nat, FALLBACK.
    split; [ reflexivity | ].
    split; [ split; [ congruence | discriminate ] | ].
    split; [ discriminate | ]. split; [ intros [?|?]; discriminate | ].
    intros [?|?]; discriminate.
Qed.


(** *** [get_context] *)

Lemma get_context_cases app self env query_text document_ids st :
  let out := get_context app self env query_text document_ids st in
  let own := {| Settings_llm := self_llm self;
                Settings_embed_model := self_embeddings self |} in
  match document_ids with
  | [] => out = (Ok None, {| Settings := Settings st; last_sources := [] |})
  | _ =>
      match rbind (context_index env document_ids)
              (fun _ => retrieve env document_ids query_text) with
      | Ok (node :: nodes) =>
          out = (Ok (Some (join blank_line (map rn_content (node :: nodes)))),
                 {| Settings := own;
                    last_sources := imap source_info (node :: nodes) |})
      | _ => out = (Ok None, {| Settings := own; last_sources := [] |})
      end
  end.
Proof.
  cbv zeta. unfold get_context.
  destruct document_ids as [|d ds]; [ reflexivity | ].
  unfold try_except, bind, create_service_context, set_last_sources, modify, lift, ret, rbind.
  cbn [fst snd Settings last_sources].
  destruct (context_index env (d :: ds)) as [[]|e]; [ | reflexivity ].
  destruct (retrieve env (d :: ds) query_text) as [[|node nodes]|e]; reflexivity.
Qed.

(** Extra X10.  [get_context] never raises.  When it returns a context,
    the retriever answered with at least one node, the context is the
    contents of the nodes separated by blank lines, and [last_sources] has
    one entry per node, in order, with the node's document id or
    [unknown], its chunk id or [chunk-<position>], and its score or 0.
    When it returns [None], [last_sources] is empty. *)
Theorem get_context_sources app self env query_text document_ids st :
  let out := get_context app self env query_text document_ids st in
  match fst out with
  | Raise _ => False
  | Ok None => last_sources (snd out) = []
  | Ok (Some context) =>
      exists nodes,
        nodes <> [] /\ document_ids <> [] /\
        retrieve env document_ids query_text = Ok nodes /\
        context = join blank_line (map rn_content nodes) /\
        length (last_sources (snd out)) = length nodes /\
        forall i node, nodes !! i = Some node ->
          exists s,
            last_sources (snd out) !! i
            = Some {| document_id := Some (default "unknown" (rn_document_id node));
                      chunk_id := Some (default ("chunk-" +:+ pretty i) (rn_chunk_id node));
                      score := Some s |} /\
            (s == default 0 (rn_score node))%Q
  end.
Proof.
  cbv zeta.
  pose proof (get_context_cases app self env query_text document_ids st) as H.
  cbv zeta in H.
  destruct document_ids as [|d ds]; [ rewrite H; reflexivity | ].
  unfold rbind in H.
  destruct (context_index env (d :: ds)) as [[]|e]; [ | rewrite H; reflexivity ].
  destruct (retrieve env (d :: ds) query_text) as [[|node nodes]|e] eqn:Hr;
    rewrite H; try reflexivity.
  cbn [fst snd last_sources].
  exists (node :: nodes).
  split; [ discriminate | ]. split; [ discriminate | ]. split; [ reflexivity | ].
  split; [ reflexivity | ]. split; [ apply length_imap | ].
  intros i n Hn. rewrite list_lookup_imap, Hn. cbn [fmap option_fmap option_map].
  unfold source_info. eexists. split; [ reflexivity | ].
  destruct (rn_score n) as [s|]; cbn [default]; [ | reflexivity ].
  destruct (Qeq_bool s 0) eqn:Hz; [ | reflexivity ].
  apply Qeq_bool_iff in Hz. now rewrite Hz.
Qed.

(** Extra X11.  With document ids, [get_context] leaves the global
    settings on the engine's own model, also right after a [query] that ran
    with a temperature override; without document ids it does not touch
    them. *)
Theorem get_context_drops_temperature_override app self env cenv query_text
    document_ids override question scope st :
  let own := {| Settings_llm := self_llm self;
                Settings_embed_model := self_embeddings self |} in
  let after_query :=
    snd (query app self env question (Some scope) None (Some override)
           None None None st) in
  match document_ids with
  | [] =>
      Settings (snd (get_context app self cenv query_text document_ids st))
      = Settings st
  | _ =>
      Settings (snd (get_context app self cenv query_text document_ids st)) = own /\
      Settings (snd (get_context app self cenv query_text document_ids after_query))
      = own
  end.
Proof.
  cbv zeta.
  assert (H : forall st0,
             match document_ids with
             | [] => Settings (snd (get_context app self cenv query_text document_ids st0))
                     = Settings st0
             | _ => Settings (snd (get_context app self cenv query_text document_ids st0))
                    = {| Settings_llm := self_llm self;
                         Settings_embed_model := self_embeddings self |}
             end).
  { intros st0.
    pose proof (get_context_cases app self cenv query_text document_ids st0) as H.
    cbv zeta in H.
    destruct document_ids as [|d ds]; [ rewrite H; reflexivity | ].
    destruct (rbind _ _) as [[|node nodes]|e]; rewrite H; reflexivity. }
  destruct document_ids as [|d ds]; [ apply H | split; apply H ].
Qed.

(** *** The store behind the index *)

Lemma getattr_declared values name :
  In name settings_fields -> getattr values name = Ok (values name).
Proof.
  intros Hin. unfold getattr.
  now rewrite (proj2 (QueryEngineFacts.str_in_In name settings_fields) Hin).
Qed.

Lemma create_vector_store_not_qdrant values document_ids :
  values "VECTOR_DB_TYPE" <> Some "qdrant" ->
  _create_vector_store_for_documents values document_ids
  = Raise "'Settings' object has no attribute 'MILVUS_URI'".
Proof.
  intros Ht. unfold _create_vector_store_for_documents.
  rewrite getattr_declared by (cbn; tauto). cbn [rbind].
  rewrite bool_decide_eq_false_2 by exact Ht. reflexivity.
Qed.

(** Extra X12.  [_create_vector_store_for_documents] builds a store only
    when [VECTOR_DB_TYPE] is exactly [qdrant]: a Qdrant store on the
    configured URL, key and collection, filtered on the document id when
    there is one id and on the list of ids when there are several.  For
    every other value it raises, because [settings] has no attribute
    [MILVUS_URI]. *)
Theorem vector_store_only_for_qdrant values document_ids :
  match _create_vector_store_for_documents values document_ids with
  | Ok store =>
      values "VECTOR_DB_TYPE" = Some "qdrant" /\
      store = QdrantVectorStore (values "QDRANT_URL") (values "QDRANT_API_KEY")
                (values "QDRANT_COLLECTION_NAME")
                match document_ids with
                | [] => None
                | [d] => Some (FieldIs d)
                | _ => Some (FieldIn document_ids)
                end
  | Raise e =>
      values "VECTOR_DB_TYPE" <> Some "qdrant" /\
      e = "'Settings' object has no attribute 'MILVUS_URI'"
  end.
Proof.
  unfold _create_vector_store_for_documents.
  rewrite getattr_declared by (cbn; tauto). cbn [rbind].
  case_bool_decide as Ht.
  - rewrite !getattr_declared by (cbn; tauto). cbn [rbind].
    split; [ exact Ht | reflexivity ].
  - split; [ exact Ht | reflexivity ].
Qed.

Lemma vector_search_without_index app self env query_text ids temperature
    instructions st chatbot e :
  vector_store_index env ids = Raise e ->
  fst (vector_search app self env query_text ids temperature instructions (st, chatbot))
  = Raise e /\
  snd (snd (vector_search app self env query_text ids temperature instructions
              (st, chatbot))) = chatbot.
Proof.
  intros He.
  unfold vector_search, bind, on_state, create_service_context, modify, lift, get, ret.
  cbn [fst snd]. rewrite He. split; reflexivity.
Qed.

(** Extra X13.  When [VECTOR_DB_TYPE] is not exactly [qdrant], a [query]
    over a chatbot-less scope of documents never searches them: it answers
    with the text of the call without retrieval, no source, no token and
    the status [error]. *)
Theorem documents_are_never_searched_unless_qdrant values from_vector_store
    app self env query_text d ds temperature instructions max_tokens model st :
  values "VECTOR_DB_TYPE" <> Some "qdrant" ->
  exists text,
    _query_llm_only app env query_text temperature instructions None
    = Ok (response_dict text) /\
    fst (query app self (with_store values from_vector_store env) query_text
           (Some (d :: ds)) None temperature instructions max_tokens model st)
    = Ok (text, [], 0%nat, ERROR).
Proof.
  intros Htype.
  pose proof (create_vector_store_not_qdrant values (d :: ds) Htype) as Hc.
  set (e := "'Settings' object has no attribute 'MILVUS_URI'") in Hc.
  destruct (QueryEngineFacts._query_llm_only_returns app env query_text temperature
              instructions None) as [text Hr].
  exists text. split; [ exact Hr | ].
  unfold query, query_body, resolve_scope.
  cbn [opt_truthy andb].
  unfold try_except at 1. unfold bind at 1. unfold ret at 1.
  unfold bind at 1. unfold get at 1. cbn [fst snd ids_truthy negb default].
  unfold try_except at 1. unfold Datatypes.id.
  set (wenv := with_store values from_vector_store env).
  assert (Hidx : vector_store_index wenv (d :: ds) = Raise e).
  { subst wenv. cbn [with_store vector_store_index]. rewrite Hc. reflexivity. }
  destruct (vector_search_without_index app self wenv query_text (d :: ds) temperature
              instructions st None e Hidx) as [Hraise Hcb].
  destruct (vector_search app self wenv query_text (d :: ds) temperature instructions
              (st, None)) as [r [st1 cb1]].
  cbn [fst snd] in Hraise, Hcb. subst r cb1.
  unfold bind, lift, ret.
  change (_query_llm_only app wenv query_text temperature instructions None)
    with (_query_llm_only app env query_text temperature instructions None).
  rewrite Hr. cbn [fst snd]. rewrite QueryEngineFacts.get_response_dict. reflexivity.
Qed.

(** Extra X13, witness: the default settings, which select Zilliz. *)
Lemma documents_are_never_searched_by_default :
  Samples.default_settings "VECTOR_DB_TYPE" <> Some "qdrant" /\
  exists text,
    _query_llm_only Samples.app Samples.store_down "What is in the report?" None None None
    = Ok (response_dict text) /\
    fst (query Samples.app Samples.engine
           (with_store Samples.default_settings (fun _ => Ok tt) Samples.store_down)
           "What is in the report?" (Some ["d1"]) None None None None None
           Samples.initial_state)
    = Ok (text, [], 0%nat, ERROR).
Proof.
  split; [ discriminate | ].
  apply (documents_are_never_searched_unless_qdrant Samples.default_settings
           (fun _ => Ok tt) Samples.app Samples.engine Samples.store_down
           "What is in the report?" "d1" [] None None None None Samples.initial_state).
  discriminate.
Defined.

End QueryEngineMore.

(** ** The pipeline, further properties *)

Module DocumentProcessorMore.
Import Py VectorStore DocumentProcessor Spec DocumentProcessorFacts.

Section Runs.
Context {V : Type} (vector_db : VectorDB V).
Abbreviation Frame := (Frame (V := V)).
Abbreviation World := (World (V := V)).

(** *** What the pipeline leaves alone *)

Lemma keeps_elsewhere_update_document env document_id data :
  keeps (elsewhere document_id)
    (on_world (V := V) (update_document env document_id data)).
Proof.
  intros f. unfold on_world, update_document.
  destruct (firestore (world f) !! document_id); [ | reflexivity ].
  cbn. unfold elsewhere. cbn. now rewrite delete_insert_eq.
Qed.

Lemma keeps_vdb_update_document env document_id data :
  keeps vdb (on_world (V := V) (update_document env document_id data)).
Proof.
  intros f. unfold on_world, update_document.
  destruct (firestore (world f) !! document_id); reflexivity.
Qed.

Lemma keeps_elsewhere_on_vdb document_id {A} (m : M V A) :
  keeps (elsewhere document_id) (on_world (on_vdb m)).
Proof. intros f. unfold on_world, on_vdb. destruct (m _); reflexivity. Qed.

Lemma keeps_download_file {X} (view : World -> X) env storage_path :
  (forall w t, view (set_tmpfiles t w) = view w) ->
  keeps view (on_world (V := V) (download_file env storage_path)).
Proof.
  intros Hview f. unfold on_world, download_file.
  destruct (negb _); [ reflexivity | ].
  destruct (download_to_filename env storage_path); cbn; apply Hview.
Qed.

Lemma keeps_path_exists {X} (view : World -> X) path :
  keeps view (on_world (V := V) (path_exists path)).
Proof. intros f. reflexivity. Qed.

Lemma keeps_unlink {X} (view : World -> X) env path :
  (forall w t, view (set_tmpfiles t w) = view w) ->
  keeps view (on_world (V := V) (unlink env path)).
Proof.
  intros Hview f. unfold on_world, unlink.
  destruct (unlink_error env); [ reflexivity | ].
  destruct (bool_decide _); cbn; [ apply Hview | reflexivity ].
Qed.

Lemma elsewhere_tmpfiles document_id (w : World) t :
  elsewhere document_id (set_tmpfiles t w) = elsewhere document_id w.
Proof. reflexivity. Qed.

Lemma vdb_tmpfiles (w : World) t : vdb (set_tmpfiles t w) = vdb w.
Proof. reflexivity. Qed.

Lemma record_state_tmpfiles document_id (w : World) t :
  record_state document_id (set_tmpfiles t w) = record_state document_id w.
Proof. reflexivity. Qed.

Ltac view_step :=
  lazymatch goal with
  | |- keeps _ (ret _) => apply keeps_ret
  | |- keeps _ (raise _) => apply keeps_raise
  | |- keeps _ (lift _) => apply keeps_lift
  | |- keeps _ get => apply keeps_get
  | |- keeps _ (set_stats _) => apply keeps_set_stats
  | |- keeps _ (set_current_step _) => apply keeps_set_current_step
  | |- keeps _ (on_world (get_document _)) => apply keeps_get_document
  | |- keeps _ (on_world (path_exists _)) => apply keeps_path_exists
  | |- keeps (elsewhere _) (on_world (download_file _ _)) =>
      apply keeps_download_file, elsewhere_tmpfiles
  | |- keeps vdb (on_world (download_file _ _)) =>
      apply keeps_download_file, vdb_tmpfiles
  | |- keeps (record_state _) (on_world (download_file _ _)) =>
      apply keeps_download_file, record_state_tmpfiles
  | |- keeps (elsewhere _) (on_world (unlink _ _)) =>
      apply keeps_unlink, elsewhere_tmpfiles
  | |- keeps vdb (on_world (unlink _ _)) =>
      apply keeps_unlink, vdb_tmpfiles
  | |- keeps (record_state _) (on_world (unlink _ _)) =>
      apply keeps_unlink, record_state_tmpfiles
  | |- keeps (elsewhere _) (on_world (update_document _ _ _)) =>
      apply keeps_elsewhere_update_document
  | |- keeps vdb (on_world (update_document _ _ _)) =>
      apply keeps_vdb_update_document
  | |- keeps storage (on_world (update_document _ _ _)) =>
      apply keeps_storage_update_document
  | |- keeps (record_state _) (on_world (update_document _ _ {[ "processingStats" := _ ]})) =>
      apply keeps_record_stats_update
  | |- keeps (elsewhere _) (on_world (on_vdb _)) => apply keeps_elsewhere_on_vdb
  | |- keeps storage (on_world (on_vdb _)) => apply keeps_storage_on_vdb
  | |- keeps (record_state _) (on_world (on_vdb _)) => apply keeps_record_on_vdb
  | |- keeps _ (call _) => apply keeps_call
  | |- keeps _ (bind _ _) => apply keeps_bind; [ | intros ? ]
  | |- keeps _ (try_except _ _) => apply keeps_try_except; [ | intros ? ]
  | |- keeps _ (try_finally _ _) => apply keeps_try_finally
  | |- keeps _ (match ?x with _ => _ end) => destruct x
  end.

Lemma keeps_elsewhere_ups env document_id step status error :
  keeps (elsewhere document_id)
    (_update_processing_status (V := V) env document_id step status error).
Proof. unfold _update_processing_status. repeat view_step. Qed.

Lemma keeps_vdb_ups env document_id step status error :
  keeps vdb (_update_processing_status (V := V) env document_id step status error).
Proof. unfold _update_processing_status. repeat view_step. Qed.

Lemma keeps_elsewhere_uds env document_id status error :
  keeps (elsewhere document_id)
    (_update_document_status (V := V) env document_id status error).
Proof. unfold _update_document_status. repeat view_step. Qed.

Lemma keeps_vdb_uds env document_id status error :
  keeps vdb (_update_document_status (V := V) env document_id status error).
Proof. unfold _update_document_status. repeat view_step. Qed.

Ltac view_auto :=
  repeat lazymatch goal with
         | |- keeps (elsewhere _) (_update_processing_status _ _ _ _ _) =>
             apply keeps_elsewhere_ups
         | |- keeps vdb (_update_processing_status _ _ _ _ _) =>
             apply keeps_vdb_ups
         | |- keeps storage (_update_processing_status _ _ _ _ _) =>
             apply keeps_storage_update_processing_status
         | |- keeps (record_state _) (_update_processing_status _ _ _ _ _) =>
             apply keeps_record_update_processing_status
         | |- keeps (elsewhere _) (_update_document_status _ _ _ _) =>
             apply keeps_elsewhere_uds
         | |- keeps vdb (_update_document_status _ _ _ _) =>
             apply keeps_vdb_uds
         | |- keeps storage (_update_document_status _ _ _ _) =>
             apply keeps_storage_update_document_status
         | |- keeps _ (record_step_time _ _) => apply keeps_record_step_time
         | |- _ => view_step
         end.

Lemma keeps_elsewhere_extract_documents env document_id base_metadata file_path
    text_content :
  keeps (elsewhere document_id)
    (extract_documents (V := V) env document_id base_metadata file_path text_content).
Proof. unfold extract_documents. view_auto. Qed.

Lemma keeps_vdb_extract_documents env document_id base_metadata file_path
    text_content :
  keeps vdb
    (extract_documents (V := V) env document_id base_metadata file_path text_content).
Proof. unfold extract_documents. view_auto. Qed.

Lemma keeps_elsewhere_process_content env document_id base_metadata file_path
    text_content :
  keeps (elsewhere document_id)
    (_process_content vector_db env document_id base_metadata file_path text_content).
Proof.
  unfold _process_content.
  repeat lazymatch goal with
         | |- keeps _ (extract_documents _ _ _ _ _) =>
             apply keeps_elsewhere_extract_documents
         | |- _ => progress view_auto
         end.
Qed.

Lemma keeps_elsewhere_cleanup env document_id local_file_path :
  keeps (elsewhere document_id) (cleanup (V := V) env document_id local_file_path).
Proof. unfold cleanup. view_auto. Qed.


Lemma keeps_elsewhere_process_document_frame env document_id :
  keeps (elsewhere document_id) (process_document_frame vector_db env document_id).
Proof.
  unfold process_document_frame, process_file, process_text, complete_document.
  repeat lazymatch goal with
         | |- keeps _ (_process_content _ _ _ _ _ _) =>
             apply keeps_elsewhere_process_content
         | |- keeps _ (cleanup _ _ _) => apply keeps_elsewhere_cleanup
         | |- _ => progress view_auto
         end.
Qed.



(** Extra X14.  [process_document] changes neither the bucket nor the
    record of any other document.  When the document has no record it
    returns an error and changes nothing at all. *)
Theorem process_document_touches_one_record env document_id (w : World) :
  let out := process_document vector_db env document_id w in
  bucket (snd out) = bucket w /\
  (forall other, other <> document_id ->
     firestore (snd out) !! other = firestore w !! other) /\
  (firestore w !! document_id = None ->
     exists e, fst out = Ok (ErrorResult e) /\ snd out = w).
Proof.
  cbv zeta. unfold process_document.
  set (f0 := {| world := w; processing_stats := initial_stats env;
                current_step := None |}).
  pose proof (keeps_elsewhere_process_document_frame env document_id f0) as Hk.
  split; [ | split ].
  - destruct (process_document_frame vector_db env document_id f0) as [r f1].
    cbn [snd] in *. now injection Hk.
  - intros other Hne.
    destruct (process_document_frame vector_db env document_id f0) as [r f1].
    cbn [snd] in *. injection Hk as _ Hk. cbn [world f0] in Hk.
    apply (f_equal (fun m => m !! other)) in Hk.
    now rewrite !lookup_delete_ne in Hk by congruence.
  - intros Hnone. clear Hk.
    unfold process_document_frame, try_except, bind, on_world, update_document.
    cbn [world f0]. rewrite Hnone. cbn [fst snd].
    unfold _update_document_status, try_except, bind, get, on_world, update_document, ret.
    cbn [world fst snd]. rewrite Hnone. cbn [fst snd world].
    eexists. split; [ reflexivity | ]. destruct w; reflexivity.
Qed.

(** *** The record and the returned value *)

Ltac run_ups :=
  match goal with
  | |- context [_update_processing_status ?e ?d ?s ?st ?er ?fr] =>
      let f' := fresh "f" in
      let E := fresh "E" in
      let Ht := fresh "Hstorage" in
      let Hr := fresh "Hrecord" in
      let Hs := fresh "Htimes" in
      destruct (update_processing_status_run e d s st er fr) as (f' & E & Ht & Hr & Hs);
      rewrite E; clear E
  end.








(** *** A download that fails *)

(** Extra X16.  When the download of a stored file raises,
    [process_document] returns the error [Failed to download file: ...]
    and the scratch file created for the download is left in the
    temporary directory. *)
Theorem failed_download_leaves_scratch_file env document_id (w : World)
    (doc : Doc) (storage_path e : string) :
  firestore w !! document_id = Some doc ->
  doc !! "storageUri" = Some (VStr storage_path) ->
  truthy storage_path = true ->
  storage_path ∈ bucket w ->
  download_to_filename env storage_path = Raise e ->
  let out := process_document vector_db env document_id w in
  fst out = Ok (ErrorResult ("Failed to download file: " +:+ e)) /\
  tmpfiles (snd out)
  = {[ tempname env +:+ extension (basename storage_path) ]} ∪ tmpfiles w.
Proof.
  intros Hdoc Huri Htruthy Hin Hdl. cbv zeta. unfold process_document.
  set (f0 := {| world := w; processing_stats := initial_stats env;
                current_step := None |}).
  assert (Hframe :
    exists fr,
      process_document_frame vector_db env document_id f0
      = (Ok (ErrorResult ("Failed to download file: " +:+ e)), fr) /\
      tmpfiles (world fr)
      = {[ tempname env +:+ extension (basename storage_path) ]} ∪ tmpfiles w);
    [ | destruct Hframe as (fr & -> & H); split; [ reflexivity | exact H ] ].
  unfold process_document_frame, try_except.
  unfold bind at 1. unfold on_world at 1, update_document at 1.
  cbn [world f0]. rewrite Hdoc.
  unfold bind at 1. unfold on_world at 1, get_document at 1.
  cbn [world firestore set_firestore processing_stats current_step].
  rewrite lookup_insert_eq, doc_truthy_insert_union. cbn [negb default].
  unfold Datatypes.id.
  assert (Hpath : get_str
            (<["updatedAt" := VStr (now env)]>
               {["processingStatus" := VStr "processing";
                 "processingStats" := VStats (initial_stats env)]} ∪ doc)
            "storageUri" = Some storage_path).
  { unfold get_str. rewrite lookup_union_r; [ now rewrite Huri | ].
    rewrite !lookup_insert_ne by discriminate. apply lookup_singleton_ne. discriminate. }
  rewrite Hpath. cbn [opt_truthy default]. rewrite Htruthy.
  unfold bind at 1. unfold process_file.
  unfold bind at 1 2. unfold set_current_step at 1.
  run_ups. apply storage_eq in Hstorage as [Ht Hb].
  cbn [world tmpfiles bucket set_firestore] in Ht, Hb.
  unfold try_except at 1. unfold bind at 1. unfold on_world at 1, download_file.
  rewrite bool_decide_eq_true_2 by (rewrite Hb; exact Hin). cbn [negb]. rewrite Hdl.
  unfold bind at 1, get at 1. unfold bind at 1.
  run_ups. apply storage_eq in Hstorage as [Ht1 _].
  cbn [world tmpfiles set_tmpfiles] in Ht1.
  unfold bind at 1.
  match goal with
  | |- context [_update_document_status ?e ?d ?s (Some ?msg) ?fr] =>
      destruct (update_document_status_failed e d msg fr eq_refl)
        as (f3 & Eu & _ & Hst)
  end.
  rewrite Eu. apply storage_eq in Hst as [Ht3 _].
  unfold ret. eexists. split; [ reflexivity | ].
  rewrite Ht3, Ht1, Ht. reflexivity.
Qed.

(** *** The chunks handed back *)

Lemma prepare_chunks_shape env document_id base_metadata total_chunks i pairs :
  let chunks := prepare_chunks env document_id base_metadata total_chunks i pairs in
  length chunks = length pairs /\
  Forall (fun c => c_document_id c = document_id /\ c_chunk_id c = c_id c) chunks /\
  map c_id chunks = map (uuid4 env) (seq i (length pairs)) /\
  map c_text chunks = map (fun pair => node_content (fst pair)) pairs /\
  map c_embedding chunks = map snd pairs.
Proof.
  cbv zeta. revert i. induction pairs as [|[node embedding] pairs IH]; intros i.
  - cbn. repeat split; constructor.
  - cbn [prepare_chunks length map seq].
    destruct (IH (S i)) as (Hlen & Hall & Hids & Htexts & Hembs).
    split; [ now rewrite Hlen | ]. split; [ constructor; [ split; reflexivity | exact Hall ] | ].
    cbn [c_id c_text c_embedding fst snd].
    split; [ now rewrite Hids | ]. split; [ now rewrite Htexts | now rewrite Hembs ].
Qed.

Ltac vdb_auto :=
  repeat lazymatch goal with
         | |- keeps _ (extract_documents _ _ _ _ _) =>
             apply keeps_vdb_extract_documents
         | |- _ => progress view_auto
         end.

Ltac stage x e f1 Hk :=
  unfold bind at 1;
  match goal with
  | |- context [let (r, s') := ?m ?fr in _] =>
      assert (Hk : keeps vdb m)
        by (repeat lazymatch goal with
                   | |- keeps _ (extract_documents _ _ _ _ _) =>
                       apply keeps_vdb_extract_documents
                   | |- _ => progress view_auto
                   end);
      specialize (Hk fr); destruct (m fr) as [[x|e] f1]; cbn [snd] in Hk
  end.

Lemma failed_step_run {A} env document_id step (e : string) (a : A) (f : Frame) :
  exists f',
    bind (_update_processing_status env document_id step FAILED (Some e))
      (fun _ => ret a) f = (Ok a, f') /\
    vdb (world f') = vdb (world f).
Proof.
  unfold bind.
  pose proof (keeps_vdb_ups env document_id step FAILED (Some e) f) as Hk.
  destruct (update_processing_status_run env document_id step FAILED (Some e) f)
    as (f' & E & _).
  rewrite E in Hk |- *. cbn [snd] in Hk. unfold ret. eauto.
Qed.

Lemma process_content_handler env document_id (e : string) (f : Frame) :
  exists f',
    bind get (fun f0 : Frame =>
      match current_step f0 with
      | Some step =>
          bind (_update_processing_status env document_id step FAILED (Some e))
            (fun _ => ret ([] : list Chunk))
      | None => ret []
      end) f = (Ok [], f') /\
    vdb (world f') = vdb (world f).
Proof.
  unfold bind at 1, get at 1.
  destruct (current_step f) as [step|].
  - apply failed_step_run.
  - unfold ret. eauto.
Qed.

(** Extra X17.  [_process_content] never raises.  Every chunk it returns
    belongs to the document, its chunk id is its id, and the ids are
    the successive UUIDs drawn.  The vector database sees at most one call
    of [insert_embeddings]; when chunks are returned, that call was given
    exactly these chunks and answered. *)
Theorem process_content_chunks env document_id base_metadata file_path text_content
    (f : Frame) :
  exists chunks f',
    _process_content vector_db env document_id base_metadata file_path text_content f
    = (Ok chunks, f') /\
    Forall (fun c => c_document_id c = document_id /\ c_chunk_id c = c_id c) chunks /\
    map c_id chunks = map (uuid4 env) (seq 0 (length chunks)) /\
    one_insertion (vdb (world f)) (vdb (world f')) /\
    (chunks <> [] ->
     exists ids,
       vdb_insert_embeddings (map to_embedding_data chunks) (vdb (world f))
       = (Ok ids, vdb (world f'))).
Proof.
  unfold _process_content, call.
  set (fc := {| world := world f; processing_stats := processing_stats f;
                current_step := None |}).
  match goal with
  | |- context [let (r, f') := ?m fc in _] =>
      assert (Hm :
        exists chunks f1,
          m fc = (Ok chunks, f1) /\
          Forall (fun c => c_document_id c = document_id /\ c_chunk_id c = c_id c)
            chunks /\
          map c_id chunks = map (uuid4 env) (seq 0 (length chunks)) /\
          one_insertion (vdb (world fc)) (vdb (world f1)) /\
          (chunks <> [] ->
           exists ids,
             vdb_insert_embeddings (map to_embedding_data chunks) (vdb (world fc))
             = (Ok ids, vdb (world f1))));
      [ | destruct Hm as (chunks & f1 & -> & H); exists chunks; eexists;
          split; [ reflexivity | exact H ] ]
  end.
  assert (Hempty : forall f1 : Frame,
            vdb (world f1) = vdb (world fc) ->
            exists chunks f2,
              (Ok ([] : list Chunk), f1) = (Ok chunks, f2) /\
              Forall (fun c => c_document_id c = document_id /\ c_chunk_id c = c_id c)
                chunks /\
              map c_id chunks = map (uuid4 env) (seq 0 (length chunks)) /\
              one_insertion (vdb (world fc)) (vdb (world f2)) /\
              (chunks <> [] ->
               exists ids,
                 vdb_insert_embeddings (map to_embedding_data chunks) (vdb (world fc))
                 = (Ok ids, vdb (world f2)))).
  { intros f1 Hv. exists [], f1. split; [ reflexivity | ].
    split; [ constructor | ]. split; [ reflexivity | ].
    split; [ left; exact Hv | congruence ]. }
  unfold try_except at 1.
  (* STEP 2 *)
  stage u e f1 Hk1; cbv beta iota.
  2:{ destruct (process_content_handler env document_id e f1) as (f2 & -> & Hv).
      apply Hempty. congruence. }
  stage documents e f2 Hk2; cbv beta iota.
  2:{ destruct (process_content_handler env document_id e f2) as (f3 & -> & Hv).
      apply Hempty. congruence. }
  destruct documents as [documents|]; [ | unfold ret; apply Hempty; congruence ].
  (* STEP 3 *)
  stage u3 e f3 Hk3; cbv beta iota.
  2:{ destruct (process_content_handler env document_id e f3) as (f4 & -> & Hv).
      apply Hempty. congruence. }
  stage nodes e f4 Hk4; cbv beta iota.
  2:{ destruct (process_content_handler env document_id e f4) as (f5 & -> & Hv).
      apply Hempty. congruence. }
  destruct nodes as [nodes|]; [ | unfold ret; apply Hempty; congruence ].
  (* STEP 4 *)
  stage u5 e f5 Hk5; cbv beta iota.
  2:{ destruct (process_content_handler env document_id e f5) as (f6 & -> & Hv).
      apply Hempty. congruence. }
  stage embeddings e f6 Hk6; cbv beta iota.
  2:{ destruct (process_content_handler env document_id e f6) as (f7 & -> & Hv).
      apply Hempty. congruence. }
  destruct embeddings as [embeddings|]; [ | unfold ret; apply Hempty; congruence ].
  (* STEP 5 *)
  stage u7 e f7 Hk7; cbv beta iota.
  2:{ destruct (process_content_handler env document_id e f7) as (f8 & -> & Hv).
      apply Hempty. congruence. }
  assert (Hv7 : vdb (world f7) = vdb (world fc)) by congruence.
  clear Hk1 Hk2 Hk3 Hk4 Hk5 Hk6 Hk7.
  match goal with
  | |- context [prepare_chunks ?e ?d ?b ?t ?i ?p] =>
      pose proof (prepare_chunks_shape e d b t i p) as Hshape;
      set (chunks0 := prepare_chunks e d b t i p) in *
  end.
  cbv zeta in Hshape. destruct Hshape as (Hlen & Hall & Hids & _).
  rewrite <- Hlen in Hids.
  unfold try_except at 1. unfold bind at 1. unfold on_world at 1, on_vdb at 1.
  destruct (vdb_insert_embeddings (map to_embedding_data chunks0) (vdb (world f7)))
    as [[ids|e] v'] eqn:Hins; cbv beta iota.
  - stage u8 e f8 Hk8; cbv beta iota.
    + unfold ret. exists chunks0, f8. split; [ reflexivity | ].
      split; [ exact Hall | ]. split; [ exact Hids | ].
      cbn [world vdb set_vdb] in Hk8. rewrite Hv7 in Hins.
      split; [ right; exists (map to_embedding_data chunks0), (Ok ids);
               now rewrite Hk8 | ].
      intros _. exists ids. now rewrite Hk8.
    + destruct (failed_step_run env document_id STORAGE e ([] : list Chunk) f8)
        as (f9 & -> & Hv9).
      cbn [world vdb set_vdb] in Hk8. rewrite Hv7 in Hins.
      exists [], f9. split; [ reflexivity | ].
      split; [ constructor | ]. split; [ reflexivity | ].
      split; [ right; exists (map to_embedding_data chunks0), (Ok ids);
               now rewrite Hv9, Hk8 | congruence ].
  - match goal with
    | |- context [bind _ _ ?fr] =>
        destruct (failed_step_run env document_id STORAGE e ([] : list Chunk) fr)
          as (f9 & -> & Hv9)
    end.
    cbn [world vdb set_vdb] in Hv9. rewrite Hv7 in Hins.
    exists [], f9. split; [ reflexivity | ].
    split; [ constructor | ]. split; [ reflexivity | ].
    split; [ right; exists (map to_embedding_data chunks0), (Raise e);
             now rewrite Hv9 | congruence ].
Qed.

(** *** Computations on the world *)

Lemma leaves_ret {S A X} (view : S -> X) (a : A) : leaves view (ret a : M S A).
Proof. intros s. reflexivity. Qed.

Lemma leaves_raise {S A X} (view : S -> X) (e : string) :
  leaves view (raise e : M S A).
Proof. intros s. reflexivity. Qed.

Lemma leaves_bind {S A B X} (view : S -> X) (m : M S A) (k : A -> M S B) :
  leaves view m -> (forall a, leaves view (k a)) -> leaves view (bind m k).
Proof.
  intros Hm Hk s. unfold bind. specialize (Hm s).
  destruct (m s) as [[a|e] s1]; cbn [snd] in *.
  - now rewrite (Hk a s1).
  - exact Hm.
Qed.

Lemma leaves_try_except {S A X} (view : S -> X) (m : M S A) (h : string -> M S A) :
  leaves view m -> (forall e, leaves view (h e)) -> leaves view (try_except m h).
Proof.
  intros Hm Hh s. unfold try_except. specialize (Hm s).
  destruct (m s) as [[a|e] s1]; cbn [snd] in *.
  - exact Hm.
  - now rewrite (Hh e s1).
Qed.

Lemma leaves_get_document {X} (view : World -> X) document_id :
  leaves view (get_document (V := V) document_id).
Proof. intros w. reflexivity. Qed.

Lemma leaves_update_document {X} (view : World -> X) env document_id data :
  (forall w fs, delete document_id fs = delete document_id (firestore w) ->
                view (set_firestore fs w) = view w) ->
  leaves view (update_document (V := V) env document_id data).
Proof.
  intros Hview w. unfold update_document.
  destruct (firestore w !! document_id); [ | reflexivity ].
  cbn [snd]. apply Hview. apply delete_insert_eq.
Qed.

Lemma leaves_download_file {X} (view : World -> X) env storage_path :
  (forall w t, view (set_tmpfiles t w) = view w) ->
  leaves view (download_file (V := V) env storage_path).
Proof.
  intros Hview w. unfold download_file.
  destruct (negb _); [ reflexivity | ].
  destruct (download_to_filename env storage_path); cbn; apply Hview.
Qed.

Lemma leaves_unlink {X} (view : World -> X) env path :
  (forall w t, view (set_tmpfiles t w) = view w) ->
  leaves view (unlink (V := V) env path).
Proof.
  intros Hview w. unfold unlink.
  destruct (unlink_error env); [ reflexivity | ].
  destruct (bool_decide _); cbn; [ apply Hview | reflexivity ].
Qed.

Lemma leaves_update_with_retry {X} (view : World -> X) env document_id data n :
  (forall w fs, delete document_id fs = delete document_id (firestore w) ->
                view (set_firestore fs w) = view w) ->
  leaves view (update_with_retry (V := V) env document_id data n).
Proof.
  intros Hview. induction n as [|n IH]; cbn [update_with_retry].
  - apply leaves_ret.
  - apply leaves_try_except; [ now apply leaves_update_document | ].
    intros e. destruct n; [ apply leaves_raise | exact IH ].
Qed.

Lemma elsewhere_firestore document_id (w : World) fs :
  delete document_id fs = delete document_id (firestore w) ->
  elsewhere document_id (set_firestore fs w) = elsewhere document_id w.
Proof. intros H. unfold elsewhere. cbn. now rewrite H. Qed.

Lemma vdb_firestore document_id (w : World) fs :
  delete document_id fs = delete document_id (firestore w) ->
  vdb (set_firestore fs w) = vdb w.
Proof. reflexivity. Qed.

(** *** [_process_content] without [stepTimes] *)

Lemma ups_run env document_id step status error (f : Frame) :
  exists f',
    _update_processing_status env document_id step status error f = (Ok tt, f') /\
    vdb (world f') = vdb (world f) /\
    stepTimes (processing_stats f') = stepTimes (processing_stats f).
Proof.
  pose proof (keeps_vdb_ups env document_id step status error f) as Hk.
  destruct (update_processing_status_run env document_id step status error f)
    as (f' & E & _ & _ & Ht).
  rewrite E in Hk. cbn [snd] in Hk. eauto.
Qed.

(** Called on a [processing_stats] without [stepTimes], [_process_content]
    stops at the extraction step: the vector database is never reached. *)
Lemma process_content_without_stepTimes env document_id base_metadata file_path
    text_content (f : Frame) :
  stepTimes (processing_stats f) = None ->
  exists f',
    _process_content vector_db env document_id base_metadata file_path text_content f
    = (Ok [], f') /\
    vdb (world f') = vdb (world f).
Proof.
  intros Hnone. unfold _process_content, call.
  set (fc := {| world := world f; processing_stats := processing_stats f;
                current_step := None |}).
  match goal with
  | |- context [let (r, f') := ?m fc in _] =>
      assert (Hm : exists f1, m fc = (Ok [], f1) /\ vdb (world f1) = vdb (world fc));
      [ | destruct Hm as (f1 & -> & H); eexists; split; [ reflexivity | exact H ] ]
  end.
  unfold try_except at 1. unfold bind at 1 2. unfold set_current_step at 1.
  match goal with
  | |- context [_update_processing_status ?e ?d ?s ?st ?er ?fr] =>
      destruct (ups_run e d s st er fr) as (f1 & -> & Hv1 & Ht1)
  end.
  cbn [world processing_stats fc] in Hv1, Ht1. rewrite Hnone in Ht1.
  unfold bind at 1. unfold try_except at 1.
  match goal with
  | |- context [extract_documents ?e ?d ?b ?p ?t ?fr] =>
      pose proof (extract_documents_without_stepTimes e d b p t fr Ht1) as Hex;
      pose proof (keeps_vdb_extract_documents e d b p t fr) as Hkv;
      destruct (extract_documents e d b p t fr) as [[[documents|]|err] f2]
  end; cbn [snd] in Hkv.
  - contradiction.
  - unfold ret. exists f2. split; [ reflexivity | ]. cbn [fc world]. congruence.
  - destruct (failed_step_run env document_id TEXT_EXTRACTION err
                (None : option (list LDocument)) f2) as (f3 & -> & Hv3).
    unfold ret. exists f3. split; [ reflexivity | ]. cbn [fc world]. congruence.
Qed.

Lemma leaves_process_content_default {X} (view : World -> X) env document_id file_path :
  (forall bm fp tc, keeps view (_process_content vector_db env document_id bm fp tc)) ->
  leaves view (_process_content_default vector_db env document_id file_path).
Proof.
  intros Hk w. unfold _process_content_default.
  match goal with
  | |- context [_process_content ?vd ?e ?d ?b ?p ?t ?fr] =>
      specialize (Hk b p t fr); destruct (_process_content vd e d b p t fr) as [r f1]
  end.
  exact Hk.
Qed.

Lemma leaves_vdb_process_content_default env document_id file_path :
  leaves vdb (_process_content_default vector_db env document_id file_path).
Proof.
  intros w. unfold _process_content_default.
  match goal with
  | |- context [_process_content ?vd ?e ?d ?b ?p ?t ?fr] =>
      destruct (process_content_without_stepTimes e d b p t fr eq_refl)
        as (f1 & -> & Hv)
  end.
  exact Hv.
Qed.

(** *** [process_document_immediately] *)

Ltac leaves_step :=
  lazymatch goal with
  | |- leaves _ (ret _) => apply leaves_ret
  | |- leaves _ (raise _) => apply leaves_raise
  | |- leaves _ (get_document _) => apply leaves_get_document
  | |- leaves _ (download_file _ _) => apply leaves_download_file; reflexivity
  | |- leaves _ (unlink _ _) => apply leaves_unlink; reflexivity
  | |- leaves (elsewhere _) (update_document _ _ _) =>
      apply leaves_update_document, elsewhere_firestore
  | |- leaves vdb (update_document _ _ _) =>
      apply leaves_update_document; reflexivity
  | |- leaves (elsewhere _) (update_with_retry _ _ _ _) =>
      apply leaves_update_with_retry, elsewhere_firestore
  | |- leaves vdb (update_with_retry _ _ _ _) =>
      apply leaves_update_with_retry; reflexivity
  | |- leaves (elsewhere _) (_process_content_default _ _ _ _) =>
      apply leaves_process_content_default; intros;
      apply keeps_elsewhere_process_content
  | |- leaves vdb (_process_content_default _ _ _ _) =>
      apply leaves_vdb_process_content_default
  | |- leaves _ (bind _ _) => apply leaves_bind; [ | intros ? ]
  | |- leaves _ (try_except _ _) => apply leaves_try_except; [ | intros ? ]
  | |- leaves _ (match ?x with _ => _ end) => destruct x
  | |- leaves _ (if ?x then _ else _) => destruct x
  end.

Lemma leaves_elsewhere_immediate_attempt env document_id max_retries attempt :
  leaves (elsewhere document_id)
    (immediate_attempt vector_db env document_id max_retries attempt).
Proof. unfold immediate_attempt. repeat leaves_step. Qed.

Lemma leaves_vdb_immediate_attempt env document_id max_retries attempt :
  leaves vdb (immediate_attempt vector_db env document_id max_retries attempt).
Proof. unfold immediate_attempt. repeat leaves_step. Qed.

Lemma leaves_immediate_loop {X} (view : World -> X) env document_id max_retries
    remaining attempt :
  (forall attempt,
     leaves view (immediate_attempt vector_db env document_id max_retries attempt)) ->
  leaves view (immediate_loop vector_db env document_id max_retries remaining attempt).
Proof.
  intros Ha. revert attempt.
  induction remaining as [|rest IH]; intros attempt; cbn [immediate_loop].
  - apply leaves_ret.
  - apply leaves_bind; [ apply Ha | ].
    intros [|value]; [ apply IH | apply leaves_ret ].
Qed.

(** Extra X18.  [process_document_immediately] never touches the vector
    database, the bucket or the record of another document: whatever it
    returns, it has indexed nothing. *)
Theorem immediate_processing_indexes_nothing env document_id max_retries (w : World) :
  let out := process_document_immediately vector_db env document_id max_retries w in
  vdb (snd out) = vdb w /\
  bucket (snd out) = bucket w /\
  forall other, other <> document_id ->
    firestore (snd out) !! other = firestore w !! other.
Proof.
  cbv zeta. unfold process_document_immediately.
  pose proof (leaves_immediate_loop vdb env document_id max_retries max_retries 0
                (leaves_vdb_immediate_attempt env document_id max_retries) w) as Hv.
  pose proof (leaves_immediate_loop (elsewhere document_id) env document_id max_retries
                max_retries 0
                (leaves_elsewhere_immediate_attempt env document_id max_retries) w) as He.
  destruct (immediate_loop vector_db env document_id max_retries max_retries 0 w)
    as [r w1].
  cbn [snd] in *. injection He as Hb Hf.
  split; [ exact Hv | ]. split; [ exact Hb | ].
  intros other Hne. apply (f_equal (fun m => m !! other)) in Hf.
  now rewrite !lookup_delete_ne in Hf by congruence.
Qed.

Lemma immediate_attempt_Continue env document_id max_retries attempt (w : World) :
  fst (immediate_attempt vector_db env document_id max_retries attempt w) = Ok Continue ->
  (attempt <? max_retries - 1)%nat = true.
Proof.
  destruct (attempt <? max_retries - 1)%nat eqn:Hc; [ reflexivity | ].
  unfold immediate_attempt. rewrite Hc. unfold try_except at 1.
  match goal with
  | |- fst (let (r, s') := ?body w in _) = _ -> _ =>
      destruct (body w) as [[signal|e] w1] eqn:Hbody
  end.
  - cbn [fst]. intros [= ->].
    apply bind_Ok_inv in Hbody as (document_data & w2 & Hget & Hbody).
    cbv beta in Hbody.
    destruct (negb (doc_truthy document_data)); [ discriminate | ].
    destruct (missing_fields _); [ | discriminate ].
    apply bind_Ok_inv in Hbody as (local_file_path & w3 & _ & Hbody).
    apply bind_Ok_inv in Hbody as (chunks & w4 & _ & Hbody).
    apply bind_Ok_inv in Hbody as (? & w5 & _ & Hbody).
    apply bind_Ok_inv in Hbody as ([] & w6 & _ & Hbody).
    discriminate.
  - unfold bind, try_except, update_document, raise.
    destruct (firestore w1 !! document_id); discriminate.
Qed.

Lemma immediate_loop_false env document_id max_retries remaining attempt (w : World) :
  (attempt + remaining = max_retries)%nat ->
  fst (immediate_loop vector_db env document_id max_retries remaining attempt w)
  = Ok false ->
  remaining = 0%nat.
Proof.
  revert attempt w.
  induction remaining as [|rest IH]; intros attempt w Hsum; [ reflexivity | ].
  cbn [immediate_loop]. unfold bind.
  destruct (immediate_attempt vector_db env document_id max_retries attempt w)
    as [[[|value]|e] w1] eqn:Hattempt.
  - intros Hf. apply IH in Hf; [ | lia ]. subst rest.
    pose proof (immediate_attempt_Continue env document_id max_retries attempt w) as Hc.
    rewrite Hattempt in Hc. specialize (Hc eq_refl).
    apply Nat.ltb_lt in Hc. lia.
  - apply immediate_attempt_Return in Hattempt as [-> _]. discriminate.
  - discriminate.
Qed.

Lemma unknown_attempt env document_id max_retries attempt (w : World) :
  firestore w !! document_id = None ->
  immediate_attempt vector_db env document_id max_retries attempt w
  = (if (attempt <? max_retries - 1)%nat then Ok Continue
     else Raise ("Document " +:+ document_id +:+ " not found after "
                 +:+ pretty max_retries +:+ " attempts"), w).
Proof.
  intros Hnone. unfold immediate_attempt, try_except, bind, get_document.
  rewrite Hnone. cbn [doc_truthy negb].
  destruct (attempt <? max_retries - 1)%nat; [ reflexivity | ].
  unfold raise, update_document. rewrite Hnone. reflexivity.
Qed.

Lemma unknown_loop env document_id max_retries remaining attempt (w : World) :
  firestore w !! document_id = None ->
  (attempt + remaining = max_retries)%nat ->
  (0 < remaining)%nat ->
  immediate_loop vector_db env document_id max_retries remaining attempt w
  = (Raise ("Document " +:+ document_id +:+ " not found after "
            +:+ pretty max_retries +:+ " attempts"), w).
Proof.
  intros Hnone. revert attempt.
  induction remaining as [|rest IH]; intros attempt Hsum Hpos; [ lia | ].
  cbn [immediate_loop]. unfold bind. rewrite unknown_attempt by exact Hnone.
  destruct (attempt <? max_retries - 1)%nat eqn:Hc.
  - apply Nat.ltb_lt in Hc. apply IH; lia.
  - reflexivity.
Qed.

(** Extra X19.  [process_document_immediately] returns [False] only when
    it is given no attempt to make, and then it does nothing.  For a
    document without a record and at least one attempt, it raises
    [Document <id> not found after <n> attempts] and changes nothing. *)
Theorem immediate_processing_of_unknown_document env document_id max_retries
    (w : World) :
  let out := process_document_immediately vector_db env document_id max_retries w in
  (fst out = Ok false <-> max_retries = 0%nat) /\
  (max_retries = 0%nat -> snd out = w) /\
  (firestore w !! document_id = None -> (0 < max_retries)%nat ->
   out = (Raise ("Document " +:+ document_id +:+ " not found after "
                 +:+ pretty max_retries +:+ " attempts"), w)).
Proof.
  cbv zeta. unfold process_document_immediately.
  split; [ split | split ].
  - now apply immediate_loop_false.
  - intros ->. reflexivity.
  - intros ->. reflexivity.
  - intros Hnone Hpos. now apply unknown_loop.
Qed.

(** *** The [vectorIds] field during immediate processing *)

Lemma keeps_ids_of_record {A} document_id (m : M Frame A) :
  keeps (record_state document_id) m ->
  keeps (recorded_vector_ids document_id) m.
Proof.
  intros H f. specialize (H f). unfold record_state in H. unfold recorded_vector_ids.
  destruct (firestore (world (snd (m f))) !! document_id),
           (firestore (world f) !! document_id); cbn in *; congruence.
Qed.

Lemma leaves_ids_update_document env document_id other (data : Doc) :
  data !! "vectorIds" = None ->
  leaves (recorded_vector_ids document_id) (update_document (V := V) env other data).
Proof.
  intros Hd w. unfold update_document.
  destruct (firestore w !! other) as [doc|] eqn:Hdoc; [ | reflexivity ].
  cbn [snd]. unfold recorded_vector_ids. cbn [firestore set_firestore].
  destruct (decide (other = document_id)) as [->|Hne].
  - rewrite lookup_insert_eq, Hdoc. cbn [fmap option_fmap option_map]. f_equal.
    apply lookup_union_r. rewrite lookup_insert_ne by discriminate. exact Hd.
  - now rewrite lookup_insert_ne.
Qed.

Lemma leaves_ids_update_with_retry env document_id other (data : Doc) n :
  data !! "vectorIds" = None ->
  leaves (recorded_vector_ids document_id)
    (update_with_retry (V := V) env other data n).
Proof.
  intros Hd. induction n as [|n IH]; cbn [update_with_retry].
  - apply leaves_ret.
  - apply leaves_try_except; [ now apply leaves_ids_update_document | ].
    intros e. destruct n; [ apply leaves_raise | exact IH ].
Qed.

Lemma leaves_ids_immediate_attempt env document_id max_retries attempt :
  leaves (recorded_vector_ids document_id)
    (immediate_attempt vector_db env document_id max_retries attempt).
Proof.
  unfold immediate_attempt.
  repeat lazymatch goal with
         | |- leaves _ (update_document _ _ _) =>
             apply leaves_ids_update_document; reflexivity
         | |- leaves _ (update_with_retry _ _ _ _) =>
             apply leaves_ids_update_with_retry; reflexivity
         | |- leaves _ (_process_content_default _ _ _ _) =>
             apply leaves_process_content_default; intros;
             apply keeps_ids_of_record, keeps_record_process_content
         | |- _ => leaves_step
         end.
Qed.

(** What [process_document_immediately] leaves behind when it returns. *)
Lemma immediate_processing_run env document_id max_retries (w : World) :
  exists r w',
    process_document_immediately vector_db env document_id max_retries w = (r, w') /\
    vdb w' = vdb w /\
    bucket w' = bucket w /\
    recorded_vector_ids document_id w' = recorded_vector_ids document_id w /\
    (r = Ok false -> max_retries = 0%nat) /\
    (r = Ok true ->
     exists vectorIds error,
       record_state document_id w'
       = Some (Some (VStr "completed"), Some (VInt 0), vectorIds, error)).
Proof.
  unfold process_document_immediately.
  pose proof (leaves_immediate_loop vdb env document_id max_retries max_retries 0
                (leaves_vdb_immediate_attempt env document_id max_retries) w) as Hv.
  pose proof (leaves_immediate_loop (elsewhere document_id) env document_id max_retries
                max_retries 0
                (leaves_elsewhere_immediate_attempt env document_id max_retries) w) as He.
  pose proof (leaves_immediate_loop (recorded_vector_ids document_id) env document_id
                max_retries max_retries 0
                (leaves_ids_immediate_attempt env document_id max_retries) w) as Hi.
  pose proof (immediate_loop_false env document_id max_retries max_retries 0 w
                eq_refl) as Hf.
  pose proof (immediate_loop_true vector_db env document_id max_retries max_retries 0 w)
    as Ht.
  cbv zeta in Ht.
  destruct (immediate_loop vector_db env document_id max_retries max_retries 0 w)
    as [r w1].
  cbn [fst snd] in *. injection He as Hb _.
  exists r, w1. split; [ reflexivity | ]. split; [ exact Hv | ].
  split; [ exact Hb | ]. split; [ exact Hi | ].
  split; [ exact Hf | exact Ht ].
Qed.

(** *** [delete_document] *)



End Runs.


(** Extra X16, witness: the bucket answers 503 to the download. *)
Lemma refused_download_leaves_scratch_file :
  (firestore Samples.uploaded !! "d1" = Some Samples.report /\
   Samples.report !! "storageUri" = Some (VStr "documents/u1/d1.pdf") /\
   truthy "documents/u1/d1.pdf" = true /\
   "documents/u1/d1.pdf" ∈ bucket Samples.uploaded /\
   download_to_filename Samples.download_refused "documents/u1/d1.pdf"
   = Raise "503 Service Unavailable") /\
  let out := process_document Samples.vector_db Samples.download_refused "d1"
               Samples.uploaded in
  fst out = Ok (ErrorResult ("Failed to download file: " +:+ "503 Service Unavailable")) /\
  tmpfiles (snd out)
  = {[ tempname Samples.download_refused +:+ extension (basename "documents/u1/d1.pdf") ]}
    ∪ tmpfiles Samples.uploaded.
Proof.
  split; [ repeat split; reflexivity | ].
  apply (failed_download_leaves_scratch_file Samples.vector_db Samples.download_refused
           "d1" Samples.uploaded Samples.report "documents/u1/d1.pdf"
           "503 Service Unavailable"); reflexivity.
Defined.


(** Extra X21.  When the delete call of the Qdrant client raises,
    [delete_document] still answers [True]: the record and the stored file
    are removed and the vectors of the document stay in the collection. *)
Theorem failed_vector_deletion_goes_unnoticed js qenv document_id
    (w : World (V := QdrantDB.World)) (doc : Doc) (storage_path e : string) :
  firestore w !! document_id = Some doc ->
  doc !! "storageUri" = Some (VStr storage_path) ->
  truthy storage_path = true ->
  storage_path ∈ bucket w ->
  QdrantDB.delete_points qenv document_id = Raise e ->
  let out := delete_document (Qdrant_VectorDB js qenv) document_id w in
  fst out = Ok true /\
  firestore (snd out) !! document_id = None /\
  (storage_path ∉ bucket (snd out)) /\
  vdb (snd out) = vdb w.
Proof.
  intros Hdoc Huri Htruthy Hin Hdel. cbv zeta.
  rewrite (delete_document_cascade (Qdrant_VectorDB js qenv) document_id w doc
             storage_path false (vdb w) Hdoc Huri Htruthy Hin).
  - cbn [fst snd firestore bucket vdb].
    split; [ reflexivity | ]. split; [ apply lookup_delete_eq | ].
    split; [ set_solver | reflexivity ].
  - cbn [vdb_delete_by_document_id Qdrant_VectorDB].
    unfold QdrantDB.delete_by_document_id, try_except, bind, lift.
    rewrite Hdel. reflexivity.
Qed.

(** Extra X21, witness: an indexed document, a server that answers 503 to
    the deletion. *)
Lemma rejected_vector_deletion_goes_unnoticed :
  (firestore Samples.indexed !! "d1" = Some Samples.report /\
   Samples.report !! "storageUri" = Some (VStr "documents/u1/d1.pdf") /\
   truthy "documents/u1/d1.pdf" = true /\
   "documents/u1/d1.pdf" ∈ bucket Samples.indexed /\
   QdrantDB.delete_points Samples.qdrant_delete_rejected "d1"
   = Raise "503 Service Unavailable") /\
  let out := delete_document
               (Qdrant_VectorDB Samples.json_stub Samples.qdrant_delete_rejected)
               "d1" Samples.indexed in
  fst out = Ok true /\
  firestore (snd out) !! "d1" = None /\
  ("documents/u1/d1.pdf" ∉ bucket (snd out)) /\
  vdb (snd out) = vdb Samples.indexed.
Proof.
  split; [ repeat split; reflexivity | ].
  apply (failed_vector_deletion_goes_unnoticed Samples.json_stub
           Samples.qdrant_delete_rejected "d1" Samples.indexed Samples.report
           "documents/u1/d1.pdf" "503 Service Unavailable"); reflexivity.
Defined.

End DocumentProcessorMore.

(** ** The callers *)

Module PdfUtilsMore.
Import Py PdfUtils.

Lemma read_pages_all (texts : list string) (text : string) :
  read_pages text (map Ok texts)
  = Ok (fold_left (fun acc page_text => acc +:+ page_text +:+ newline) texts text).
Proof.
  revert text. induction texts as [|t texts IH]; intros text; [ reflexivity | ].
  cbn [map read_pages fold_left]. apply IH.
Qed.

Lemma read_pages_Ok (pages : list (result string)) (text out : string) :
  read_pages text pages = Ok out ->
  exists texts, pages = map Ok texts.
Proof.
  revert text. induction pages as [|[t|e] pages IH]; intros text H.
  - exists []. reflexivity.
  - cbn [read_pages] in H. apply IH in H as [texts ->]. exists (t :: texts). reflexivity.
  - discriminate.
Qed.

(** Extra X22.  [extract_text_from_pdf] never returns blank text.  It
    returns the text PyPDF2 reads, every page followed by a newline,
    whenever all pages are read and that text is not blank; otherwise the
    text of pdfminer when there is one and it is not blank; otherwise
    [None]. *)
Theorem extracted_pdf_text_is_never_blank env file_path :
  let pypdf2 :=
    rbind (pages env file_path) (read_pages "") in
  match extract_text_from_pdf env file_path with
  | Some text =>
      strip text <> "" /\
      ((exists texts,
          pages env file_path = Ok (map Ok texts) /\
          text = fold_left (fun acc page_text => acc +:+ page_text +:+ newline) texts "")
       \/
       ((forall first, pypdf2 = Ok first -> strip first = "") /\
        pdfminer_extract_text env file_path = Ok text))
  | None =>
      (forall first, pypdf2 = Ok first -> strip first = "") /\
      (forall second, pdfminer_extract_text env file_path = Ok second ->
                      strip second = "")
  end.
Proof.
  cbv zeta. unfold extract_text_from_pdf, pypdf2_text.
  assert (Hblank : forall s, truthy (strip s) = false -> strip s = "").
  { intros s H. unfold truthy in H. apply negb_false_iff in H.
    now apply String.eqb_eq in H. }
  assert (Hfull : forall s, truthy (strip s) = true -> strip s <> "").
  { intros s H. unfold truthy in H. apply negb_true_iff in H.
    now apply String.eqb_neq in H. }
  destruct (rbind (pages env file_path) (read_pages "")) as [first|e] eqn:Hfirst.
  - destruct (truthy (strip first)) eqn:Ht.
    + split; [ now apply Hfull | ]. left.
      unfold rbind in Hfirst.
      destruct (pages env file_path) as [ps|]; [ | discriminate ].
      destruct (read_pages_Ok ps "" first Hfirst) as [texts ->].
      exists texts. split; [ reflexivity | ].
      rewrite read_pages_all in Hfirst. now injection Hfirst.
    + destruct (pdfminer_extract_text env file_path) as [second|e2].
      * destruct (truthy (strip second)) eqn:Ht2.
        -- split; [ now apply Hfull | ]. right.
           split; [ | reflexivity ]. intros f [= <-]. now apply Hblank.
        -- split; [ intros f [= <-]; now apply Hblank
                  | intros s2 [= <-]; now apply Hblank ].
      * split; [ intros f [= <-]; now apply Hblank | discriminate ].
  - destruct (pdfminer_extract_text env file_path) as [second|e2].
    + destruct (truthy (strip second)) eqn:Ht2.
      * split; [ now apply Hfull | ]. right. split; [ discriminate | reflexivity ].
      * split; [ discriminate | intros s2 [= <-]; now apply Hblank ].
    + split; discriminate.
Qed.

End PdfUtilsMore.

Module CallersMore.
Import Py VectorStore DocumentProcessor Spec DocumentProcessorFacts.
Import QueryEngineMore DocumentProcessorMore.

(** *** The two readings of [VECTOR_DB_TYPE] *)

(** Extra X23.  When [VECTOR_DB_TYPE] is [qdrant] up to the case of its
    letters but not letter for letter, [get_vector_db] selects the Qdrant
    client, with a new and empty collection, while the query engine does
    not take the setting for Qdrant: building the store for a search
    raises. *)
Theorem mixed_case_backend_setting (settings : Config)
    (values : string -> option string) (env : MilvusDB.Env) (previous : Client)
    (document_ids : list string) :
  values "VECTOR_DB_TYPE" = Some (VECTOR_DB_TYPE settings) ->
  lower (VECTOR_DB_TYPE settings) = "qdrant" ->
  VECTOR_DB_TYPE settings <> "qdrant" ->
  (exists client,
     get_vector_db settings env previous = (Ok tt, Qdrant client) /\
     QdrantDB.server client !! QDRANT_COLLECTION_NAME settings
     = Some {| QdrantDB.size := EMBEDDING_DIMENSION settings;
               QdrantDB.distance := QdrantDB.COSINE;
               QdrantDB.points := [] |}) /\
  QueryEngine._create_vector_store_for_documents values document_ids
  = Raise "'Settings' object has no attribute 'MILVUS_URI'".
Proof.
  intros Hsame Hlower Hexact. split.
  - unfold get_vector_db. rewrite Hlower. cbn [String.eqb Ascii.eqb Bool.eqb].
    eexists. split; [ reflexivity | ].
    unfold QdrantDB.__init__. cbn [QdrantDB.server]. apply lookup_insert_eq.
  - apply create_vector_store_not_qdrant. rewrite Hsame. congruence.
Qed.

(** Extra X23, witness: the backend spelled [Qdrant]. *)
Lemma capitalised_backend_setting :
  (Samples.mixed_case_settings "VECTOR_DB_TYPE"
   = Some (VECTOR_DB_TYPE Samples.mixed_case_config) /\
   lower (VECTOR_DB_TYPE Samples.mixed_case_config) = "qdrant" /\
   VECTOR_DB_TYPE Samples.mixed_case_config <> "qdrant") /\
  (exists client,
     get_vector_db Samples.mixed_case_config Samples.milvus_half
       (Qdrant Samples.qdrant_world) = (Ok tt, Qdrant client) /\
     QdrantDB.server client !! QDRANT_COLLECTION_NAME Samples.mixed_case_config
     = Some {| QdrantDB.size := EMBEDDING_DIMENSION Samples.mixed_case_config;
               QdrantDB.distance := QdrantDB.COSINE;
               QdrantDB.points := [] |}) /\
  QueryEngine._create_vector_store_for_documents Samples.mixed_case_settings ["d1"]
  = Raise "'Settings' object has no attribute 'MILVUS_URI'".
Proof.
  split; [ split; [ reflexivity | split; [ reflexivity | discriminate ] ] | ].
  apply (mixed_case_backend_setting Samples.mixed_case_config
           Samples.mixed_case_settings Samples.milvus_half
           (Qdrant Samples.qdrant_world) ["d1"]);
    [ reflexivity | reflexivity | discriminate ].
Defined.

(** *** The processing task *)




Lemma qdrant_init_forgets name dimension (srv1 srv2 : gmap string QdrantDB.Collection) :
  delete name srv1 = delete name srv2 ->
  QdrantDB.__init__ name dimension srv1 = QdrantDB.__init__ name dimension srv2.
Proof.
  intros H.
  assert (Hinit : forall srv,
            QdrantDB.__init__ name dimension srv
            = {| QdrantDB.collection_name := name; QdrantDB.dimension := dimension;
                 QdrantDB.server :=
                   <[name := {| QdrantDB.size := dimension;
                                QdrantDB.distance := QdrantDB.COSINE;
                                QdrantDB.points := [] |}]> (delete name srv) |}).
  { intros srv. unfold QdrantDB.__init__. f_equal.
    case_bool_decide as Hin; [ reflexivity | ].
    rewrite delete_id; [ reflexivity | ]. now apply not_elem_of_dom. }
  now rewrite !Hinit, H.
Qed.

(** Extra X26.  With Qdrant selected, every run of the processing task
    starts from an empty collection: what the task returns and the state it
    leaves do not depend on the points the collection held before. *)
Theorem task_starts_from_an_empty_qdrant_collection settings menv qenv env document_id
    (w1 w2 : World (V := Client)) :
  lower (VECTOR_DB_TYPE settings) = "qdrant" ->
  firestore w1 = firestore w2 ->
  bucket w1 = bucket w2 ->
  tmpfiles w1 = tmpfiles w2 ->
  delete (QDRANT_COLLECTION_NAME settings) (qdrant_server (vdb w1))
  = delete (QDRANT_COLLECTION_NAME settings) (qdrant_server (vdb w2)) ->
  DocumentTasks.process_document settings menv qenv env document_id w1
  = DocumentTasks.process_document settings menv qenv env document_id w2.
Proof.
  intros Hq Hf Hb Ht Hs.
  unfold DocumentTasks.process_document.
  unfold bind at 1 3. unfold DocumentProcessor.__init__, on_vdb, get_vector_db.
  rewrite Hq. cbn [String.eqb Ascii.eqb Bool.eqb].
  rewrite (qdrant_init_forgets _ _ _ _ Hs).
  destruct w1, w2. cbn in Hf, Hb, Ht. subst. reflexivity.
Qed.

(** Extra X26, witness: the same records and files, once with the vectors
    of a document in the collection and once with an empty server. *)
Lemma stored_vectors_do_not_reach_the_task :
  (lower (VECTOR_DB_TYPE Samples.qdrant_config) = "qdrant" /\
   firestore Samples.client_indexed = firestore Samples.client_fresh /\
   bucket Samples.client_indexed = bucket Samples.client_fresh /\
   tmpfiles Samples.client_indexed = tmpfiles Samples.client_fresh /\
   delete (QDRANT_COLLECTION_NAME Samples.qdrant_config)
     (qdrant_server (vdb Samples.client_indexed))
   = delete (QDRANT_COLLECTION_NAME Samples.qdrant_config)
       (qdrant_server (vdb Samples.client_fresh))) /\
  DocumentTasks.process_document Samples.qdrant_config Samples.milvus_half
    Samples.qdrant_half Samples.pipeline_env "d1" Samples.client_indexed
  = DocumentTasks.process_document Samples.qdrant_config Samples.milvus_half
      Samples.qdrant_half Samples.pipeline_env "d1" Samples.client_fresh.
Proof.
  split; [ repeat split; reflexivity | ].
  apply (task_starts_from_an_empty_qdrant_collection Samples.qdrant_config
           Samples.milvus_half Samples.qdrant_half Samples.pipeline_env "d1"
           Samples.client_indexed Samples.client_fresh); reflexivity.
Defined.

(** *** The upload endpoint *)

Lemma remove_temp_run {V} env path (w : World (V := V)) :
  exists w',
    Firebase.remove_temp env path w = (Ok tt, w') /\
    firestore w' = firestore w /\ bucket w' = bucket w /\ vdb w' = vdb w.
Proof.
  unfold Firebase.remove_temp, try_except, bind, path_exists, unlink, ret.
  destruct (bool_decide (path ∈ tmpfiles w)) eqn:Hin.
  - destruct (unlink_error env); [ eauto | ].
    rewrite Hin. eexists. split; [ reflexivity | ]. repeat split; reflexivity.
  - eauto.
Qed.

(** [upload_file] writes to the bucket and the scratch directory only, and
    fails with status 500 only. *)
Lemma upload_file_run {V} aenv env file document_id user_id (w : World (V := V)) :
  exists r w',
    Firebase.upload_file aenv env file document_id user_id w = (r, w') /\
    firestore w' = firestore w /\ vdb w' = vdb w /\
    match r with
    | Http.Returns file_size =>
        Firebase.read file = Ok file_size /\
        bucket w' = {[ Firebase.storage_path_of user_id document_id file ]} ∪ bucket w
    | Http.Raises (Http.HTTPException status_code detail) => status_code = 500%N
    | Http.Raises (Http.Error _) => False
    end.
Proof.
  unfold Firebase.upload_file.
  destruct (truthy (Firebase.filename file)); cbn [negb].
  2:{ unfold Http.hraise. eexists _, _. split; [ reflexivity | ].
      repeat split; reflexivity. }
  destruct (Firebase.read file) as [file_size|e].
  2:{ unfold Http.hraise. eexists _, _. split; [ reflexivity | ].
      repeat split; reflexivity. }
  unfold Http.htry, Http.call.
  unfold bind at 1. unfold modify at 1.
  unfold bind at 1. unfold try_finally at 1.
  unfold bind at 1. unfold lift at 1.
  destruct (Firebase.upload_from_filename aenv _) as [[]|e].
  - unfold bind at 1. unfold modify at 1. unfold lift at 1.
    match goal with
    | |- context [Firebase.remove_temp env ?p ?w0] =>
        destruct (remove_temp_run env p w0) as (w1 & -> & Hf & Hb & Hv)
    end.
    destruct (Firebase.make_public aenv _) as [[]|e].
    + unfold ret. eexists _, _. split; [ reflexivity | ].
      split; [ exact Hf | ]. split; [ exact Hv | ].
      split; [ reflexivity | exact Hb ].
    + unfold Http.hbind, Http.call.
      destruct (remove_temp_run env (Firebase.upload_tempname aenv) w1)
        as (w2 & -> & Hf2 & _ & Hv2).
      unfold Http.hraise. eexists _, _. split; [ reflexivity | ].
      split; [ rewrite Hf2, Hf; reflexivity | ].
      split; [ rewrite Hv2, Hv; reflexivity | reflexivity ].
  - match goal with
    | |- context [Firebase.remove_temp env ?p ?w0] =>
        destruct (remove_temp_run env p w0) as (w1 & -> & Hf & Hb & Hv)
    end.
    unfold Http.hbind, Http.call.
    destruct (remove_temp_run env (Firebase.upload_tempname aenv) w1)
      as (w2 & -> & Hf2 & _ & Hv2).
    unfold Http.hraise. eexists _, _. split; [ reflexivity | ].
    split; [ rewrite Hf2, Hf; reflexivity | ].
    split; [ rewrite Hv2, Hv; reflexivity | reflexivity ].
Qed.

Lemma upload_unsupported aenv settings menv qenv env file name description user_id
    (w : World (V := Client)) :
  existsb (DocumentsApi.endswith (lower (Firebase.filename file)))
    DocumentsApi.allowed_types = false ->
  DocumentsApi.upload_document aenv settings menv qenv env file name description
    user_id w
  = (Http.Raises
       (Http.HTTPException 500
          ("Error uploading document: "
           +:+ Firebase.str_http aenv 400
                 "File type not supported. Allowed types: .pdf, .txt, .docx")), w).
Proof.
  intros H. unfold DocumentsApi.upload_document, Http.htry. rewrite H. reflexivity.
Qed.

Lemma upload_rejected aenv settings menv qenv env file name description user_id
    (w w1 : World (V := Client)) e :
  existsb (DocumentsApi.endswith (lower (Firebase.filename file)))
    DocumentsApi.allowed_types = true ->
  Firebase.upload_file aenv env file (Firebase.new_document_id aenv) user_id w
  = (Http.Raises e, w1) ->
  DocumentsApi.upload_document aenv settings menv qenv env file name description
    user_id w
  = (Http.Raises
       (Http.HTTPException 500 ("Error uploading document: " +:+ Firebase.str aenv e)),
     w1).
Proof.
  intros H Hup. unfold DocumentsApi.upload_document, Http.htry. rewrite H.
  cbn [negb]. unfold Http.hbind at 1. rewrite Hup. reflexivity.
Qed.

Lemma upload_stored aenv settings menv qenv env file name description user_id
    (w w1 : World (V := Client)) file_size :
  existsb (DocumentsApi.endswith (lower (Firebase.filename file)))
    DocumentsApi.allowed_types = true ->
  Firebase.upload_file aenv env file (Firebase.new_document_id aenv) user_id w
  = (Http.Returns file_size, w1) ->
  DocumentsApi.upload_document aenv settings menv qenv env file name description
    user_id w
  = (Http.Returns
       {| DocumentsApi.documentId := Firebase.new_document_id aenv;
          DocumentsApi.status := "pending";
          DocumentsApi.message := "Document upload successful. Processing initiated.";
          DocumentsApi.name := name;
          DocumentsApi.id := Firebase.new_document_id aenv |},
     snd (DocumentTasks.process_document settings menv qenv env
            (Firebase.new_document_id aenv)
            (snd (Firebase.create_document aenv env
                    (DocumentsApi.document_data aenv env file name description user_id
                       file_size) w1)))).
Proof.
  intros H Hup. unfold DocumentsApi.upload_document, Http.htry. rewrite H.
  cbn [negb]. unfold Http.hbind at 1. rewrite Hup.
  unfold Http.hbind at 1. unfold Http.call at 1.
  destruct (Firebase.create_document aenv env _ w1) as [[created|e] w2] eqn:Hc.
  - unfold Http.hbind at 1. unfold Http.hbind at 1. unfold Http.call at 1.
    cbn [snd].
    destruct (DocumentTasks.process_document settings menv qenv env _ w2)
      as [[r|e] w3]; reflexivity.
  - exfalso. revert Hc. unfold Firebase.create_document.
    destruct (opt_truthy _); discriminate.
Qed.

(** Extra X27.  The upload endpoint fails with status 500 only: the 400
    of an unsupported file type reaches the client as the detail of a 500,
    and nothing has changed by then.  No failure leaves a record behind or
    touches the vector database.  When the endpoint returns, the file type
    was supported and the response carries the new document id and the
    status [pending]. *)
Theorem upload_failures_are_answered_500 aenv settings menv qenv env file name
    description user_id (w : World (V := Client)) :
  let out := DocumentsApi.upload_document aenv settings menv qenv env file name
               description user_id w in
  let supported :=
    existsb (DocumentsApi.endswith (lower (Firebase.filename file)))
      DocumentsApi.allowed_types in
  match fst out with
  | Http.Returns response =>
      supported = true /\
      DocumentsApi.status response = "pending" /\
      DocumentsApi.documentId response = Firebase.new_document_id aenv /\
      DocumentsApi.id response = Firebase.new_document_id aenv
  | Http.Raises (Http.HTTPException status_code detail) =>
      status_code = 500%N /\
      (exists reason, detail = "Error uploading document: " +:+ reason) /\
      firestore (snd out) = firestore w /\
      vdb (snd out) = vdb w /\
      (supported = false ->
       snd out = w /\
       detail = "Error uploading document: "
                +:+ Firebase.str_http aenv 400
                      "File type not supported. Allowed types: .pdf, .txt, .docx")
  | Http.Raises (Http.Error _) => False
  end.
Proof.
  cbv zeta.
  destruct (existsb _ DocumentsApi.allowed_types) eqn:Hs.
  - destruct (upload_file_run aenv env file (Firebase.new_document_id aenv) user_id w)
      as (r & w1 & Hup & Hf & Hv & Hr).
    destruct r as [file_size|e].
    + rewrite (upload_stored aenv settings menv qenv env file name description user_id
                 w w1 file_size Hs Hup).
      cbn [fst]. repeat split; reflexivity.
    + rewrite (upload_rejected aenv settings menv qenv env file name description
                 user_id w w1 e Hs Hup).
      cbn [fst snd]. split; [ reflexivity | ]. split; [ eauto | ].
      split; [ exact Hf | ]. split; [ exact Hv | discriminate ].
  - rewrite (upload_unsupported aenv settings menv qenv env file name description
               user_id w Hs).
    cbn [fst snd]. split; [ reflexivity | ]. split; [ eauto | ].
    split; [ reflexivity | ]. split; [ reflexivity | ].
    intros _. split; reflexivity.
Qed.




(** *** The reindex endpoint *)

Section Reindex.
Context {V : Type} (vector_db : VectorDB V).

(** Extra X24.  The reindex endpoint never touches the vector database or
    the bucket.  It answers 404 for a document without a record and 403 for
    a document of another owner, changing nothing; every other failure is
    answered 400.  When it returns the record, the record is [completed]
    with a chunk count of 0 and no vector ids. *)
Theorem reindex_endpoint_indexes_nothing env document_id user_id
    (w : World (V := V)) :
  let out := DocumentsApi.reindex_document vector_db env document_id user_id w in
  vdb (snd out) = vdb w /\
  bucket (snd out) = bucket w /\
  match fst out with
  | Http.Returns updated =>
      exists stored,
        updated = Some stored /\
        firestore (snd out) !! document_id = Some stored /\
        stored !! "processingStatus" = Some (VStr "completed") /\
        stored !! "chunkCount" = Some (VInt 0) /\
        stored !! "vectorIds" = Some VNone
  | Http.Raises (Http.HTTPException status_code detail) =>
      (status_code = 404%N /\ detail = "Document not found" /\
       doc_truthy (firestore w !! document_id) = false /\ snd out = w) \/
      (status_code = 403%N /\ detail = "Not authorized to reindex this document" /\
       DocumentsApi.owned_by (default ∅ (firestore w !! document_id)) user_id = false /\
       snd out = w) \/
      (status_code = 400%N /\
       exists e, detail = "Failed to reindex document: " +:+ e)
  | Http.Raises (Http.Error _) => False
  end.
Proof.
  cbv zeta.
  assert (Hrun :
    exists r w',
      DocumentsApi.reindex_document vector_db env document_id user_id w = (r, w') /\
      vdb w' = vdb w /\
      bucket w' = bucket w /\
      match r with
      | Http.Returns updated =>
          exists stored,
            updated = Some stored /\
            firestore w' !! document_id = Some stored /\
            stored !! "processingStatus" = Some (VStr "completed") /\
            stored !! "chunkCount" = Some (VInt 0) /\
            stored !! "vectorIds" = Some VNone
      | Http.Raises (Http.HTTPException status_code detail) =>
          (status_code = 404%N /\ detail = "Document not found" /\
           doc_truthy (firestore w !! document_id) = false /\ w' = w) \/
          (status_code = 403%N /\ detail = "Not authorized to reindex this document" /\
           DocumentsApi.owned_by (default ∅ (firestore w !! document_id)) user_id
           = false /\
           w' = w) \/
          (status_code = 400%N /\
           exists e, detail = "Failed to reindex document: " +:+ e)
      | Http.Raises (Http.Error _) => False
      end);
    [ | destruct Hrun as (r & w' & -> & H); exact H ].
  unfold DocumentsApi.reindex_document, Http.htry_other, Http.htry.
  unfold Http.hbind at 1. unfold Http.call at 1, get_document at 1.
  destruct (doc_truthy (firestore w !! document_id)) eqn:Htruthy; cbn [negb].
  2:{ eexists _, _. split; [ reflexivity | ].
      split; [ reflexivity | ]. split; [ reflexivity | ].
      left. repeat split; reflexivity. }
  destruct (DocumentsApi.owned_by (default ∅ (firestore w !! document_id)) user_id)
    eqn:Howner; cbn [negb].
  2:{ eexists _, _. split; [ reflexivity | ].
      split; [ reflexivity | ]. split; [ reflexivity | ].
      right. left. repeat split; reflexivity. }
  destruct (firestore w !! document_id) as [doc|] eqn:Hdoc; [ | discriminate ].
  unfold Http.hbind at 1. unfold Http.call at 1, update_document at 1.
  rewrite Hdoc.
  set (doc1 := <["updatedAt" := VStr (now env)]>
                 {["processingStatus" := VStr "processing"; "chunkCount" := VNone;
                   "vectorIds" := VNone]} ∪ doc).
  set (w1 := set_firestore (<[document_id := doc1]> (firestore w)) w).
  unfold Http.hbind at 1. unfold Http.call at 1.
  destruct (immediate_processing_run vector_db env document_id 3 w1)
    as (r & w2 & -> & Hv & Hb & Hids & Hfalse & Htrue).
  assert (Hids1 : recorded_vector_ids document_id w1 = Some (Some VNone)).
  { unfold recorded_vector_ids. cbn [w1 firestore set_firestore].
    rewrite lookup_insert_eq. cbn [fmap option_fmap option_map]. f_equal.
    subst doc1. apply lookup_union_Some_l. reflexivity. }
  destruct r as [[|]|e].
  - (* True *)
    destruct (Htrue eq_refl) as (vectorIds & error & Hrec).
    unfold Http.hbind, Http.call, get_document, Http.hret.
    eexists _, _. split; [ reflexivity | ].
    split; [ exact Hv | ]. split; [ exact Hb | ].
    unfold record_state in Hrec. rewrite Hids1 in Hids.
    unfold recorded_vector_ids in Hids.
    destruct (firestore w2 !! document_id) as [stored|]; [ | discriminate ].
    cbn [fmap option_fmap option_map] in Hrec, Hids.
    exists stored. split; [ reflexivity | ]. split; [ reflexivity | ].
    injection Hrec as H1 H2 _ _. injection Hids as H3.
    auto.
  - specialize (Hfalse eq_refl). discriminate.
  - eexists _, _. split; [ reflexivity | ].
    split; [ exact Hv | ]. split; [ exact Hb | ].
    right. right. split; [ reflexivity | ]. eauto.
Qed.

End Reindex.

(** *** The delete endpoint *)

Section Delete.
Context {V : Type} (vector_db : VectorDB V).
Abbreviation Store := (DocumentsApi.Store (V := V)).

Lemma processor_delete_run document_id (w : World (V := V)) :
  doc_truthy (firestore w !! document_id) = true ->
  exists r w',
    delete_document vector_db document_id w = (r, w') /\
    match r with
    | Ok _ =>
        firestore w' !! document_id = None /\
        forall p,
          get_str (default ∅ (firestore w !! document_id)) "storageUri" = Some p ->
          truthy p = true -> p ∉ bucket w'
    | Raise _ => firestore w' = firestore w
    end.
Proof.
  intros Ht. unfold delete_document, bind, get_document, on_vdb, ret.
  rewrite Ht. cbn [negb].
  destruct (vdb_delete_by_document_id document_id (vdb w)) as [[answer|e] v].
  2:{ eexists _, _. split; reflexivity. }
  destruct (get_str (default ∅ (firestore w !! document_id)) "storageUri")
    as [storage_path|] eqn:Hp; cbn [opt_truthy default].
  - destruct (truthy storage_path) eqn:Htr.
    + unfold delete_file. cbn [bucket set_vdb].
      case_bool_decide as Hin.
      * unfold firestore_delete_document, modify.
        eexists _, _. split; [ reflexivity | ].
        cbn [firestore set_firestore set_bucket bucket].
        split; [ apply lookup_delete_eq | ].
        intros p [= <-] _. set_solver.
      * eexists _, _. split; reflexivity.
    + unfold firestore_delete_document, modify.
      eexists _, _. split; [ reflexivity | ].
      cbn [firestore set_firestore set_vdb bucket].
      split; [ apply lookup_delete_eq | ].
      intros p [= <-] Hp2. congruence.
  - unfold firestore_delete_document, modify.
    eexists _, _. split; [ reflexivity | ].
    cbn [firestore set_firestore set_vdb bucket].
    split; [ apply lookup_delete_eq | ]. intros p [=].
Qed.

Lemma detach_docs document_id listed (s : Store) :
  DocumentsApi.docs (snd (DocumentsApi.detach document_id listed s))
  = DocumentsApi.docs s.
Proof.
  revert s. induction listed as [|chatbot rest IH]; intros s; [ reflexivity | ].
  cbn [DocumentsApi.detach]. unfold bind at 1.
  destruct (existsb _ _).
  - destruct (DocumentsApi.cb_id chatbot) as [chatbot_id|]; [ | reflexivity ].
    unfold bind at 1. unfold DocumentsApi.update_chatbot.
    destruct (existsb _ (DocumentsApi.chatbots s)); [ | reflexivity ].
    unfold ret. rewrite IH. reflexivity.
  - unfold ret. apply IH.
Qed.

(** The steps of the endpoint that follow the detaching of the chatbots. *)
Lemma delete_steps_run document_id (document : Doc) (s : Store) :
  firestore (DocumentsApi.docs s) !! document_id = Some document ->
  doc_truthy (Some document) = true ->
  exists r s',
    ((if DocumentsApi.value_truthy (document !! "vectorIds")
      then
        DocumentsApi.on_docs (delete_document vector_db document_id) ;;; ret tt
      else ret tt) ;;;
     (if opt_truthy (get_str document "storageUri")
      then try_except
             (DocumentsApi.on_docs
                (delete_file (default "" (get_str document "storageUri"))) ;;; ret tt)
             (fun _ => ret tt)
      else ret tt) ;;;
     DocumentsApi.on_docs (firestore_delete_document document_id))%py s = (r, s') /\
    DocumentsApi.chatbots s' = DocumentsApi.chatbots s /\
    match r with
    | Ok _ =>
        firestore (DocumentsApi.docs s') !! document_id = None /\
        forall p, get_str document "storageUri" = Some p -> truthy p = true ->
                  p ∉ bucket (DocumentsApi.docs s')
    | Raise _ => firestore (DocumentsApi.docs s') = firestore (DocumentsApi.docs s)
    end.
Proof.
  intros Hdoc Ht.
  assert (Hfile : forall s1 : Store,
    exists r s',
      ((if opt_truthy (get_str document "storageUri")
        then try_except
               (DocumentsApi.on_docs
                  (delete_file (default "" (get_str document "storageUri"))) ;;;
                ret tt)
               (fun _ => ret tt)
        else ret tt) ;;;
       DocumentsApi.on_docs (firestore_delete_document document_id))%py s1 = (Ok r, s') /\
      DocumentsApi.chatbots s' = DocumentsApi.chatbots s1 /\
      firestore (DocumentsApi.docs s') !! document_id = None /\
      forall p, get_str document "storageUri" = Some p -> truthy p = true ->
                p ∉ bucket (DocumentsApi.docs s')).
  { intros s1. unfold bind at 1.
    destruct (get_str document "storageUri") as [p|]; cbn [opt_truthy default].
    - destruct (truthy p) eqn:Hp.
      + unfold try_except, bind, DocumentsApi.on_docs, delete_file, ret,
          firestore_delete_document, modify.
        case_bool_decide as Hin.
        * eexists _, _. split; [ reflexivity | ].
          cbn [DocumentsApi.chatbots DocumentsApi.docs firestore set_firestore
                 set_bucket bucket].
          split; [ reflexivity | ]. split; [ apply lookup_delete_eq | ].
          intros p' [= <-] _. set_solver.
        * eexists _, _. split; [ reflexivity | ].
          cbn [DocumentsApi.chatbots DocumentsApi.docs firestore set_firestore bucket].
          split; [ reflexivity | ]. split; [ apply lookup_delete_eq | ].
          intros p' [= <-] _. exact Hin.
      + unfold ret, DocumentsApi.on_docs, firestore_delete_document, modify.
        eexists _, _. split; [ reflexivity | ].
        cbn [DocumentsApi.chatbots DocumentsApi.docs firestore set_firestore bucket].
        split; [ reflexivity | ]. split; [ apply lookup_delete_eq | ].
        intros p' [= <-] Hp'. congruence.
    - unfold ret, DocumentsApi.on_docs, firestore_delete_document, modify.
      eexists _, _. split; [ reflexivity | ].
      cbn [DocumentsApi.chatbots DocumentsApi.docs firestore set_firestore bucket].
      split; [ reflexivity | ]. split; [ apply lookup_delete_eq | ].
      intros p' [=]. }
  unfold bind at 1.
  destruct (DocumentsApi.value_truthy (document !! "vectorIds")).
  - unfold bind at 1. unfold DocumentsApi.on_docs at 1.
    destruct (processor_delete_run document_id (DocumentsApi.docs s))
      as (r & w' & -> & Hr); [ now rewrite Hdoc | ].
    rewrite Hdoc in Hr. cbn [default] in Hr.
    destruct r as [answer|e].
    + unfold ret at 1.
      destruct (Hfile {| DocumentsApi.docs := w';
                         DocumentsApi.chatbots := DocumentsApi.chatbots s |})
        as (r2 & s2 & -> & Hc & Hgone & Hp).
      exists (Ok r2), s2. split; [ reflexivity | ].
      split; [ exact Hc | ]. split; [ exact Hgone | exact Hp ].
    + eexists _, _. split; [ reflexivity | ]. split; [ reflexivity | exact Hr ].
  - unfold ret at 1.
    destruct (Hfile s) as (r2 & s2 & -> & Hc & Hgone & Hp).
    exists (Ok r2), s2. split; [ reflexivity | ].
    split; [ exact Hc | ]. split; [ exact Hgone | exact Hp ].
Qed.

(** The endpoint on a document of the user, by what the detaching does. *)
Lemma delete_endpoint_run document_id user_id (document : Doc) (s : Store) :
  firestore (DocumentsApi.docs s) !! document_id = Some document ->
  doc_truthy (Some document) = true ->
  DocumentsApi.owned_by document user_id = true ->
  exists r s',
    DocumentsApi.delete_document vector_db document_id user_id s = (r, s') /\
    match r with
    | Http.Returns _ =>
        exists s1,
          DocumentsApi.detach document_id
            (DocumentsApi.chatbots_of user_id (DocumentsApi.chatbots s)) s
          = (Ok tt, s1) /\
          DocumentsApi.chatbots s' = DocumentsApi.chatbots s1 /\
          firestore (DocumentsApi.docs s') !! document_id = None /\
          forall p, get_str document "storageUri" = Some p -> truthy p = true ->
                    p ∉ bucket (DocumentsApi.docs s')
    | Http.Raises (Http.HTTPException status_code detail) =>
        status_code = 500%N /\
        (exists e, detail = "Failed to delete document: " +:+ e) /\
        firestore (DocumentsApi.docs s') = firestore (DocumentsApi.docs s)
    | Http.Raises (Http.Error _) => False
    end.
Proof.
  intros Hdoc Ht Ho. destruct s as [w entries].
  cbn [DocumentsApi.docs DocumentsApi.chatbots] in *.
  unfold DocumentsApi.delete_document, Http.htry_other, Http.htry.
  unfold Http.hbind at 1. unfold Http.call at 1.
  unfold DocumentsApi.on_docs at 1, get_document at 1.
  cbn [DocumentsApi.docs DocumentsApi.chatbots].
  rewrite Hdoc, Ht. cbn [negb default]. cbv zeta.
  change (Datatypes.id document) with document.
  rewrite Ho. cbn [negb].
  unfold DocumentsApi.call_or.
  set (s := {| DocumentsApi.docs := w; DocumentsApi.chatbots := entries |}).
  unfold bind at 1. unfold DocumentsApi.list_chatbots at 1.
  unfold bind at 1.
  pose proof (detach_docs document_id (DocumentsApi.chatbots_of user_id entries) s)
    as Hd.
  cbn [DocumentsApi.chatbots s].
  destruct (DocumentsApi.detach document_id _ s) as [[[]|e] s1] eqn:Hdet;
    cbn [snd] in Hd.
  - destruct (delete_steps_run document_id document s1) as (r & s2 & -> & Hc & Hr);
      [ now rewrite Hd | exact Ht | ].
    destruct r as [[]|e].
    + eexists _, _. split; [ reflexivity | ].
      exists s1. split; [ reflexivity | ]. split; [ exact Hc | exact Hr ].
    + unfold Http.hraise. eexists _, _. split; [ reflexivity | ].
      split; [ reflexivity | ]. split; [ eauto | ]. now rewrite Hr, Hd.
  - unfold Http.hraise. eexists _, _. split; [ reflexivity | ].
    split; [ reflexivity | ]. split; [ eauto | ]. now rewrite Hd.
Qed.


(** The documents an entry of [chatbots] lists. *)
Lemma detach_invariant document_id user_id listed (s s' : Store) :
  DocumentsApi.detach document_id listed s = (Ok tt, s') ->
  (forall entry, In entry (DocumentsApi.chatbots s) ->
     DocumentsApi.cb_ownerId (snd entry) = Some user_id ->
     In document_id (default [] (DocumentsApi.cb_documents (snd entry))) ->
     In (snd entry) listed /\ DocumentsApi.cb_id (snd entry) = Some (fst entry)) ->
  map fst (DocumentsApi.chatbots s') = map fst (DocumentsApi.chatbots s) /\
  Forall (fun entry =>
            DocumentsApi.cb_ownerId (snd entry) = Some user_id ->
            ~ In document_id (default [] (DocumentsApi.cb_documents (snd entry))))
    (DocumentsApi.chatbots s').
Proof.
  revert s. induction listed as [|chatbot rest IH]; intros s Hrun Hinv.
  - injection Hrun as <-. split; [ reflexivity | ].
    apply List.Forall_forall. intros entry Hin Howner Hlisted.
    destruct (Hinv entry Hin Howner Hlisted) as [[] _].
  - cbn [DocumentsApi.detach] in Hrun. unfold bind at 1 in Hrun.
    destruct (existsb (String.eqb document_id)
                (default [] (DocumentsApi.cb_documents chatbot))) eqn:Hex.
    + destruct (DocumentsApi.cb_id chatbot) as [chatbot_id|] eqn:Hid;
        [ | discriminate ].
      unfold bind at 1 in Hrun. unfold DocumentsApi.update_chatbot in Hrun.
      destruct (existsb _ (DocumentsApi.chatbots s)); [ | discriminate ].
      unfold ret at 1 in Hrun.
      apply IH in Hrun.
      * destruct Hrun as [Hnames Hall]. split; [ | exact Hall ].
        rewrite Hnames. cbn [DocumentsApi.chatbots]. rewrite map_map.
        apply map_ext. intros entry. now destruct (String.eqb (fst entry) chatbot_id).
      * cbn [DocumentsApi.chatbots]. intros entry Hin Howner Hlisted.
        apply in_map_iff in Hin as (old & Hold & Hin).
        destruct (String.eqb (fst old) chatbot_id) eqn:Hname.
        -- subst entry. cbn [snd DocumentsApi.cb_documents default] in Hlisted.
           apply filter_In in Hlisted as [_ Hne].
           rewrite String.eqb_refl in Hne. discriminate.
        -- subst entry.
           destruct (Hinv old Hin Howner Hlisted) as [[Heq|Hrest] Hcb].
           ++ rewrite <- Heq, Hid in Hcb. injection Hcb as Hcb.
              apply String.eqb_neq in Hname. congruence.
           ++ split; [ exact Hrest | exact Hcb ].
    + unfold ret at 1 in Hrun. apply IH in Hrun; [ exact Hrun | ].
      intros entry Hin Howner Hlisted.
      destruct (Hinv entry Hin Howner Hlisted) as [[Heq|Hrest] Hcb].
      * exfalso. subst chatbot.
        assert (Hex' : existsb (String.eqb document_id)
                         (default [] (DocumentsApi.cb_documents (snd entry))) = true).
        { apply existsb_exists. exists document_id.
          split; [ exact Hlisted | apply String.eqb_refl ]. }
        congruence.
      * split; [ exact Hrest | exact Hcb ].
Qed.

(** Extra X30.  When every chatbot carries its own name in its [id] field
    and the delete endpoint returns, no chatbot of the user lists the
    document any more, and the collection holds the same chatbots as
    before. *)
Theorem delete_endpoint_detaches_the_document document_id user_id (s : Store) :
  Forall (fun entry => DocumentsApi.cb_id (snd entry) = Some (fst entry))
    (DocumentsApi.chatbots s) ->
  fst (DocumentsApi.delete_document vector_db document_id user_id s)
  = Http.Returns tt ->
  map fst (DocumentsApi.chatbots
             (snd (DocumentsApi.delete_document vector_db document_id user_id s)))
  = map fst (DocumentsApi.chatbots s) /\
  Forall (fun entry =>
            DocumentsApi.cb_ownerId (snd entry) = Some user_id ->
            ~ In document_id (default [] (DocumentsApi.cb_documents (snd entry))))
    (DocumentsApi.chatbots
       (snd (DocumentsApi.delete_document vector_db document_id user_id s))).
Proof.
  intros Hids.
  destruct (doc_truthy (firestore (DocumentsApi.docs s) !! document_id)) eqn:Ht.
  2:{ unfold DocumentsApi.delete_document, Http.htry_other, Http.htry, Http.hbind,
        Http.call, DocumentsApi.on_docs, get_document.
      rewrite Ht. discriminate. }
  destruct (DocumentsApi.owned_by
              (default ∅ (firestore (DocumentsApi.docs s) !! document_id)) user_id)
    eqn:Ho.
  2:{ unfold DocumentsApi.delete_document, Http.htry_other, Http.htry, Http.hbind,
        Http.call, DocumentsApi.on_docs, get_document.
      rewrite Ht. cbn [negb]. rewrite Ho. discriminate. }
  destruct (firestore (DocumentsApi.docs s) !! document_id) as [document|] eqn:Hdoc;
    [ | discriminate ].
  cbn [default] in Ho.
  destruct (delete_endpoint_run document_id user_id document s Hdoc Ht Ho)
    as (r & s' & -> & Hr).
  cbn [fst snd]. intros ->.
  destruct Hr as (s1 & Hdet & Hc & _). rewrite Hc.
  apply (detach_invariant document_id user_id _ s s1 Hdet).
  intros entry Hin Howner _. split.
  - unfold DocumentsApi.chatbots_of. apply in_map. apply filter_In.
    split; [ exact Hin | ]. rewrite Howner. apply String.eqb_refl.
  - rewrite List.Forall_forall in Hids. exact (Hids entry Hin).
Qed.

End Delete.

(** Extra X30, witness: a chatbot of the owner that lists the document. *)
Lemma deleted_document_leaves_the_chatbot :
  (Forall (fun entry => DocumentsApi.cb_id (snd entry) = Some (fst entry))
     (DocumentsApi.chatbots Samples.owner_store) /\
   fst (DocumentsApi.delete_document Samples.vector_db "d1" "u1" Samples.owner_store)
   = Http.Returns tt) /\
  map fst (DocumentsApi.chatbots
             (snd (DocumentsApi.delete_document Samples.vector_db "d1" "u1"
                     Samples.owner_store)))
  = map fst (DocumentsApi.chatbots Samples.owner_store) /\
  Forall (fun entry =>
            DocumentsApi.cb_ownerId (snd entry) = Some "u1" ->
            ~ In "d1" (default [] (DocumentsApi.cb_documents (snd entry))))
    (DocumentsApi.chatbots
       (snd (DocumentsApi.delete_document Samples.vector_db "d1" "u1"
               Samples.owner_store))).
Proof.
  split.
  - split; [ repeat constructor | vm_compute; reflexivity ].
  - apply (delete_endpoint_detaches_the_document Samples.vector_db "d1" "u1"
             Samples.owner_store);
      [ repeat constructor | vm_compute; reflexivity ].
Defined.

End CallersMore.
